(* ===== verification/_CoqProject ===== *)
-Q . S2P
Prelude.v
Decimal.v
PyFloat.v
Binary64.v
ByteFormatter.v
ProcessRanker.v
ResourceProbe.v
TextFormat.v
Display.v
ProcessTable.v
PyInt.v
Monitor.v
