(* ===== verification/Prelude.v ===== *)
(** * A verification development for [src/tools/system_monitor.py]

    The program is a terminal resource monitor: one class, [SystemMonitor],
    whose methods probe the host through [psutil] (CPU, memory, disks,
    processes), turn the readings into dictionaries and [ProcessInfo]
    tuples, and print them; [main] runs one capture or a refresh loop.

    ** Files, in dependency order

    - [Prelude] (this file): the Python runtime notions every component
      shares.  Exceptions are values: [exn] lists the exception classes the
      program can meet, [result A] is [Ok a] or [Raise e], with stdpp's
      monad notation ([x ← m; k]).  [try_except] is a [try]/[except] block:
      the handler runs on the exceptions the clause catches ([except:]
      catches all, [except Exception] all but [KeyboardInterrupt], a tuple
      of classes exactly those).  [py_slice_to] is the slice [l[:n]] with
      Python's treatment of a negative bound; [py_endswith], [py_drop_last]
      and [py_lower] are [str.endswith], [s[:-n]] and [str.lower] on
      strings of 8-bit characters.
    - [Decimal]: decimal text.  [round_half_even] rounds a fraction to the
      nearest integer, ties to even; [fmt_tenths] prints a number of tenths
      the way the format specification [.1f] prints it.
    - [PyFloat]: the interface between the program and Python's [float].
      [PyFloatOps] lists the operations the source uses ([int / int],
      [float / float], [*], [+], [<], [round(x, 1)], [format(x, ".1f")]);
      [PyFloatLaws] states what the program relies on: the operations are
      exact on the values it feeds them (a 53-bit integer over a power of
      two), [<] is a strict weak order on ordered values, and rounding to
      one decimal yields the float nearest to a number of tenths.  The
      instance [exact_ops] (rationals in lowest terms) satisfies the laws
      and is the reference arithmetic.
    - [Binary64]: the operations on IEEE 754 binary64, built on the
      Standard Library's [SpecFloat] (53 bits of precision, exponents up to
      1024), i.e. what CPython computes.  Its order laws are proved; the
      program's definitions run on it by [vm_compute].
    - [ByteFormatter]: [format_bytes] (src lines 215-220): the unit chosen,
      the number printed, and the facts that make two callers misbehave.
    - [ProcessRanker]: [get_top_processes] (lines 158-211) and the ranking
      half of [display_processes] (lines 271-295): name normalisation, the
      deny list, the error paths of the two [try] blocks, the stable
      descending sort, the slice, the totals.

    ** How the model corresponds to the code

    Every method is one definition with the method's name.  What a method
    reads from the operating system is an argument: a record of readings
    in which each call that can fail is a [result] and each attribute
    [psutil] may leave unset is an [option] (psutil's [process_iter] stores
    [None] for an attribute it was denied).  A method's [try]/[except]
    structure is kept: the body is a [result] computation and the handler
    is applied by [try_except] with the clause's exception filter.
    Printing is not modelled as an effect; the text a method would print is
    a value where a theorem needs it.

    ** Numbers

    Python integers are [Z].  Floats are a parameter [F] with [PyFloatOps];
    the program's definitions are generic in it.  Theorems that only
    depend on the control flow hold for every [F]; theorems on values are
    proved from [PyFloatLaws].  Byte counts are bounded by [2^53] in those
    theorems: below it every quotient by 1024 the program forms is exact
    in binary64, so the bound is where exact arithmetic and the machine
    agree, and it is far above any memory or disk size (8 PiB).

    ** What the theorems show

    - [ByteFormatter]: the unit is the largest power of 1024 not above the
      input (capped at PB), the number is the input over that power,
      rounded half-even to one decimal; the output is never ["0 B"], so
      the swap test of [display_memory_info] (line 258) never hides the
      swap line; values just below a unit print as ["1024.0"].
    - [ProcessRanker]: the result is a prefix of the stable descending
      sort of the kept processes; it is sorted, a sub-multiset of the kept
      processes, of length [min limit kept]; deny-listed names never
      appear; a [None] attribute of a single process empties the whole
      result; a negative [limit] drops from the end; the totals printed by
      [display_processes] range over the truncated list only.

    ** Not modelled

    Terminal output formatting beyond the strings named above, the
    refresh loop and [main]'s argument parsing, [get_cpu_info],
    [get_memory_info], [get_disk_info] and [get_system_info] (planned next,
    in that order), and psutil's own sampling of CPU times, which is not
    code of this repository. *)

From Stdlib Require Import ZArith Lia Ascii.
From stdpp Require Import base tactics option list strings numbers sorting.

#[local] Open Scope Z_scope.

(** ** Exceptions as values *)

(** The exception classes the program raises, catches or lets through. *)
Inductive exn : Type :=
  | ZeroDivisionError
  | OverflowError
  | TypeError
  | AttributeError
  | KeyError
  | IndexError
  | ValueError
  | ImportError
  | OSError
  | NoSuchProcess
  | AccessDenied
  | ZombieProcess
  | KeyboardInterrupt.

#[export] Instance exn_eq_dec : EqDecision exn.
Proof. solve_decision. Defined.

(** [except Exception] catches every class above but [KeyboardInterrupt],
    which derives from [BaseException] only. *)
Definition is_Exception (e : exn) : bool :=
  match e with KeyboardInterrupt => false | _ => true end.

(** [except KeyboardInterrupt] and [except ValueError]. *)
Definition is_KeyboardInterrupt (e : exn) : bool :=
  bool_decide (e = KeyboardInterrupt).

Definition is_ValueError (e : exn) : bool := bool_decide (e = ValueError).

(** A bare [except:] catches everything. *)
Definition is_BaseException (e : exn) : bool := true.

(** [except (psutil.NoSuchProcess, psutil.AccessDenied, psutil.ZombieProcess)]. *)
Definition is_process_gone (e : exn) : bool :=
  match e with NoSuchProcess | AccessDenied | ZombieProcess => true | _ => false end.

(** The outcome of evaluating Python code: a value or a raised exception. *)
Inductive result (A : Type) : Type :=
  | Ok (a : A)
  | Raise (e : exn).
Arguments Ok {A} a.
Arguments Raise {A} e.

#[export] Instance result_eq_dec `{EqDecision A} : EqDecision (result A).
Proof. solve_decision. Defined.

#[export] Instance result_ret : MRet result := @Ok.
#[export] Instance result_bind : MBind result := λ A B f r,
  match r with Ok a => f a | Raise e => Raise e end.
#[export] Instance result_fmap : FMap result := λ A B f r,
  match r with Ok a => Ok (f a) | Raise e => Raise e end.

(** [try: body / except <caught>: handler]. *)
Definition try_except {A} (body : result A) (caught : exn → bool)
    (handler : exn → result A) : result A :=
  match body with
  | Ok a => Ok a
  | Raise e => if caught e then handler e else Raise e
  end.

(** [try: x = body] followed by a bare [except: x = default]: the value
    the statement leaves in [x]. *)
Definition try_bare {A} (body : result A) (default : A) : A :=
  match body with Ok a => a | Raise _ => default end.

(** The value of a computation that returned. *)
Definition ok_of {A} (r : result A) : option A :=
  match r with Ok a => Some a | Raise _ => None end.

(** Reading an attribute or calling a method of a value that may be [None]. *)
Definition attr_of {A} (o : option A) : result A :=
  match o with Some a => Ok a | None => Raise AttributeError end.

(** Using a value that may be [None] as an operand. *)
Definition operand_of {A} (o : option A) : result A :=
  match o with Some a => Ok a | None => Raise TypeError end.

Definition is_Ok {A} (r : result A) : Prop := ∃ a, r = Ok a.

#[export] Instance is_Ok_dec {A} (r : result A) : Decision (is_Ok r).
Proof.
  refine (match r with Ok a => left _ | Raise e => right _ end).
  - by exists a.
  - by intros [a ?].
Defined.

(** ** Sequences *)

(** [l[:n]]: the first [n] items, or all but the last [-n] when [n < 0]. *)
Definition py_slice_to {A} (n : Z) (l : list A) : list A :=
  if 0 <=? n then take (Z.to_nat n) l
  else take (length l - Z.to_nat (- n)) l.

(** ** Strings *)

Definition ascii_lower (c : ascii) : ascii :=
  let n := N_of_ascii c in
  if ((65 <=? n) && (n <=? 90))%N then ascii_of_N (n + 32) else c.

(** [s.lower()]. *)
Fixpoint py_lower (s : string) : string :=
  match s with
  | EmptyString => EmptyString
  | String c s' => String (ascii_lower c) (py_lower s')
  end.

(** [s.endswith(suffix)]. *)
Definition py_endswith (s suffix : string) : bool :=
  bool_decide (String.list_ascii_of_string suffix
                 `suffix_of` String.list_ascii_of_string s).

(** [s[:-n]] for [n > 0]. *)
Definition py_drop_last (n : nat) (s : string) : string :=
  String.string_of_list_ascii
    (take (length (String.list_ascii_of_string s) - n)
          (String.list_ascii_of_string s)).

(** ** Automation *)

Create HintDb py discriminated.
Create Rewrite HintDb py.

(** Closes a decidable goal on closed terms by evaluation. *)
Ltac decide_by_compute := apply (bool_decide_unpack _); vm_compute; exact I.

(** Case analysis on every [result] or [option] scrutinised in the goal. *)
Ltac case_result :=
  repeat match goal with
  | |- context [match ?r with Ok _ => _ | Raise _ => _ end] =>
      destruct r eqn:?; simplify_eq/=
  | |- context [match ?o with Some _ => _ | None => _ end] =>
      destruct o eqn:?; simplify_eq/=
  end.

(** Case analysis on the first computation of a sequence. *)
Ltac case_bind :=
  repeat match goal with
  | |- context [mbind _ ?r] => destruct r eqn:?; simpl
  end.

(** ** Lemmas on [result] *)

Section result_lemmas.
Context {A B : Type}.
Implicit Types (r : result A) (f : A → result B) (e : exn).

Lemma result_bind_Ok (a : A) f : Ok a ≫= f = f a.
Proof. done. Qed.

Lemma bind_Ok r f b :
  r ≫= f = Ok b ↔ ∃ a, r = Ok a ∧ f a = Ok b.
Proof.
  destruct r as [a|e]; simpl; split; try done.
  - intros ?. by exists a.
  - by intros (a' & [= ->] & ?).
  - by intros (a' & ? & ?).
Qed.

Lemma bind_Raise r f e :
  r ≫= f = Raise e ↔ r = Raise e ∨ ∃ a, r = Ok a ∧ f a = Raise e.
Proof.
  destruct r as [a|e']; simpl; split; try done.
  - intros ?. right. by exists a.
  - by intros [?|(a' & [= ->] & ?)].
  - by intros [= ->]; left.
  - by intros [[= ->]|(a' & ? & ?)].
Qed.

Lemma try_except_Ok (body : result A) caught handler a :
  body = Ok a → try_except body caught handler = Ok a.
Proof. by intros ->. Qed.

Lemma try_except_caught (body : result A) caught handler e :
  body = Raise e → caught e = true →
  try_except body caught handler = handler e.
Proof. intros -> H. unfold try_except. by rewrite H. Qed.

Lemma try_except_through (body : result A) caught handler e :
  body = Raise e → caught e = false →
  try_except body caught handler = Raise e.
Proof. intros -> H. unfold try_except. by rewrite H. Qed.

Lemma ok_of_Some (body : result A) a : ok_of body = Some a ↔ body = Ok a.
Proof. destruct body; simpl; split; congruence. Qed.

Lemma ok_of_None (body : result A) : ok_of body = None ↔ ¬ is_Ok body.
Proof.
  destruct body as [a|e]; simpl; split; try done.
  - intros Hn. destruct Hn. by exists a.
  - by intros _ [a ?].
Qed.

Lemma is_Ok_bind (body : result A) (k : A → result B) :
  is_Ok (body ≫= k) ↔ ∃ a, body = Ok a ∧ is_Ok (k a).
Proof.
  destruct body as [a|e]; simpl; split.
  - intros Hk. by exists a.
  - by intros (a' & [= <-] & Hk).
  - by intros [b ?].
  - by intros (a' & ? & _).
Qed.

Lemma try_bare_Ok (body : result A) (d a : A) :
  body = Ok a → try_bare body d = a.
Proof. by intros ->. Qed.

Lemma try_bare_Raise (body : result A) (d : A) :
  ¬ is_Ok body → try_bare body d = d.
Proof. destruct body as [a|e]; [|done]. intros Hn. destruct Hn. by exists a. Qed.

(** A bare [except] with a handler that returns is [try_bare]. *)
Lemma try_bare_try_except (body : result A) (d : A) :
  try_except body is_BaseException (λ _, Ok d) = Ok (try_bare body d).
Proof. by destruct body. Qed.

(** A handler that returns and catches [Exception] leaves only
    [KeyboardInterrupt] to escape. *)

Lemma try_except_Exception_escape (body : result A) (d : A) e :
  try_except body is_Exception (λ _, Ok d) = Raise e → e = KeyboardInterrupt.
Proof.
  destruct body as [a|e']; simpl; [done|].
  by destruct e'; simpl; intros [= <-].
Qed.

End result_lemmas.

(** ** Lemmas on slices *)

Section slice_lemmas.
Context {A : Type}.
Implicit Types (l : list A) (n : Z).

Lemma py_slice_to_nonneg n l :
  0 ≤ n → py_slice_to n l = take (Z.to_nat n) l.
Proof. intros. unfold py_slice_to. destruct (Z.leb_spec 0 n); [done|lia]. Qed.

Lemma py_slice_to_neg n l :
  n < 0 → py_slice_to n l = take (length l - Z.to_nat (- n)) l.
Proof. intros. unfold py_slice_to. destruct (Z.leb_spec 0 n); [lia|done]. Qed.

Lemma py_slice_to_nil n : py_slice_to n (@nil A) = [].
Proof. unfold py_slice_to. by destruct (0 <=? n); rewrite take_nil. Qed.

Lemma py_slice_to_length n l :
  length (py_slice_to n l) =
    if 0 <=? n then (Z.to_nat n `min` length l)%nat
    else (length l - Z.to_nat (- n))%nat.
Proof.
  unfold py_slice_to. destruct (0 <=? n); rewrite length_take; lia.
Qed.

Lemma py_slice_to_length_le n l :
  0 ≤ n → Z.of_nat (length (py_slice_to n l)) ≤ n.
Proof. intros. rewrite py_slice_to_nonneg, length_take by done. lia. Qed.

Lemma py_slice_to_prefix n l : py_slice_to n l `prefix_of` l.
Proof. unfold py_slice_to. destruct (0 <=? n); apply prefix_take. Qed.

Lemma py_slice_to_sublist n l : py_slice_to n l `sublist_of` l.
Proof.
  destruct (py_slice_to_prefix n l) as [k Hk]. rewrite Hk at 2.
  by apply sublist_inserts_r.
Qed.

Lemma py_slice_to_all n l :
  Z.of_nat (length l) ≤ n → py_slice_to n l = l.
Proof. intros. rewrite py_slice_to_nonneg; [|lia]. apply take_ge. lia. Qed.

(** Slicing twice with the same bound is slicing once. *)
Lemma py_slice_to_idemp n l :
  0 ≤ n → py_slice_to n (py_slice_to n l) = py_slice_to n l.
Proof.
  intros. rewrite !py_slice_to_nonneg by done. rewrite take_take. f_equal. lia.
Qed.

End slice_lemmas.

(** ** Lemmas on lists *)

Lemma omap_cons {A B} (f : A → option B) x l :
  omap f (x :: l) = match f x with Some y => y :: omap f l | None => omap f l end.
Proof. done. Qed.

Lemma length_omap_le {A B} (f : A → option B) l :
  (length (omap f l) ≤ length l)%nat.
Proof.
  induction l as [|x l IH]; [done|]. rewrite omap_cons.
  destruct (f x); simpl; lia.
Qed.

Lemma StronglySorted_filter {A} (R : relation A) (P : A → Prop)
    `{∀ x, Decision (P x)} l :
  StronglySorted R l → StronglySorted R (filter P l).
Proof.
  induction 1 as [|x l Hl IH Hx]; [constructor|].
  rewrite filter_cons. destruct (decide (P x)); [|done].
  constructor; [done|].
  rewrite Forall_forall in *. intros y [_ Hy]%list_elem_of_filter. auto.
Qed.

Lemma StronglySorted_prefix {A} (R : relation A) l k :
  k `prefix_of` l → StronglySorted R l → StronglySorted R k.
Proof.
  intros [k' ->] Hs. induction k as [|x k IH]; [constructor|].
  simpl in Hs. inversion_clear Hs as [|? ? Hk Hx].
  constructor; [by apply IH|]. by apply Forall_app in Hx as [? _].
Qed.

(** ** Lemmas on strings *)

Lemma string_app_cons c (a b : string) : String c a +:+ b = String c (a +:+ b).
Proof. done. Qed.

Lemma string_app_assoc (a b c : string) : (a +:+ b) +:+ c = a +:+ (b +:+ c).
Proof.
  induction a as [|x a IH]; [done|]. by rewrite !string_app_cons, IH.
Qed.

Lemma string_app_length a b :
  String.length (a +:+ b) = (String.length a + String.length b)%nat.
Proof. induction a as [|c a IH]; simpl; [done|]. by rewrite IH. Qed.

Lemma list_ascii_of_string_app a b :
  String.list_ascii_of_string (a +:+ b)
  = String.list_ascii_of_string a ++ String.list_ascii_of_string b.
Proof. induction a as [|c a IH]; simpl; [done|]. by rewrite IH. Qed.

Lemma string_of_list_ascii_app k1 k2 :
  String.string_of_list_ascii (k1 ++ k2)
  = String.string_of_list_ascii k1 +:+ String.string_of_list_ascii k2.
Proof. induction k1 as [|c k1 IH]; simpl; [done|]. by rewrite IH. Qed.

Lemma list_ascii_of_string_length a :
  length (String.list_ascii_of_string a) = String.length a.
Proof. induction a as [|c a IH]; simpl; [done|]. by rewrite IH. Qed.

Lemma ascii_lower_idemp c : ascii_lower (ascii_lower c) = ascii_lower c.
Proof. by destruct c as [[] [] [] [] [] [] [] []]. Qed.

Lemma py_lower_idemp s : py_lower (py_lower s) = py_lower s.
Proof. induction s; simpl; by rewrite ?ascii_lower_idemp, ?IHs. Qed.

Lemma py_lower_length s : String.length (py_lower s) = String.length s.
Proof. induction s; simpl; by rewrite ?IHs. Qed.

Lemma py_endswith_spec s suffix :
  py_endswith s suffix = true ↔ ∃ p, s = p +:+ suffix.
Proof.
  unfold py_endswith. rewrite bool_decide_eq_true. split.
  - intros [p Hp]. exists (String.string_of_list_ascii p).
    rewrite <- (String.string_of_list_ascii_of_string s), Hp.
    by rewrite string_of_list_ascii_app, String.string_of_list_ascii_of_string.
  - intros [p ->]. exists (String.list_ascii_of_string p).
    apply list_ascii_of_string_app.
Qed.

Lemma py_drop_last_app p suffix :
  py_drop_last (String.length suffix) (p +:+ suffix) = p.
Proof.
  unfold py_drop_last.
  rewrite list_ascii_of_string_app, length_app, !list_ascii_of_string_length.
  replace (String.length p + String.length suffix - String.length suffix)%nat
    with (length (String.list_ascii_of_string p))
    by (rewrite list_ascii_of_string_length; lia).
  by rewrite take_app_length, String.string_of_list_ascii_of_string.
Qed.
