(* ===== verification/Decimal.v ===== *)
(** * Decimal: rounding to tenths and the text of [.1f]

    Python prints a float under the format specification [.1f] by rounding
    its exact value to the nearest multiple of one tenth, ties to the even
    tenth, and writing the integer part, a point and one digit.
    [round_half_even n d] is that rounding of the fraction [n / d] to an
    integer; [fmt_tenths t] is the text of [t] tenths.  The lemmas give the
    arithmetic of the rounding (error bound, monotonicity, invariance under
    scaling of the fraction) and the shape of the text. *)

From Stdlib Require Import ZArith Lia Ascii.
From stdpp Require Import base tactics option list strings numbers pretty.
From S2P Require Import Prelude.

#[local] Open Scope Z_scope.

(** ** Definitions *)

(** The integer nearest to [n / d], ties to even ([d > 0]). *)
Definition round_half_even (n d : Z) : Z :=
  let q := n `div` d in
  let r := n `mod` d in
  match 2 * r ?= d with
  | Lt => q
  | Gt => q + 1
  | Eq => if Z.even q then q else q + 1
  end.

(** The text of [t / 10] with one decimal. *)
Definition fmt_tenths (t : Z) : string :=
  (if t <? 0 then "-" else "")
  +:+ pretty (Z.to_N (Z.abs t `div` 10))
  +:+ "."
  +:+ String (pretty_N_char (Z.to_N (Z.abs t `mod` 10))) "".

(** The text of the integer [u] with no decimals, as [.0f] prints a value
    rounded to [u]. *)
Definition fmt_units (u : Z) : string :=
  (if u <? 0 then "-" else "") +:+ pretty (Z.to_N (Z.abs u)).

(** The number of tenths nearest to [n / d]. *)
Definition tenths_of (n d : Z) : Z := round_half_even (10 * n) d.

(** ** Rounding *)

Section rounding.
Implicit Types (n d q : Z).

(** Characterisation: [q] is the rounding when it is within one half and,
    on a tie, even. *)
Lemma round_half_even_unique n d q :
  0 < d →
  2 * Z.abs (q * d - n) ≤ d →
  (2 * Z.abs (q * d - n) = d → Z.even q = true) →
  round_half_even n d = q.
Proof.
  intros Hd Hnear Htie. unfold round_half_even.
  pose proof (Z.div_mod n d ltac:(lia)) as Hdm.
  pose proof (Z.mod_pos_bound n d Hd) as Hr.
  set (q0 := n `div` d) in *. set (r := n `mod` d) in *.
  assert (q = q0 ∨ q = q0 + 1) as Hq by nia.
  destruct (Z.compare_spec (2 * r) d) as [He|Hl|Hg].
  - destruct (Z.even q0) eqn:Hev.
    + destruct Hq as [->| ->]; [done|].
      rewrite Z.even_add in Htie. rewrite Hev in Htie.
      discriminate Htie. nia.
    + destruct Hq as [->| ->]; [|done].
      rewrite Hev in Htie. discriminate Htie. nia.
  - destruct Hq as [->| ->]; [done|nia].
  - destruct Hq as [->| ->]; [nia|done].
Qed.

Lemma round_half_even_near n d :
  0 < d → 2 * Z.abs (round_half_even n d * d - n) ≤ d.
Proof.
  intros Hd. unfold round_half_even.
  pose proof (Z.div_mod n d ltac:(lia)) as Hdm.
  pose proof (Z.mod_pos_bound n d Hd) as Hr.
  destruct (Z.compare_spec (2 * (n `mod` d)) d);
    [destruct (Z.even _)|..]; nia.
Qed.

Lemma round_half_even_tie n d :
  0 < d → 2 * Z.abs (round_half_even n d * d - n) = d →
  Z.even (round_half_even n d) = true.
Proof.
  intros Hd. unfold round_half_even.
  pose proof (Z.div_mod n d ltac:(lia)) as Hdm.
  pose proof (Z.mod_pos_bound n d Hd) as Hr.
  destruct (Z.compare_spec (2 * (n `mod` d)) d) as [He|Hl|Hg].
  - destruct (Z.even (n `div` d)) eqn:Hev; [done|].
    intros _. rewrite Z.even_add, Hev. done.
  - nia.
  - nia.
Qed.

(** The rounding depends on the fraction only. *)
Lemma round_half_even_proportional n d n' d' :
  0 < d → 0 < d' → n * d' = n' * d →
  round_half_even n d = round_half_even n' d'.
Proof.
  intros Hd Hd' Heq. symmetry. apply round_half_even_unique; [done|..].
  - pose proof (round_half_even_near n d Hd). nia.
  - intros Htie. apply round_half_even_tie; [done|]. nia.
Qed.

Lemma round_half_even_scale c n d :
  0 < c → 0 < d → round_half_even (c * n) (c * d) = round_half_even n d.
Proof. intros. apply round_half_even_proportional; lia. Qed.

(** An integer rounds to itself. *)
Lemma round_half_even_exact q d :
  0 < d → round_half_even (q * d) d = q.
Proof.
  intros. apply round_half_even_unique; [done|..].
  - replace (q * d - q * d) with 0 by lia. simpl. lia.
  - replace (q * d - q * d) with 0 by lia. simpl. lia.
Qed.

Lemma round_half_even_1 n : round_half_even n 1 = n.
Proof. rewrite <- (Z.mul_1_r n) at 1. by apply round_half_even_exact. Qed.

Lemma tenths_of_1 n : tenths_of n 1 = 10 * n.
Proof. apply round_half_even_1. Qed.

Lemma round_half_even_mono n n' d :
  0 < d → n ≤ n' → round_half_even n d ≤ round_half_even n' d.
Proof.
  intros Hd Hle.
  pose proof (round_half_even_near n d Hd) as H1.
  pose proof (round_half_even_near n' d Hd) as H2.
  pose proof (round_half_even_tie n d Hd) as T1.
  pose proof (round_half_even_tie n' d Hd) as T2.
  destruct (Z_le_gt_dec (round_half_even n d) (round_half_even n' d))
    as [|Hgt]; [done|exfalso].
  set (a := round_half_even n d) in *. set (b := round_half_even n' d) in *.
  assert (a = b + 1) as Ha by nia.
  assert (2 * Z.abs (a * d - n) = d) as E1 by nia.
  assert (2 * Z.abs (b * d - n') = d) as E2 by nia.
  specialize (T1 E1). specialize (T2 E2).
  rewrite Ha, Z.even_add, T2 in T1. done.
Qed.

Lemma round_half_even_nonneg n d :
  0 < d → 0 ≤ n → 0 ≤ round_half_even n d.
Proof.
  intros Hd Hn. rewrite <- (round_half_even_exact 0 d Hd).
  by apply round_half_even_mono.
Qed.

(** A value below [k] rounds to at most [k]. *)
Lemma round_half_even_le n d k :
  0 < d → n ≤ k * d → round_half_even n d ≤ k.
Proof.
  intros Hd Hn. rewrite <- (round_half_even_exact k d Hd).
  by apply round_half_even_mono.
Qed.

End rounding.

(** ** The text *)

Lemma pretty_N_go_length x s :
  (String.length s ≤ String.length (pretty_N_go x s))%nat.
Proof.
  revert s. induction (N.lt_wf_0 x) as [x _ IH]; intros s.
  assert (x = 0 ∨ 0 < x)%N as [->|?] by lia; [by rewrite pretty_N_go_0|].
  rewrite pretty_N_go_step by done.
  etrans; [|by eapply IH, N.div_lt]. simpl. lia.
Qed.

Lemma pretty_N_length (x : N) : (1 ≤ String.length (pretty x))%nat.
Proof.
  unfold pretty, pretty_N. case_decide; [simpl; lia|].
  rewrite pretty_N_go_step by lia.
  etrans; [|apply pretty_N_go_length]. simpl. lia.
Qed.

(** One decimal takes at least three characters: ["d.d"]. *)
Lemma fmt_tenths_length t : (3 ≤ String.length (fmt_tenths t))%nat.
Proof.
  unfold fmt_tenths. rewrite !string_app_length. simpl.
  pose proof (pretty_N_length (Z.to_N (Z.abs t `div` 10))). lia.
Qed.

Lemma fmt_tenths_nonneg t :
  0 ≤ t →
  fmt_tenths t = pretty (Z.to_N (t `div` 10)) +:+ "." +:+
                 String (pretty_N_char (Z.to_N (t `mod` 10))) "".
Proof.
  intros. unfold fmt_tenths. rewrite Z.abs_eq by done.
  destruct (Z.ltb_spec t 0); [lia|done].
Qed.

(** Splitting a text at its last two characters. *)
Lemma string_app_inj_tail a b c1 c2 d1 d2 :
  a +:+ String c1 (String d1 "") = b +:+ String c2 (String d2 "") →
  a = b ∧ c1 = c2 ∧ d1 = d2.
Proof.
  intros H. apply (f_equal String.list_ascii_of_string) in H.
  rewrite !list_ascii_of_string_app in H. simpl in H.
  apply app_inj_2 in H as [H1 [= -> ->]]; [|done].
  split; [|done].
  rewrite <- (String.string_of_list_ascii_of_string a),
          <- (String.string_of_list_ascii_of_string b). by f_equal.
Qed.

(** Distinct numbers of tenths print differently. *)
Lemma fmt_tenths_inj_nonneg t u :
  0 ≤ t → 0 ≤ u → fmt_tenths t = fmt_tenths u → t = u.
Proof.
  intros Ht Hu. rewrite !fmt_tenths_nonneg by done.
  change (?a +:+ "." +:+ String ?c "") with (a +:+ String "." (String c "")).
  intros (Hq & _ & Hr)%string_app_inj_tail.
  apply (inj pretty) in Hq.
  apply pretty_N_char_inj in Hr;
    [|pose proof (Z.mod_pos_bound t 10); lia|pose proof (Z.mod_pos_bound u 10); lia].
  rewrite (Z.div_mod t 10), (Z.div_mod u 10) by done.
  pose proof (Z.mod_pos_bound t 10). pose proof (Z.mod_pos_bound u 10).
  pose proof (Z.div_pos t 10). pose proof (Z.div_pos u 10). lia.
Qed.
