(* ===== verification/PyFloat.v ===== *)
(** * PyFloat: the program's view of Python's [float]

    [PyFloatOps F] lists the operations [system_monitor.py] applies to
    floats, with the exceptions Python raises from them.  [PyFloatLaws F]
    is the contract the program's value theorems are proved from: the
    operations are exact where the program uses them (a 53-bit integer over
    a power of two), comparison is a strict weak order on ordered values,
    and [round(x, 1)] is the float nearest to a number of tenths, which
    prints and compares as that number of tenths.

    [exact_ops] instantiates the operations with rationals in lowest terms
    ([Qc]) and [exact_laws] proves the contract for it: it is the reference
    arithmetic, in which nothing is rounded but what the program rounds. *)

From Stdlib Require Import ZArith Lia QArith Qcanon.
From stdpp Require Import base tactics option list strings numbers.
From S2P Require Import Prelude Decimal.

#[local] Open Scope Z_scope.

(** ** The operations *)

Class PyFloatOps (F : Type) := {
  (** [float(n)], also the conversion of an int operand of a float
      operation: [OverflowError] when [n] is too large. *)
  float_of_int : Z → result F;
  (** [n / m] on ints: the quotient correctly rounded. *)
  int_truediv : Z → Z → result F;
  (** [x / y]: [ZeroDivisionError] when [y] is zero. *)
  float_truediv : F → F → result F;
  (** [x * y]. *)
  float_mul : F → F → F;
  (** [x + y]. *)
  float_add : F → F → F;
  (** [x < y]. *)
  float_lt : F → F → bool;
  (** [x < n] for an int [n]: Python compares the two exactly. *)
  float_lt_int : F → Z → bool;
  (** [round(x, 1)]. *)
  float_round1 : F → F;
  (** [format(x, ".1f")]. *)
  float_fmt1 : F → string;
  (** [format(x, ".0f")]. *)
  float_fmt0 : F → string;
}.

(** A Python number: a variable such as [bytes_value] holds an int first
    and a float after a division. *)
Inductive number (F : Type) : Type :=
  | Int (n : Z)
  | Float (x : F).
Arguments Int {F} n.
Arguments Float {F} x.

Section derived.
Context `{PyFloatOps F}.

(** [x / n] with [n] an int. *)
Definition float_truediv_int (x : F) (n : Z) : result F :=
  y ← float_of_int n; float_truediv x y.

(** [v < k] for an int [k]. *)
Definition number_lt_int (v : number F) (k : Z) : bool :=
  match v with
  | Int n => bool_decide (n < k)
  | Float x => float_lt_int x k
  end.

(** [v / k] for an int [k]: always a float. *)
Definition number_truediv_int (v : number F) (k : Z) : result (number F) :=
  match v with
  | Int n => Float <$> int_truediv n k
  | Float x => Float <$> float_truediv_int x k
  end.

(** [x * n] with [n] an int. *)
Definition float_mul_int (x : F) (n : Z) : result F :=
  y ← float_of_int n; Ok (float_mul x y).

(** [format(n, ".1f")] for an int [n]: the int is converted first. *)
Definition int_fmt1 (n : Z) : result string :=
  x ← float_of_int n; Ok (float_fmt1 x).

(** [format(n, ".0f")] for an int [n]. *)
Definition int_fmt0 (n : Z) : result string :=
  x ← float_of_int n; Ok (float_fmt0 x).

(** [format(v, ".1f")]. *)
Definition number_fmt1 (v : number F) : result string :=
  match v with
  | Int n => int_fmt1 n
  | Float x => Ok (float_fmt1 x)
  end.

(** [x >= y] as the sort sees it: not [x < y]. *)
Definition float_ge (x y : F) : Prop := float_lt x y = false.

(** [sum(xs)] over floats: the built-in starts from the int [0], which the
    first addition converts, and adds from left to right.  (From Python
    3.12 on the built-in compensates the rounding errors of the additions;
    the two agree wherever the additions are exact.) *)
Definition float_sum (xs : list F) : result (number F) :=
  match xs with
  | [] => Ok (Int 0)
  | _ => z ← float_of_int 0; Ok (Float (foldl float_add z xs))
  end.

End derived.

(** ** The contract *)

(** Integers up to this bound convert to floats exactly. *)
Definition exact_bound : Z := 2 ^ 53.

(** Numbers of tenths up to this bound are told apart by their nearest
    floats. *)
Definition tenth_bound : Z := 10 ^ 15.

(** What holds of the operations on every operand: which exceptions they
    raise, and that [<] is asymmetric (a NaN is below and above nothing). *)
Class PyFloatBasic (F : Type) `{PyFloatOps F} := {
  float_of_int_raises n e : float_of_int n = Raise e → e = OverflowError;
  int_truediv_raises n m e :
    int_truediv n m = Raise e → e = ZeroDivisionError ∨ e = OverflowError;
  float_truediv_raises x y e :
    float_truediv x y = Raise e → e = ZeroDivisionError;
  float_lt_asym x y : float_lt x y = true → float_lt y x = false;
  int_truediv_zero n : int_truediv n 0 = Raise ZeroDivisionError;
  (** A float prints with a digit on each side of the point, or as "nan"
      or "inf". *)
  float_fmt1_length x : (3 ≤ String.length (float_fmt1 x))%nat;
  (** The int [0], from which [sum] starts, converts. *)
  float_of_int_0 : is_Ok (float_of_int 0);
}.

(** What holds where the program's values live. *)
Class PyFloatLaws (F : Type) `{PyFloatBasic F} := {
  (** [is_ratio x n d]: [x] is finite and is the number [n / d]. *)
  is_ratio : F → Z → Z → Prop;
  (** Neither an infinity nor a NaN. *)
  float_finite : F → Prop;
  (** Not a NaN. *)
  float_ordered : F → Prop;

  is_ratio_denominator x n d : is_ratio x n d → 0 < d;
  is_ratio_finite x n d : is_ratio x n d → float_finite x;
  is_ratio_proportional x n d n' d' :
    is_ratio x n d → 0 < d' → n * d' = n' * d → is_ratio x n' d';
  float_finite_ordered x : float_finite x → float_ordered x;

  float_of_int_exact n :
    Z.abs n ≤ exact_bound → ∃ x, float_of_int n = Ok x ∧ is_ratio x n 1;
  float_of_int_finite n x : float_of_int n = Ok x → float_finite x;
  int_truediv_exact n k :
    Z.abs n ≤ exact_bound → 0 ≤ k ≤ 1000 →
    ∃ x, int_truediv n (2 ^ k) = Ok x ∧ is_ratio x n (2 ^ k);
  int_truediv_finite n m x : int_truediv n m = Ok x → float_finite x;
  float_truediv_exact x y n k j :
    is_ratio x n (2 ^ k) → is_ratio y (2 ^ j) 1 →
    Z.abs n ≤ exact_bound → 0 ≤ k → 0 ≤ j → k + j ≤ 1000 →
    ∃ z, float_truediv x y = Ok z ∧ is_ratio z n (2 ^ (k + j));
  float_truediv_ordered x y z :
    float_finite x → float_ordered y → float_truediv x y = Ok z →
    float_ordered z;

  float_lt_exact x y n d n' d' :
    is_ratio x n d → is_ratio y n' d' →
    float_lt x y = bool_decide (n * d' < n' * d);
  float_lt_int_exact x n d m :
    is_ratio x n d → float_lt_int x m = bool_decide (n < m * d);
  float_lt_negtrans x y z :
    float_ordered x → float_ordered y → float_ordered z →
    float_lt x y = false → float_lt y z = false → float_lt x z = false;

  float_fmt1_exact x n d :
    is_ratio x n d → 0 ≤ n → float_fmt1 x = fmt_tenths (tenths_of n d);
  float_fmt0_exact x n d :
    is_ratio x n d → 0 ≤ n → float_fmt0 x = fmt_units (round_half_even n d);

  float_round1_exact x n d :
    is_ratio x n d → 0 ≤ n → tenths_of n d ≤ tenth_bound →
    int_truediv (tenths_of n d) 10 = Ok (float_round1 x);
  float_round1_ordered x : float_ordered x → float_ordered (float_round1 x);
  tenth_lt t u x y :
    0 ≤ t ≤ tenth_bound → 0 ≤ u ≤ tenth_bound →
    int_truediv t 10 = Ok x → int_truediv u 10 = Ok y →
    float_lt x y = bool_decide (t < u);
  tenth_fmt1 t x :
    0 ≤ t ≤ tenth_bound → int_truediv t 10 = Ok x →
    float_fmt1 x = fmt_tenths t;
  (** A quotient of ints in range is no larger than its numerator: it
      does not overflow. *)
  int_truediv_defined n m :
    m ≠ 0 → Z.abs n ≤ exact_bound → is_Ok (int_truediv n m);
}.

(** ** Consequences of the contract *)

Section basic.
Context `{PyFloatBasic F}.
Implicit Types (x y z : F) (n d k : Z) (e : exn).

Lemma float_ge_refl x : float_ge x x.
Proof.
  unfold float_ge. destruct (float_lt x x) eqn:E; [|done].
  by rewrite (float_lt_asym _ _ E) in E.
Qed.

Lemma float_lt_ge x y : float_lt x y = true → float_ge y x.
Proof. apply float_lt_asym. Qed.

(** [x / n] raises for a zero or an oversized [n] only. *)
Lemma float_truediv_int_raises_arith x n e :
  float_truediv_int x n = Raise e →
  e = ZeroDivisionError ∨ e = OverflowError.
Proof.
  unfold float_truediv_int. intros [He|(y & _ & He)]%bind_Raise.
  - right. by eapply float_of_int_raises.
  - left. by eapply float_truediv_raises.
Qed.

(** [sum] and the format of its result never raise. *)
Lemma float_sum_Ok (xs : list F) : is_Ok (float_sum xs).
Proof.
  unfold float_sum. destruct xs; [by eexists|].
  destruct float_of_int_0 as [z ->]. by eexists.
Qed.

Lemma number_fmt1_sum (xs : list F) v :
  float_sum xs = Ok v → is_Ok (number_fmt1 v).
Proof.
  unfold float_sum. destruct float_of_int_0 as [z Hz].
  destruct xs; [intros [= <-]|rewrite Hz; intros [= <-]]; simpl;
    [|by eexists].
  unfold int_fmt1. rewrite Hz. by eexists.
Qed.

(** The arithmetic raises subclasses of [Exception] only. *)
Lemma float_truediv_int_raises x n e :
  float_truediv_int x n = Raise e → is_Exception e = true.
Proof. by intros [-> | ->]%float_truediv_int_raises_arith. Qed.

Lemma int_truediv_raises_Exception n m e :
  int_truediv n m = Raise e → is_Exception e = true.
Proof. by intros [-> | ->]%int_truediv_raises. Qed.

End basic.

Section laws.
Context `{PyFloatLaws F}.
Implicit Types (x y z : F) (n d k : Z).

Lemma float_ge_trans x y z :
  float_ordered x → float_ordered y → float_ordered z →
  float_ge x y → float_ge y z → float_ge x z.
Proof. apply float_lt_negtrans. Qed.

(** The int constant [2 ^ j] as a float operand. *)
Lemma float_of_int_pow2 j :
  0 ≤ j ≤ 53 → ∃ y, float_of_int (2 ^ j) = Ok y ∧ is_ratio y (2 ^ j) 1.
Proof.
  intros Hj. apply float_of_int_exact. unfold exact_bound.
  rewrite Z.abs_eq by (apply Z.pow_nonneg; lia).
  apply Z.pow_le_mono_r; lia.
Qed.

(** Dividing an exact dyadic by the int [2 ^ j] is exact. *)
Lemma float_truediv_int_exact x n k j :
  is_ratio x n (2 ^ k) → Z.abs n ≤ exact_bound →
  0 ≤ k → 0 ≤ j ≤ 53 → k + j ≤ 1000 →
  ∃ z, float_truediv_int x (2 ^ j) = Ok z ∧ is_ratio z n (2 ^ (k + j)).
Proof.
  intros Hx Hn Hk Hj Hkj. unfold float_truediv_int.
  destruct (float_of_int_pow2 j Hj) as (y & -> & Hy). simpl.
  eapply float_truediv_exact; eauto; lia.
Qed.

Lemma int_fmt1_exact n :
  0 ≤ n ≤ exact_bound → int_fmt1 n = Ok (fmt_tenths (10 * n)).
Proof.
  intros Hn. unfold int_fmt1.
  destruct (float_of_int_exact n) as (x & -> & Hx); [lia|]. simpl.
  by rewrite (float_fmt1_exact x n 1), tenths_of_1 by (done || lia).
Qed.

End laws.

(** ** The reference arithmetic: exact rationals *)

Definition Qc_ratio (x : Qc) (n d : Z) : Prop :=
  0 < d ∧ Qnum x * d = n * QDen x.

Definition Qc_tenths (x : Qc) : Z := tenths_of (Qnum x) (QDen x).

#[export] Instance exact_ops : PyFloatOps Qc := {
  float_of_int n := Ok (Q2Qc (inject_Z n));
  int_truediv n m :=
    if decide (m = 0) then Raise ZeroDivisionError
    else Ok (Q2Qc (inject_Z n / inject_Z m));
  float_truediv x y :=
    if decide (y = Q2Qc 0) then Raise ZeroDivisionError else Ok (x / y)%Qc;
  float_mul := Qcmult;
  float_add := Qcplus;
  float_lt x y := bool_decide (x < y)%Qc;
  float_lt_int x m := bool_decide (x < Q2Qc (inject_Z m))%Qc;
  float_round1 x := Q2Qc (inject_Z (Qc_tenths x) / inject_Z 10);
  float_fmt1 x := fmt_tenths (Qc_tenths x);
  float_fmt0 x := fmt_units (round_half_even (Qnum x) (QDen x));
}.

Section exact.
Implicit Types (x y z : Qc) (n d k : Z) (q : Q).

(** A rational [q] in lowest terms is the ratio [n / d] when [q == n / d]. *)
Lemma Qc_ratio_Q2Qc q n d :
  0 < d → (q == inject_Z n / inject_Z d)%Q → Qc_ratio (Q2Qc q) n d.
Proof.
  intros Hd Hq. split; [done|]. simpl.
  assert (inject_Z n / inject_Z d == n # Z.to_pos d)%Q as Hnd.
  { unfold Qeq, Qdiv, Qmult, Qinv, inject_Z. simpl.
    destruct d as [|p|p]; simpl; [lia| |lia]. lia. }
  assert (Qred q == n # Z.to_pos d)%Q as Hr
    by (by rewrite Qred_correct, Hq, Hnd).
  unfold Qeq in Hr. simpl in Hr. by rewrite Z2Pos.id in Hr.
Qed.

Lemma Qc_ratio_Qeq x n d :
  Qc_ratio x n d → (x == inject_Z n / inject_Z d)%Q.
Proof.
  intros [Hd Hx]. unfold Qeq, Qdiv, Qmult, Qinv, inject_Z. simpl.
  destruct d as [|p|p]; simpl; [lia| |lia]. lia.
Qed.

Lemma Qc_ratio_lt x y n d n' d' :
  Qc_ratio x n d → Qc_ratio y n' d' →
  (x < y)%Qc ↔ n * d' < n' * d.
Proof.
  intros [Hd Hx] [Hd' Hy]. unfold Qclt, Qlt.
  pose proof (Pos2Z.is_pos (Qden x)). pose proof (Pos2Z.is_pos (Qden y)).
  assert (0 < d * d') by (apply Z.mul_pos_pos; lia).
  assert (0 < QDen x * QDen y) by (apply Z.mul_pos_pos; lia).
  rewrite (Z.mul_lt_mono_pos_r (d * d') (Qnum x * QDen y)) by done.
  rewrite (Z.mul_lt_mono_pos_r (QDen x * QDen y) (n * d')) by done.
  replace (Qnum x * QDen y * (d * d'))
    with ((Qnum x * d) * (d' * QDen y)) by ring.
  replace (Qnum y * QDen x * (d * d'))
    with ((Qnum y * d') * (d * QDen x)) by ring.
  rewrite Hx, Hy.
  replace (n * QDen x * (d' * QDen y)) with (n * d' * (QDen x * QDen y)) by ring.
  replace (n' * QDen y * (d * QDen x)) with (n' * d * (QDen x * QDen y)) by ring.
  done.
Qed.

Lemma Qc_tenths_ratio x n d : Qc_ratio x n d → Qc_tenths x = tenths_of n d.
Proof.
  intros [Hd Hx]. unfold Qc_tenths, tenths_of.
  apply round_half_even_proportional; [done..|lia].
Qed.

Lemma inject_Z_pow2_nonzero k : 0 ≤ k → ¬ (inject_Z (2 ^ k) == 0)%Q.
Proof.
  intros Hk. unfold Qeq, inject_Z. simpl.
  pose proof (Z.pow_pos_nonneg 2 k). lia.
Qed.

#[export] Instance exact_basic : PyFloatBasic Qc.
Proof.
  split; simpl.
  - done.
  - intros n m e. case_decide; [|done]. intros [= <-]. by left.
  - intros x y e. case_decide; [|done]. by intros [= <-].
  - intros x y. rewrite bool_decide_eq_true, bool_decide_eq_false.
    intros Hlt. by apply Qcle_not_lt, Qclt_le_weak.
  - done.
  - intros x. apply fmt_tenths_length.
  - by eexists.
Qed.

#[export] Instance exact_laws : PyFloatLaws Qc.
Proof.
  refine {| is_ratio := Qc_ratio;
            float_finite := λ _, True;
            float_ordered := λ _, True |}; try done.
  - by intros x n d [? _].
  - intros x n d n' d' [Hd Hx] Hd' Hp. split; [done|].
    apply (Z.mul_cancel_r _ _ d); [lia|].
    replace (Qnum x * d' * d) with (Qnum x * d * d') by lia.
    rewrite Hx. nia.
  - intros n _. eexists. split; [done|].
    apply Qc_ratio_Q2Qc; [done|]. unfold Qdiv, inject_Z, Qinv, Qmult, Qeq. simpl. lia.
  - intros n k _ Hk. pose proof (Z.pow_pos_nonneg 2 k). simpl.
    case_decide; [lia|]. eexists. split; [done|].
    apply Qc_ratio_Q2Qc; [lia|done].
  - intros x y n k j Hx Hy _ Hk Hj _. simpl.
    pose proof (Z.pow_pos_nonneg 2 k). pose proof (Z.pow_pos_nonneg 2 j).
    apply Qc_ratio_Qeq in Hx as Hxq. apply Qc_ratio_Qeq in Hy as Hyq.
    case_decide as Hy0.
    { exfalso. subst y. destruct Hy as [_ Hy]. simpl in Hy. lia. }
    eexists. split; [done|]. apply Qc_ratio_Q2Qc; [apply Z.pow_pos_nonneg; lia|].
    change (this (/ y)%Qc) with (Qred (/ y)).
    rewrite Qred_correct, Hxq, Hyq, Z.pow_add_r by done.
    rewrite !inject_Z_mult. field.
    split; by apply inject_Z_pow2_nonzero.
  - intros x y n d n' d' Hx Hy. simpl. apply bool_decide_ext.
    by apply Qc_ratio_lt.
  - intros x n d m Hx. simpl. apply bool_decide_ext.
    rewrite (Qc_ratio_lt x _ n d m 1 Hx); [lia|].
    apply Qc_ratio_Q2Qc; [done|]. unfold Qdiv, inject_Z, Qinv, Qmult, Qeq. simpl. lia.
  - intros x y z _ _ _. simpl. rewrite !bool_decide_eq_false.
    intros Hxy%Qcnot_lt_le Hyz%Qcnot_lt_le. apply Qcle_not_lt.
    by apply (Qcle_trans _ y).
  - intros x n d Hx _. simpl. f_equal. by apply Qc_tenths_ratio.
  - intros x n d [Hd Hx] _. simpl. f_equal.
    apply round_half_even_proportional; [done..|lia].
  - intros x n d Hx _ _. simpl. by rewrite (Qc_tenths_ratio x n d).
  - intros t u x y _ _. simpl. intros [= <-] [= <-].
    apply bool_decide_ext.
    rewrite (Qc_ratio_lt _ _ t 10 u 10) by (by apply Qc_ratio_Q2Qc). lia.
  - intros t x _. simpl. intros [= <-]. f_equal.
    rewrite (Qc_tenths_ratio _ t 10) by (by apply Qc_ratio_Q2Qc).
    unfold tenths_of. replace (10 * t) with (t * 10) by lia.
    by apply round_half_even_exact.
  - intros n m Hm _. simpl. case_decide; [done|]. by eexists.
Qed.

End exact.
