(* ===== verification/Binary64.v ===== *)
(** * Binary64: the operations on IEEE 754 double precision

    CPython's [float] is the C [double].  The Standard Library's
    [SpecFloat] specifies IEEE 754 arithmetic on [spec_float] (sign,
    mantissa, exponent; zeros, infinities, NaN) by integer computations,
    with rounding to nearest, ties to even.  This file fixes the format
    (53 bits of precision, maximal exponent 1024) and defines on it the
    operations of [PyFloatOps] the way CPython does them:

    - [float(n)] and [n / m] on ints round the exact value once and raise
      [OverflowError] where the result would be an infinity; [n / 0] and
      [x / 0.0] raise [ZeroDivisionError];
    - [x < n] compares the exact values;
    - [round(x, 1)] is the double nearest to the decimal with one digit
      nearest to [x]; [format(x, ".1f")] is that decimal.

    Everything computes: the program's definitions run on this instance
    by [vm_compute]. *)

From Stdlib Require Import ZArith Lia SpecFloat.
From stdpp Require Import base tactics option list strings numbers.
From S2P Require Import Prelude Decimal PyFloat.

#[local] Open Scope Z_scope.

(** ** The format *)

Definition prec : Z := 53.
Definition emax : Z := 1024.

Definition float64 : Set := spec_float.

Definition b64_is_nan (x : float64) : bool :=
  match x with S754_nan => true | _ => false end.

Definition b64_is_finite (x : float64) : bool :=
  match x with S754_zero _ | S754_finite _ _ _ => true | _ => false end.

Definition b64_is_zero (x : float64) : bool :=
  match x with S754_zero _ => true | _ => false end.

(** ** Exact values *)

(** The magnitude of a finite float in tenths, rounded half-even. *)
Definition b64_tenths (x : float64) : Z :=
  match x with
  | S754_finite _ m e =>
      if bool_decide (0 ≤ e) then tenths_of (Z.pos m * 2 ^ e) 1
      else tenths_of (Z.pos m) (2 ^ (- e))
  | _ => 0
  end.

(** The magnitude of a finite float rounded half-even to an integer. *)
Definition b64_units (x : float64) : Z :=
  match x with
  | S754_finite _ m e =>
      if bool_decide (0 ≤ e) then Z.pos m * 2 ^ e
      else round_half_even (Z.pos m) (2 ^ (- e))
  | _ => 0
  end.

Definition b64_sign (x : float64) : bool :=
  match x with
  | S754_zero s | S754_infinity s | S754_finite s _ _ => s
  | S754_nan => false
  end.

(** [signed s m] is [m] or [-m]. *)
Definition signed (s : bool) (m : Z) : Z := if s then - m else m.

(** ** The operations *)

(** The quotient of two positive integers, correctly rounded, with the
    sign [s]. *)
Definition b64_div_pos (s : bool) (n m : Z) : float64 :=
  let '(q, e, l) := SFdiv_core_binary prec emax n 0 m 0 in
  binary_round_aux prec emax s q e l.

Definition b64_of_int (n : Z) : result float64 :=
  let x := binary_normalize prec emax n 0 false in
  if b64_is_finite x then Ok x else Raise OverflowError.

Definition b64_int_truediv (n m : Z) : result float64 :=
  if bool_decide (m = 0) then Raise ZeroDivisionError
  else
    let s := xorb (bool_decide (n < 0)) (bool_decide (m < 0)) in
    if bool_decide (n = 0) then Ok (S754_zero s)
    else
      let x := b64_div_pos s (Z.abs n) (Z.abs m) in
      if b64_is_finite x then Ok x else Raise OverflowError.

Definition b64_truediv (x y : float64) : result float64 :=
  if b64_is_zero y then Raise ZeroDivisionError
  else Ok (SFdiv prec emax x y).

Definition b64_lt_int (x : float64) (n : Z) : bool :=
  match x with
  | S754_nan => false
  | S754_infinity s => s
  | S754_zero _ => bool_decide (0 < n)
  | S754_finite s m e =>
      if bool_decide (0 ≤ e) then bool_decide (signed s (Z.pos m) * 2 ^ e < n)
      else bool_decide (signed s (Z.pos m) < n * 2 ^ (- e))
  end.

Definition b64_round1 (x : float64) : float64 :=
  match x with
  | S754_finite s _ _ =>
      let t := b64_tenths x in
      if bool_decide (t = 0) then S754_zero s else b64_div_pos s t 10
  | _ => x
  end.

Definition b64_fmt1 (x : float64) : string :=
  match x with
  | S754_nan => "nan"
  | S754_infinity s => if s then "-inf" else "inf"
  | _ => (if b64_sign x then "-" else "") +:+ fmt_tenths (b64_tenths x)
  end.

Definition b64_fmt0 (x : float64) : string :=
  match x with
  | S754_nan => "nan"
  | S754_infinity s => if s then "-inf" else "inf"
  | _ => (if b64_sign x then "-" else "") +:+ fmt_units (b64_units x)
  end.

(** The double nearest to [t / 10]: a percentage as [psutil] reports it,
    rounded to one decimal. *)
Definition b64_of_tenths (t : Z) : float64 :=
  match b64_int_truediv t 10 with Ok x => x | Raise _ => S754_nan end.

#[export] Instance float64_eq_dec : EqDecision float64.
Proof. solve_decision. Defined.

#[export] Instance binary64_ops : PyFloatOps float64 := {
  float_of_int := b64_of_int;
  int_truediv := b64_int_truediv;
  float_truediv := b64_truediv;
  float_mul := SFmul prec emax;
  float_add := SFadd prec emax;
  float_lt := SFltb;
  float_lt_int := b64_lt_int;
  float_round1 := b64_round1;
  float_fmt1 := b64_fmt1;
  float_fmt0 := b64_fmt0;
}.

(** ** The order *)

Section order.
Implicit Types (x y z : float64).

Lemma SFcompare_antisym x y :
  SFcompare y x = CompOpp <$> SFcompare x y.
Proof.
  destruct x as [sx|sx| |sx mx ex], y as [sy|sy| |sy my ey]; simpl;
    try done; try (by destruct sx); try (by destruct sy);
    try (by destruct sx, sy).
  destruct sx, sy; simpl; try done;
    rewrite (Z.compare_antisym ex ey); destruct (ex ?= ey); simpl; try done;
    rewrite (Pos.compare_cont_antisym mx my); simpl;
    by destruct (Pos.compare_cont Eq mx my).
Qed.

(** [x < y] excludes [y < x], NaN included. *)
Lemma SFltb_asym x y : SFltb x y = true → SFltb y x = false.
Proof.
  unfold SFltb. rewrite (SFcompare_antisym x y).
  by destruct (SFcompare x y) as [[]|].
Qed.

End order.

#[export] Instance binary64_basic : PyFloatBasic float64.
Proof.
  split; simpl.
  - intros n e. unfold b64_of_int. by case_match; intros [= <-].
  - intros n m e. unfold b64_int_truediv.
    repeat case_bool_decide; try case_match; intros [= <-]; auto.
  - intros x y e. unfold b64_truediv. by case_match; intros [= <-].
  - apply SFltb_asym.
  - done.
  - intros x. unfold b64_fmt1.
    pose proof (fmt_tenths_length (b64_tenths x)).
    destruct x as [s|[]| |s m e]; try (simpl; lia);
      rewrite string_app_length; lia.
  - by eexists.
Qed.
