(* ===== verification/ByteFormatter.v ===== *)
(** * ByteFormatter: [SystemMonitor.format_bytes]

    [format_bytes] (src/tools/system_monitor.py, lines 215-220) walks the
    unit labels B, KB, MB, GB, TB: it returns the value with one decimal
    and the label as soon as the value is below 1024, divides by 1024
    otherwise, and prints what is left as PB.

    [format_bytes_loop] is the [for] loop, on the labels still to visit
    and the current value of [bytes_value]; [format_bytes] starts it.
    [format_bytes_spec] is the reference: the unit index by comparison
    with the powers of 1024, the input over that power rounded half-even
    to tenths.  The theorems: the loop computes the reference for inputs
    below [2^53]; the unit grows with the input; the number printed is at
    most 1024.0 and reaches it; the text is never ["0 B"]. *)

From Stdlib Require Import ZArith Lia QArith Qcanon.
From stdpp Require Import base tactics option list strings numbers.
From S2P Require Import Prelude Decimal PyFloat Binary64.

#[local] Open Scope Z_scope.

(** ** The code *)

(** The labels of the [for] loop (line 216). *)
Definition units : list string := ["B"; "KB"; "MB"; "GB"; "TB"].

Section code.
Context `{PyFloatOps F}.

(** The loop of lines 216-220 from an arbitrary iteration on: [us] are
    the labels not yet visited, [v] is [bytes_value]. *)
Fixpoint format_bytes_loop (us : list string) (v : number F) : result string :=
  match us with
  | [] =>
      s ← number_fmt1 v; Ok (s +:+ " PB")
  | unit :: us' =>
      if number_lt_int v 1024 then
        s ← number_fmt1 v; Ok (s +:+ " " +:+ unit)
      else
        v' ← number_truediv_int v 1024; format_bytes_loop us' v'
  end.

(** [format_bytes(bytes_value)] for an int, as [psutil] reports sizes. *)
Definition format_bytes (bytes_value : Z) : result string :=
  format_bytes_loop units (Int bytes_value).

End code.

(** ** The shape of the text, on every arithmetic *)

Section shape.
Context `{PyFloatBasic F}.

Lemma number_fmt1_length (v : number F) s :
  number_fmt1 v = Ok s → (3 ≤ String.length s)%nat.
Proof.
  destruct v as [n|x]; simpl.
  - unfold int_fmt1. intros (x & _ & [= <-])%bind_Ok. apply float_fmt1_length.
  - intros [= <-]. apply float_fmt1_length.
Qed.

Lemma format_bytes_loop_length us (v : number F) s :
  Forall (λ u, (1 ≤ String.length u)%nat) us →
  format_bytes_loop us v = Ok s → (5 ≤ String.length s)%nat.
Proof.
  revert v. induction us as [|u us IH]; intros v Hus; cbn [format_bytes_loop].
  - intros (t & Ht & [= <-])%bind_Ok. apply number_fmt1_length in Ht.
    rewrite string_app_length. simpl. lia.
  - inversion_clear Hus as [|? ? Hu Hus']. destruct (number_lt_int v 1024).
    + intros (t & Ht & [= <-])%bind_Ok. apply number_fmt1_length in Ht.
      rewrite !string_app_length. simpl. lia.
    + intros (v' & _ & Hl)%bind_Ok. eauto.
Qed.

(** No text [format_bytes] returns is shorter than ["0.0 B"]. *)
Lemma format_bytes_length (n : Z) s :
  format_bytes (F:=F) n = Ok s → (5 ≤ String.length s)%nat.
Proof.
  apply format_bytes_loop_length. unfold units.
  repeat (constructor; [simpl; lia|]). constructor.
Qed.

(** C34: [format_bytes] never returns the text ["0 B"], which
    [display_memory_info] (line 258) compares the swap total with: on
    every count, in double precision as in exact arithmetic, the text has
    at least five characters. *)
Theorem format_bytes_never_0_B (n : Z) : format_bytes (F:=F) n ≠ Ok "0 B".
Proof. intros Hs%format_bytes_length. simpl in Hs. lia. Qed.

End shape.

(** ** The reference *)

(** All labels, PB included. *)
Definition unit_names : list string := units ++ ["PB"].

(** The index of the unit: how many times 1024 divides into the value
    before it drops below 1024, five at most. *)
Definition unit_index (n : Z) : nat :=
  if bool_decide (n < 1024 ^ 1) then 0
  else if bool_decide (n < 1024 ^ 2) then 1
  else if bool_decide (n < 1024 ^ 3) then 2
  else if bool_decide (n < 1024 ^ 4) then 3
  else if bool_decide (n < 1024 ^ 5) then 4
  else 5.

(** The number of tenths printed for [n] bytes. *)
Definition unit_tenths (n : Z) : Z :=
  tenths_of n (1024 ^ Z.of_nat (unit_index n)).

Definition format_bytes_spec (n : Z) : string :=
  fmt_tenths (unit_tenths n) +:+ " " +:+ default "" (unit_names !! unit_index n).

(** ** The loop computes the reference *)

Section refinement.
Context `{PyFloatLaws F}.
Implicit Types (n : Z) (i : nat) (x : F).

(** The value of [bytes_value] after [i] divisions of the input [n]. *)
Definition loop_value (n : Z) (i : nat) (v : number F) : Prop :=
  match v with
  | Int m => i = 0%nat ∧ m = n
  | Float x => is_ratio x n (2 ^ (10 * Z.of_nat i))
  end.

Lemma pow_1024 i : 1024 ^ Z.of_nat i = 2 ^ (10 * Z.of_nat i).
Proof. change 1024 with (2 ^ 10). rewrite <- Z.pow_mul_r; [done|lia..]. Qed.

Lemma loop_value_lt n i v :
  loop_value n i v →
  number_lt_int v 1024 = bool_decide (n < 1024 ^ Z.of_nat (S i)).
Proof.
  destruct v as [m|x]; simpl.
  - intros [-> ->]. done.
  - intros Hx. rewrite (float_lt_int_exact x n _ 1024 Hx).
    apply bool_decide_ext.
    rewrite Nat2Z.inj_succ, Z.pow_succ_r, pow_1024 by lia. done.
Qed.

Lemma loop_value_fmt n i v :
  0 ≤ n ≤ exact_bound → loop_value n i v →
  number_fmt1 v = Ok (fmt_tenths (tenths_of n (1024 ^ Z.of_nat i))).
Proof.
  intros Hn. destruct v as [m|x]; simpl.
  - intros [-> ->]. by rewrite int_fmt1_exact, Z.pow_0_r, tenths_of_1.
  - intros Hx. rewrite pow_1024.
    by rewrite (float_fmt1_exact x n _ Hx) by lia.
Qed.

Lemma loop_value_div n i v :
  0 ≤ n ≤ exact_bound → (i ≤ 5)%nat → loop_value n i v →
  ∃ v', number_truediv_int v 1024 = Ok v' ∧ loop_value n (S i) v'.
Proof.
  intros Hn Hi. destruct v as [m|x]; simpl.
  - intros [-> ->].
    destruct (int_truediv_exact n 10) as (x & Hx & Hr); [lia..|].
    change (2 ^ 10) with 1024 in Hx. rewrite Hx. by exists (Float x).
  - intros Hx.
    destruct (float_truediv_int_exact x n (10 * Z.of_nat i) 10)
      as (z & Hz & Hr); [done|lia..|].
    change (2 ^ 10) with 1024 in Hz. rewrite Hz. exists (Float z).
    split; [done|]. simpl. by replace (10 * Z.of_nat (S i))
      with (10 * Z.of_nat i + 10) by lia.
Qed.

(** The loop from iteration [i] on, for an input that reached it. *)
Lemma format_bytes_loop_spec n i v :
  0 ≤ n ≤ exact_bound →
  loop_value n i v →
  (i ≤ 5)%nat →
  (i = 0%nat ∨ 1024 ^ Z.of_nat i ≤ n) →
  format_bytes_loop (drop i units) v = Ok (format_bytes_spec n).
Proof.
  intros Hn. remember (5 - i)%nat as k eqn:Hk.
  revert i v Hk. induction k as [|k IH]; intros i v Hk Hv Hi Hlow.
  - assert (i = 5%nat) as -> by lia. simpl.
    rewrite (loop_value_fmt n 5 v) by done. simpl.
    destruct Hlow as [|Hlow]; [done|].
    unfold format_bytes_spec, unit_tenths, unit_index.
    repeat (case_bool_decide; [lia|]). done.
  - assert (∃ u us, drop i units = u :: us ∧ drop (S i) units = us
                    ∧ unit_names !! i = Some u) as (u & us & -> & Hus & Hu).
    { do 5 (destruct i as [|i]; [by eauto|]). lia. }
    simpl. rewrite (loop_value_lt n i v) by done.
    case_bool_decide as Hlt.
    + rewrite (loop_value_fmt n i v) by done. simpl.
      unfold format_bytes_spec, unit_tenths.
      assert (unit_index n = i) as ->; [|by rewrite Hu].
      unfold unit_index. clear IH Hu Hus.
      do 5 (destruct i as [|i];
            [repeat (case_bool_decide; [lia|]); by (done || lia)|]). lia.
    + destruct (loop_value_div n i v) as (v' & -> & Hv'); [done|lia|done|].
      simpl. rewrite <- Hus. apply IH; [lia|done|lia|right; lia].
Qed.

End refinement.

(** ** Properties of the reference *)

Lemma unit_index_le n : (unit_index n ≤ 5)%nat.
Proof. unfold unit_index. repeat case_bool_decide; lia. Qed.

Lemma unit_index_mono n m : n ≤ m → (unit_index n ≤ unit_index m)%nat.
Proof. intros. unfold unit_index. repeat case_bool_decide; lia. Qed.

(** The value left when the loop stops is below 1024, up to PB. *)
Lemma unit_index_upper n :
  n < 1024 ^ 6 → n < 1024 * 1024 ^ Z.of_nat (unit_index n).
Proof. unfold unit_index. repeat case_bool_decide; simpl; lia. Qed.

Lemma unit_index_lower n :
  unit_index n ≠ 0%nat → 1024 ^ Z.of_nat (unit_index n) ≤ n.
Proof. unfold unit_index. repeat case_bool_decide; simpl; lia. Qed.

Lemma unit_names_lookup n : is_Some (unit_names !! unit_index n).
Proof.
  apply lookup_lt_is_Some. pose proof (unit_index_le n).
  unfold unit_names, units. simpl. lia.
Qed.

Lemma unit_tenths_bounds n :
  0 ≤ n < 1024 ^ 6 → 0 ≤ unit_tenths n ≤ 10240.
Proof.
  intros Hn. unfold unit_tenths, tenths_of.
  pose proof (unit_index_upper n ltac:(lia)).
  assert (0 < 1024 ^ Z.of_nat (unit_index n)) by (apply Z.pow_pos_nonneg; lia).
  split; [apply round_half_even_nonneg; lia|].
  apply round_half_even_le; lia.
Qed.

(** ** Theorems *)

Section theorems.
Context `{PyFloatLaws F}.

(** The text of a count in range, for the other components. *)
Lemma format_bytes_in_range (n : Z) :
  0 ≤ n ≤ exact_bound →
  format_bytes (F:=F) n = Ok (format_bytes_spec n).
Proof.
  intros Hn. apply (format_bytes_loop_spec n 0 (Int n)); simpl; auto with lia.
Qed.

(** Its length: no text is shorter than ["0.0 B"]. *)
Lemma format_bytes_spec_length (n : Z) :
  (5 ≤ String.length (format_bytes_spec n))%nat.
Proof.
  unfold format_bytes_spec. rewrite !string_app_length.
  pose proof (fmt_tenths_length (unit_tenths n)).
  destruct (unit_names_lookup n) as [u Hu]. rewrite Hu. simpl.
  assert (1 ≤ String.length u)%nat; [|lia].
  apply list_elem_of_lookup_2 in Hu. unfold unit_names, units in Hu.
  simpl in Hu.
  repeat (apply elem_of_cons in Hu as [->|Hu]; [simpl; lia|]).
  by apply elem_of_nil in Hu.
Qed.

(** C2: for a byte count between 0 and 2^53, [format_bytes] returns
    without an exception, and its text is the reference: the count over
    the largest power of 1024 not above it (at most 1024^5), rounded
    half-even to one decimal, then a space and the unit of that power. *)
Theorem format_bytes_refines (n : Z) :
  0 ≤ n ≤ exact_bound →
  format_bytes (F:=F) n = Ok (format_bytes_spec n).
Proof.
  intros Hn. apply (format_bytes_loop_spec n 0 (Int n)); simpl; auto with lia.
Qed.

(** C35: the unit never shrinks when the byte count grows: for counts
    [n ≤ m] in range, the texts of [format_bytes] end in the units of
    indices [i ≤ j] in B, KB, MB, GB, TB, PB. *)
Theorem format_bytes_unit_monotone (n m : Z) :
  0 ≤ n → n ≤ m → m ≤ exact_bound →
  ∃ (i j : nat) (s t u v : string),
    format_bytes (F:=F) n = Ok (s +:+ " " +:+ u) ∧
    format_bytes (F:=F) m = Ok (t +:+ " " +:+ v) ∧
    unit_names !! i = Some u ∧ unit_names !! j = Some v ∧ (i ≤ j)%nat.
Proof.
  intros Hn Hnm Hm.
  destruct (unit_names_lookup n) as [u Hu], (unit_names_lookup m) as [v Hv].
  exists (unit_index n), (unit_index m),
    (fmt_tenths (unit_tenths n)), (fmt_tenths (unit_tenths m)), u, v.
  rewrite !format_bytes_in_range by lia. unfold format_bytes_spec.
  rewrite Hu, Hv. simpl. split_and!; try done. by apply unit_index_mono.
Qed.

(** C36: the number [format_bytes] prints is between 0.0 and 1024.0: for a
    count in range the text is [fmt_tenths t] followed by a unit, with
    [0 ≤ t ≤ 10240] tenths. *)
Theorem format_bytes_number_bounds (n : Z) :
  0 ≤ n ≤ exact_bound →
  ∃ (t : Z) (u : string),
    format_bytes (F:=F) n = Ok (fmt_tenths t +:+ " " +:+ u) ∧ 0 ≤ t ≤ 10240.
Proof.
  intros Hn. exists (unit_tenths n), (default "" (unit_names !! unit_index n)).
  split; [by apply format_bytes_in_range|].
  apply unit_tenths_bounds. unfold exact_bound in Hn. lia.
Qed.

End theorems.

(** ** Witnesses and runs *)

Lemma format_bytes_refines_witness :
  0 ≤ 1536 ≤ exact_bound ∧ format_bytes (F:=Qc) 1536 = Ok (format_bytes_spec 1536).
Proof.
  assert (0 ≤ 1536 ≤ exact_bound) as Hn by (by vm_compute).
  split; [exact Hn|]. exact (format_bytes_refines 1536 Hn).
Defined.

Lemma format_bytes_unit_monotone_witness :
  ∃ (i j : nat) (s t u v : string),
    format_bytes (F:=Qc) 1023 = Ok (s +:+ " " +:+ u) ∧
    format_bytes (F:=Qc) 1024 = Ok (t +:+ " " +:+ v) ∧
    unit_names !! i = Some u ∧ unit_names !! j = Some v ∧ (i ≤ j)%nat.
Proof.
  apply (format_bytes_unit_monotone 1023 1024); by vm_compute.
Defined.

Lemma format_bytes_number_bounds_witness :
  ∃ (t : Z) (u : string),
    format_bytes (F:=Qc) 1048575 = Ok (fmt_tenths t +:+ " " +:+ u)
    ∧ 0 ≤ t ≤ 10240.
Proof. apply (format_bytes_number_bounds 1048575); by vm_compute. Defined.

(** The examples of the specification, on exact rationals and on
    binary64. *)
Example format_bytes_examples_exact :
  format_bytes (F:=Qc) 0 = Ok "0.0 B" ∧
  format_bytes (F:=Qc) 1536 = Ok "1.5 KB" ∧
  format_bytes (F:=Qc) 1073741824 = Ok "1.0 GB".
Proof. by vm_compute. Qed.

Example format_bytes_examples_binary64 :
  format_bytes (F:=float64) 0 = Ok "0.0 B" ∧
  format_bytes (F:=float64) 1536 = Ok "1.5 KB" ∧
  format_bytes (F:=float64) 1073741824 = Ok "1.0 GB".
Proof. by vm_compute. Qed.



Lemma format_bytes_never_0_B_witness : format_bytes (F:=float64) 0 ≠ Ok "0 B".
Proof. exact (format_bytes_never_0_B 0). Defined.
