(* ===== verification/ProcessRanker.v ===== *)
(** * ProcessRanker: [get_top_processes]

    [get_top_processes] (src/tools/system_monitor.py, lines 158-211) reads
    the process table twice with half a second in between, turns each
    process of the second reading into a [ProcessInfo], drops the system
    pseudo-processes, sorts by CPU share and returns the first [limit].
    ([display_processes], which sorts again and prints the table, is in
    ProcessTable.v.)

    What [psutil] delivers is the argument [process_source]: for each
    pass, what touching each process gives (a value or a raised
    exception), the outcome of the sleep between the passes, and the
    core count.  [psutil] stores [None] for an attribute it could not
    read, so the attributes of [proc_info] are options.

    [normalize_name], [process_entry] (the body of the second loop),
    [first_pass], [second_pass] and [sort_desc] compose into
    [get_top_processes] the way the method composes them, with both
    [try] blocks. *)

From Stdlib Require Import ZArith Lia QArith Qcanon.
From stdpp Require Import base tactics option list strings numbers sorting.
From S2P Require Import Prelude Decimal PyFloat Binary64.

#[local] Open Scope Z_scope.

(** ** Data *)

(** [ProcessInfo] (line 20). *)
Record ProcessInfo (F : Type) : Type := {
  name : string;
  cpu_percent : F;
  memory_mb : F;
  pid : Z;
}.
Arguments Build_ProcessInfo {F}.
Arguments name {F}.
Arguments cpu_percent {F}.
Arguments memory_mb {F}.
Arguments pid {F}.

(** [proc.info] of a process yielded by
    [psutil.process_iter(['pid', 'name', 'cpu_percent', 'memory_info'])]:
    [info_memory_info] is the [rss] field of the memory tuple. *)
Record proc_info (F : Type) : Type := {
  info_pid : Z;
  info_name : option string;
  info_cpu_percent : option F;
  info_memory_info : option Z;
}.
Arguments Build_proc_info {F}.
Arguments info_pid {F}.
Arguments info_name {F}.
Arguments info_cpu_percent {F}.
Arguments info_memory_info {F}.

#[export] Instance ProcessInfo_eq_dec `{EqDecision F} : EqDecision (ProcessInfo F).
Proof. solve_decision. Defined.

#[export] Instance proc_info_eq_dec `{EqDecision F} : EqDecision (proc_info F).
Proof. solve_decision. Defined.

(** What the host delivers to one call of [get_top_processes]. *)
Record process_source (F : Type) : Type := {
  (** [proc.cpu_percent(interval=0.0)] for each process of the first pass. *)
  pass1 : list (result unit);
  (** [time.sleep(0.5)]. *)
  sleep : result unit;
  (** Each process of the second pass: its [info], or what entering
      [proc.oneshot()] raised. *)
  pass2 : list (result (proc_info F));
  (** [psutil.cpu_count()]. *)
  cpu_count : option Z;
}.
Arguments Build_process_source {F}.
Arguments pass1 {F}.
Arguments sleep {F}.
Arguments pass2 {F}.
Arguments cpu_count {F}.

(** ** The code *)

(** Lines 181-183: the display name without a trailing [.exe]. *)
Definition normalize_name (name : string) : string :=
  if py_endswith name ".exe" then py_drop_last 4 name else name.

(** Line 192: the names of the pseudo-processes that are skipped. *)
Definition denylist : list string :=
  ["system"; "system idle process"; "system interrupts"].

Section code.
Context `{PyFloatOps F}.

(** Lines 180-200, the body of the [with] block for one process: [None]
    stands for the [continue] of line 193. *)
Definition process_entry (cpu_count : option Z) (info : proc_info F)
    : result (option (ProcessInfo F)) :=
  name ← attr_of (info_name info);
  let name := normalize_name name in
  rss ← attr_of (info_memory_info info);
  kb ← int_truediv rss 1024;
  memory_mb ← float_truediv_int kb 1024;
  percent ← operand_of (info_cpu_percent info);
  cores ← operand_of cpu_count;
  cpu_percent ← float_truediv_int percent cores;
  if bool_decide (py_lower name ∈ denylist) then Ok None
  else Ok (Some {| name := name;
                   cpu_percent := float_round1 cpu_percent;
                   memory_mb := float_round1 memory_mb;
                   pid := info_pid info |}).

(** Lines 166-171: the first loop. *)
Fixpoint first_pass (procs : list (result unit)) : result unit :=
  match procs with
  | [] => Ok ()
  | r :: procs' =>
      _ ← try_except r is_process_gone (λ _, Ok ());
      first_pass procs'
  end.

(** Lines 177-203: the second loop, appending to [processes]. *)
Fixpoint second_pass (cpu_count : option Z) (procs : list (result (proc_info F)))
    (processes : list (ProcessInfo F)) : result (list (ProcessInfo F)) :=
  match procs with
  | [] => Ok processes
  | r :: procs' =>
      entry ← try_except (info ← r; process_entry cpu_count info)
                is_process_gone (λ _, Ok None);
      second_pass cpu_count procs'
        (match entry with Some p => processes ++ [p] | None => processes end)
  end.

(** [l.sort(key=key, reverse=True)]: the sort is stable, so among items
    of equal key the earlier stays first.  [insert_desc x l] puts [x]
    before the first item whose key is not above its own. *)
Fixpoint insert_desc {A} (key : A → F) (x : A) (l : list A) : list A :=
  match l with
  | [] => [x]
  | y :: l' =>
      if float_lt (key x) (key y) then y :: insert_desc key x l'
      else x :: y :: l'
  end.

Definition sort_desc {A} (key : A → F) (l : list A) : list A :=
  foldr (insert_desc key) [] l.

(** Lines 158-211.  [has_psutil] is the module flag [HAS_PSUTIL]; the
    message the handler prints is not part of the result. *)
Definition get_top_processes (has_psutil : bool) (os : process_source F)
    (limit : Z) : result (list (ProcessInfo F)) :=
  if negb has_psutil then Ok []
  else
    try_except
      (_ ← first_pass (pass1 os);
       _ ← sleep os;
       processes ← second_pass (cpu_count os) (pass2 os) [];
       Ok (py_slice_to limit (sort_desc cpu_percent processes)))
      is_Exception (λ _, Ok []).

End code.

(** ** The sort *)

Section sort.
Context `{PyFloatBasic F} {A : Type} (key : A → F).
Implicit Types (x y : A) (l : list A).

(** [desc x y]: [x] may stand before [y] in descending order. *)
Definition desc (x y : A) : Prop := float_ge (key x) (key y).

Lemma insert_desc_Permutation x l : insert_desc key x l ≡ₚ x :: l.
Proof.
  induction l as [|y l IH]; simpl; [done|].
  destruct (float_lt (key x) (key y)); [|done].
  rewrite IH. apply Permutation_swap.
Qed.

Lemma sort_desc_Permutation l : sort_desc key l ≡ₚ l.
Proof.
  induction l as [|x l IH]; simpl; [done|].
  by rewrite insert_desc_Permutation, IH.
Qed.

Lemma sort_desc_length l : length (sort_desc key l) = length l.
Proof. by rewrite sort_desc_Permutation. Qed.

Lemma insert_desc_HdRel x y l :
  desc y x → HdRel desc y l → HdRel desc y (insert_desc key x l).
Proof.
  intros Hyx Hl. destruct l as [|z l]; simpl; [by constructor|].
  destruct (float_lt (key x) (key z)); constructor; [|done].
  by apply HdRel_inv in Hl.
Qed.

Lemma insert_desc_Sorted x l :
  Sorted desc l → Sorted desc (insert_desc key x l).
Proof.
  induction 1 as [|y l Hl IH Hy]; simpl; [by repeat constructor|].
  destruct (float_lt (key x) (key y)) eqn:Hxy.
  - constructor; [done|]. apply insert_desc_HdRel; [|done].
    by apply float_lt_ge.
  - by repeat constructor.
Qed.

Lemma sort_desc_Sorted l : Sorted desc (sort_desc key l).
Proof.
  induction l as [|x l IH]; simpl; [constructor|].
  by apply insert_desc_Sorted.
Qed.

(** A sorted list is a fixed point of the sort. *)
Lemma sort_desc_sorted_id l : Sorted desc l → sort_desc key l = l.
Proof.
  induction 1 as [|x l Hl IH Hx]; simpl; [done|]. rewrite IH.
  destruct Hx as [|y l Hxy]; simpl; [done|].
  unfold desc, float_ge in Hxy. by rewrite Hxy.
Qed.

Lemma sort_desc_idemp l : sort_desc key (sort_desc key l) = sort_desc key l.
Proof. apply sort_desc_sorted_id, sort_desc_Sorted. Qed.

Lemma Sorted_prefix (R : relation A) l k :
  k `prefix_of` l → Sorted R l → Sorted R k.
Proof.
  intros [k' ->]. induction k as [|x k IH]; simpl; [constructor|].
  intros [Hk Hx]%Sorted_inv. constructor; [by apply IH|].
  destruct k; simpl in *; [constructor|]. apply HdRel_inv in Hx.
  by constructor.
Qed.

(** Stability: items among which none is strictly below another keep
    their order. *)
Lemma insert_desc_filter (P : A → Prop) `{∀ x, Decision (P x)} x l :
  (∀ y, y ∈ l → P x → P y → float_lt (key x) (key y) = false) →
  filter P (insert_desc key x l) = filter P (x :: l).
Proof.
  induction l as [|y l IH]; intros Hxl; simpl; [done|].
  destruct (float_lt (key x) (key y)) eqn:Hxy; [|done].
  rewrite !filter_cons.
  rewrite IH by (intros; apply Hxl; [by right|done..]).
  rewrite filter_cons.
  destruct (decide (P y)) as [Hy|]; [|done].
  destruct (decide (P x)) as [Hx|]; [|done].
  rewrite Hxl in Hxy by (done || by left). done.
Qed.

Lemma sort_desc_filter (P : A → Prop) `{∀ x, Decision (P x)} l :
  (∀ x y, P x → P y → float_lt (key x) (key y) = false) →
  filter P (sort_desc key l) = filter P l.
Proof.
  intros HP. induction l as [|x l IH]; simpl; [done|].
  rewrite insert_desc_filter by eauto. by rewrite !filter_cons, IH.
Qed.

(** Items of equal key keep their order. *)
Lemma sort_desc_stable `{EqDecision F} (k : F) l :
  filter (λ x, key x = k) (sort_desc key l) = filter (λ x, key x = k) l.
Proof.
  apply (sort_desc_filter (λ x, key x = k)). intros x y -> ->.
  apply float_ge_refl.
Qed.

End sort.

(** ** The two passes *)

Section passes.
Context `{PyFloatBasic F}.
Implicit Types (r : result (proc_info F)) (info : proc_info F)
  (p : ProcessInfo F) (e : exn) (c : option Z).

(** One iteration of the second loop with its [try]: the entry to append,
    [None] to go on without one, or the exception that leaves the loop. *)
Definition entry_of c r : result (option (ProcessInfo F)) :=
  try_except (info ← r; process_entry c info) is_process_gone (λ _, Ok None).

(** The list the second loop builds when no iteration leaves it. *)
Definition ranked c (procs : list (result (proc_info F))) : list (ProcessInfo F) :=
  omap (λ r, match entry_of c r with Ok (Some p) => Some p | _ => None end) procs.

Lemma second_pass_cons c r procs acc :
  second_pass c (r :: procs) acc =
    entry ← entry_of c r;
    second_pass c procs (match entry with Some p => acc ++ [p] | None => acc end).
Proof. done. Qed.

Lemma second_pass_Ok c procs acc :
  Forall (λ r, is_Ok (entry_of c r)) procs →
  second_pass c procs acc = Ok (acc ++ ranked c procs).
Proof.
  intros Hok. revert acc. induction Hok as [|r procs [o Ho] _ IH]; intros acc.
  - by rewrite app_nil_r.
  - rewrite second_pass_cons, Ho. simpl. rewrite IH. unfold ranked. simpl.
    rewrite Ho. destruct o; simpl; [|done]. by rewrite <- app_assoc.
Qed.

Lemma second_pass_Ok_inv c procs acc l :
  second_pass c procs acc = Ok l →
  Forall (λ r, is_Ok (entry_of c r)) procs ∧ l = acc ++ ranked c procs.
Proof.
  revert acc. induction procs as [|r procs IH]; intros acc.
  - intros [= <-]. by rewrite app_nil_r.
  - rewrite second_pass_cons. intros (o & Ho & Hl)%bind_Ok.
    apply IH in Hl as [Hok ->]. split; [constructor; [by exists o|done]|].
    unfold ranked. simpl. rewrite Ho. destruct o; simpl; [|done].
    by rewrite <- app_assoc.
Qed.

(** The loop is left by the exception of one of its iterations. *)
Lemma second_pass_Raise c procs acc e :
  second_pass c procs acc = Raise e → ∃ r, r ∈ procs ∧ entry_of c r = Raise e.
Proof.
  revert acc. induction procs as [|r procs IH]; intros acc; [done|].
  rewrite second_pass_cons. intros [He|(o & Ho & He)]%bind_Raise.
  - exists r. split; [by left|done].
  - apply IH in He as (r' & Hr' & He). exists r'. split; [by right|done].
Qed.

(** An iteration that raises makes the loop raise. *)
Lemma second_pass_fails c procs acc r e :
  r ∈ procs → entry_of c r = Raise e → ∃ e', second_pass c procs acc = Raise e'.
Proof.
  intros Hr He. destruct (second_pass c procs acc) as [l|e'] eqn:Hl; [|by exists e'].
  apply second_pass_Ok_inv in Hl as [Hok _].
  rewrite Forall_forall in Hok. destruct (Hok r Hr) as [o Ho]. congruence.
Qed.

(** What one iteration can raise: what entering the block raised, or a
    subclass of [Exception] from the body. *)
Lemma process_entry_raises c info e :
  process_entry c info = Raise e → is_Exception e = true.
Proof.
  unfold process_entry.
  destruct (info_name info), (info_memory_info info); simpl; try by intros [= <-].
  intros [He|(kb & _ & He)]%bind_Raise;
    [by eapply int_truediv_raises_Exception|].
  apply bind_Raise in He as [He|(mb & _ & He)];
    [by eapply float_truediv_int_raises|].
  destruct (info_cpu_percent info), c; simpl in He; try by injection He as <-.
  apply bind_Raise in He as [He|(x & _ & He)];
    [by eapply float_truediv_int_raises|].
  by case_bool_decide.
Qed.

Lemma entry_of_raises c r e :
  entry_of c r = Raise e → r = Raise e ∨ is_Exception e = true.
Proof.
  unfold entry_of, try_except. destruct r as [info|e0]; simpl.
  - destruct (process_entry c info) as [o|e1] eqn:He1; [done|].
    destruct (is_process_gone e1); [done|]. intros [= <-].
    right. by eapply process_entry_raises.
  - destruct (is_process_gone e0); [done|]. intros [= <-]. by left.
Qed.

(** Every entry of the list passed the deny list and carries the
    normalised name and the pid of its process. *)
Lemma process_entry_Some c info p :
  process_entry c info = Ok (Some p) →
  (py_lower (name p) ∉ denylist) ∧ pid p = info_pid info ∧
  (∃ n, info_name info = Some n ∧ name p = normalize_name n).
Proof.
  unfold process_entry.
  destruct (info_name info) as [n|]; simpl; [|done].
  destruct (info_memory_info info); simpl; [|done].
  intros (kb & _ & He)%bind_Ok. apply bind_Ok in He as (mb & _ & He).
  destruct (info_cpu_percent info), c; simpl in He; try done.
  apply bind_Ok in He as (x & _ & He).
  case_bool_decide as Hd; [done|]. injection He as <-. simpl. eauto.
Qed.

Lemma entry_of_Some c r p :
  entry_of c r = Ok (Some p) →
  ∃ info, r = Ok info ∧ process_entry c info = Ok (Some p).
Proof.
  unfold entry_of, try_except. destruct r as [info|e]; simpl.
  - destruct (process_entry c info) as [o|e] eqn:He.
    + intros [= ->]. eauto.
    + by destruct (is_process_gone e).
  - by destruct (is_process_gone e).
Qed.

Lemma elem_of_ranked c procs p :
  p ∈ ranked c procs ↔ ∃ r, r ∈ procs ∧ entry_of c r = Ok (Some p).
Proof.
  unfold ranked. rewrite list_elem_of_omap. split.
  - intros (r & Hr & Hp). exists r. split; [done|].
    destruct (entry_of c r) as [[q|]|]; naive_solver.
  - intros (r & Hr & Hp). exists r. split; [done|]. by rewrite Hp.
Qed.

Lemma ranked_denylist c procs p :
  p ∈ ranked c procs → py_lower (name p) ∉ denylist.
Proof.
  intros (r & _ & (info & _ & Hp)%entry_of_Some)%elem_of_ranked.
  by apply process_entry_Some in Hp as [? _].
Qed.

Lemma ranked_length c procs : (length (ranked c procs) ≤ length procs)%nat.
Proof. apply length_omap_le. Qed.

(** The first loop is left only by an exception of one of its calls that
    the inner handler does not catch. *)
Lemma first_pass_Raise (procs : list (result unit)) e :
  first_pass procs = Raise e → Raise e ∈ procs ∧ is_process_gone e = false.
Proof.
  induction procs as [|u0 procs IH]; simpl; [done|].
  intros [He|(u & _ & He)]%bind_Raise.
  - destruct u0 as [|e0]; simpl in He; [done|].
    destruct (is_process_gone e0) eqn:Hg; [done|]. injection He as <-.
    split; [by left|done].
  - destruct (IH He). split; [by right|done].
Qed.

Lemma first_pass_Ok (procs : list (result unit)) :
  Forall (λ u, ∀ e, u = Raise e → is_process_gone e = true) procs →
  first_pass procs = Ok ().
Proof.
  induction 1 as [|u procs Hu _ IH]; simpl; [done|].
  destruct u as [[]|e]; simpl; [done|]. by rewrite (Hu e eq_refl).
Qed.

End passes.

(** ** The method as a whole *)

Section method.
Context `{PyFloatBasic F}.
Implicit Types (os : process_source F) (limit : Z) (l : list (ProcessInfo F))
  (e : exn) (info : proc_info F).

(** No call of the method is interrupted from the keyboard. *)
Definition uninterrupted os : Prop :=
  (Raise KeyboardInterrupt ∉ pass1 os) ∧ sleep os ≠ Raise KeyboardInterrupt
  ∧ (Raise KeyboardInterrupt ∉ pass2 os).

(** The body of the outer [try] (lines 165-207). *)
Definition top_body os limit : result (list (ProcessInfo F)) :=
  _ ← first_pass (pass1 os);
  _ ← sleep os;
  processes ← second_pass (cpu_count os) (pass2 os) [];
  Ok (py_slice_to limit (sort_desc cpu_percent processes)).

Lemma get_top_processes_unfold os limit :
  get_top_processes true os limit
  = try_except (top_body os limit) is_Exception (λ _, Ok []).
Proof. done. Qed.

Lemma top_body_Ok os limit l :
  top_body os limit = Ok l →
  l = py_slice_to limit (sort_desc cpu_percent (ranked (cpu_count os) (pass2 os))).
Proof.
  unfold top_body. intros (_ & _ & Hb)%bind_Ok.
  apply bind_Ok in Hb as (_ & _ & Hb). apply bind_Ok in Hb as (ps & Hps & Hl).
  apply second_pass_Ok_inv in Hps as [_ ->]. by injection Hl as <-.
Qed.

(** An exception of the body is one the host raised, or an [Exception]. *)
Lemma top_body_Raise os limit e :
  top_body os limit = Raise e →
  Raise e ∈ pass1 os ∨ sleep os = Raise e ∨ Raise e ∈ pass2 os
  ∨ is_Exception e = true.
Proof.
  unfold top_body. intros [He|(_ & _ & He)]%bind_Raise.
  { apply first_pass_Raise in He as [? _]. by left. }
  apply bind_Raise in He as [He|(_ & _ & He)]; [by right; left|].
  apply bind_Raise in He as [He|(ps & _ & He)]; [|done].
  apply second_pass_Raise in He as (r & Hr & [->|He]%entry_of_raises); auto.
Qed.

Lemma top_body_uninterrupted os limit e :
  uninterrupted os → top_body os limit = Raise e → is_Exception e = true.
Proof.
  intros (H1 & Hs & H2) He. destruct (decide (e = KeyboardInterrupt)) as [->|];
    [|by destruct e].
  apply top_body_Raise in He as [?|[?|[?|?]]]; done.
Qed.

(** What the method returns is empty or the first [limit] of the sorted
    list of entries. *)
Lemma get_top_processes_Ok has_psutil os limit l :
  get_top_processes has_psutil os limit = Ok l →
  l = [] ∨
  l = py_slice_to limit (sort_desc cpu_percent (ranked (cpu_count os) (pass2 os))).
Proof.
  destruct has_psutil; [|by intros [= <-]; left].
  rewrite get_top_processes_unfold. unfold try_except.
  destruct (top_body os limit) as [l'|e] eqn:Hb.
  - intros [= <-]. right. by apply top_body_Ok.
  - destruct (is_Exception e); [|done]. intros [= <-]. by left.
Qed.

Lemma get_top_processes_elem_of has_psutil os limit l p :
  get_top_processes has_psutil os limit = Ok l → p ∈ l →
  p ∈ ranked (cpu_count os) (pass2 os).
Proof.
  intros [->| ->]%get_top_processes_Ok Hp; [by apply elem_of_nil in Hp|].
  rewrite <- (sort_desc_Permutation cpu_percent).
  eapply elem_of_sublist; [done|apply py_slice_to_sublist].
Qed.

End method.

(** ** Example hosts *)

(** A second-pass reading of a process with every attribute present. *)
Definition reading (pid : Z) (name : string) (percent_tenths rss : Z)
    : result (proc_info float64) :=
  Ok {| info_pid := pid; info_name := Some name;
        info_cpu_percent := Some (b64_of_tenths percent_tenths);
        info_memory_info := Some rss |}.

(** A host with two cores: the idle pseudo-process, a browser that used
    one core for the whole interval, a process that vanished, and two
    others, one of them denied in the first pass. *)
Definition example_host : process_source float64 := {|
  pass1 := [Ok (); Ok (); Raise AccessDenied; Ok (); Ok ()];
  sleep := Ok ();
  pass2 := [reading 0 "System Idle Process" 1900 8192;
            reading 10 "chrome.exe" 1000 314572800;
            reading 11 "python" 1000 5000000;
            Raise NoSuchProcess;
            reading 12 "init.EXE" 1205 1];
  cpu_count := Some 2;
|}.

(** The same host when [psutil] could not read the name of pid 11. *)
Definition denied_host : process_source float64 := {|
  pass1 := pass1 example_host;
  sleep := Ok ();
  pass2 := [reading 10 "chrome.exe" 1000 314572800;
            Ok {| info_pid := 11; info_name := None;
                  info_cpu_percent := Some (b64_of_tenths 1000);
                  info_memory_info := Some 5000000 |}];
  cpu_count := Some 2;
|}.

(** The same host interrupted during the sleep. *)
Definition interrupted_host : process_source float64 := {|
  pass1 := pass1 example_host;
  sleep := Raise KeyboardInterrupt;
  pass2 := pass2 example_host;
  cpu_count := Some 2;
|}.

(** What [get_top_processes(limit=10)] returns on [example_host]. *)
Definition example_top : list (ProcessInfo float64) :=
  [ {| name := "init.EXE"; cpu_percent := b64_of_tenths 602;
       memory_mb := b64_of_tenths 0; pid := 12 |};
    {| name := "chrome"; cpu_percent := b64_of_tenths 500;
       memory_mb := b64_of_tenths 3000; pid := 10 |};
    {| name := "python"; cpu_percent := b64_of_tenths 500;
       memory_mb := b64_of_tenths 48; pid := 11 |} ].

(** ** Theorems *)

Section theorems.
Context `{PyFloatBasic F}.
Implicit Types (os : process_source F) (limit : Z) (l : list (ProcessInfo F))
  (e : exn) (info : proc_info F) (p : ProcessInfo F).

(** The body on a run without exceptions. *)
Lemma top_body_clean os limit :
  first_pass (pass1 os) = Ok () →
  sleep os = Ok () →
  Forall (λ r, is_Ok (entry_of (cpu_count os) r)) (pass2 os) →
  top_body os limit
  = Ok (py_slice_to limit
          (sort_desc cpu_percent (ranked (cpu_count os) (pass2 os)))).
Proof.
  intros H1 Hs H2. unfold top_body. rewrite H1, Hs. simpl.
  by rewrite second_pass_Ok.
Qed.

(** A slice of a sorted list is sorted. *)
Lemma py_slice_sort_Sorted limit l :
  Sorted (desc cpu_percent) (py_slice_to limit (sort_desc cpu_percent l)).
Proof.
  eapply Sorted_prefix; [apply py_slice_to_prefix|apply sort_desc_Sorted].
Qed.

(** C1: when no iteration of the two loops leaves them and the sleep
    returns, [get_top_processes] returns the first [limit] items (in the
    sense of the slice [[:limit]]) of the stable descending sort by
    [cpu_percent] of the entries of the second pass, in which a process
    that raised one of the three psutil exceptions or whose lower-cased
    name is deny-listed has no entry. *)
Theorem get_top_processes_computes os limit :
  first_pass (pass1 os) = Ok () →
  sleep os = Ok () →
  Forall (λ r, is_Ok (entry_of (cpu_count os) r)) (pass2 os) →
  get_top_processes true os limit
  = Ok (py_slice_to limit
          (sort_desc cpu_percent (ranked (cpu_count os) (pass2 os)))).
Proof.
  intros H1 Hs H2. rewrite get_top_processes_unfold.
  by rewrite top_body_clean.
Qed.

(** C3: the list [get_top_processes] returns is sorted by [cpu_percent] in
    descending order: no item is below its successor. *)
Theorem get_top_processes_sorted has_psutil os limit l :
  get_top_processes has_psutil os limit = Ok l →
  Sorted (desc cpu_percent) l.
Proof.
  intros [->| ->]%get_top_processes_Ok; [constructor|].
  apply py_slice_sort_Sorted.
Qed.

(** C5: no process whose normalised name is, in lower case, one of
    "system", "system idle process", "system interrupts" is in the list
    [get_top_processes] returns. *)
Theorem get_top_processes_denylist has_psutil os limit l p :
  get_top_processes has_psutil os limit = Ok l → p ∈ l →
  py_lower (name p) ∉ denylist.
Proof.
  intros Hl Hp. eapply ranked_denylist, get_top_processes_elem_of; eauto.
Qed.

(** C6: [get_top_processes] lets no subclass of [Exception] out: the only
    exception a call can raise is [KeyboardInterrupt]. *)
Theorem get_top_processes_contains_exceptions has_psutil os limit e :
  get_top_processes has_psutil os limit = Raise e → e = KeyboardInterrupt.
Proof.
  destruct has_psutil; [|done]. rewrite get_top_processes_unfold.
  apply try_except_Exception_escape.
Qed.

(** C11: a keyboard interrupt during the sleep between the two passes
    aborts the call with the interrupt and no list. *)
Theorem get_top_processes_interrupted os limit :
  first_pass (pass1 os) = Ok () →
  sleep os = Raise KeyboardInterrupt →
  get_top_processes true os limit = Raise KeyboardInterrupt.
Proof.
  intros H1 Hs. rewrite get_top_processes_unfold. unfold top_body.
  by rewrite H1, Hs.
Qed.

(** C4: one process of the second pass whose name, memory tuple or CPU
    share [psutil] stored as [None] empties the whole result: unless the
    call is interrupted, [get_top_processes] returns []. *)
Theorem get_top_processes_unreadable_attribute os limit info :
  uninterrupted os →
  Ok info ∈ pass2 os →
  info_name info = None ∨ info_memory_info info = None
    ∨ info_cpu_percent info = None →
  get_top_processes true os limit = Ok [].
Proof.
  intros Hu Hin Hnone. rewrite get_top_processes_unfold.
  assert (∃ e, entry_of (cpu_count os) (Ok info) = Raise e) as [e He].
  { unfold entry_of, try_except, process_entry. simpl.
    destruct Hnone as [->|[->| ->]]; simpl.
    - eauto.
    - destruct (info_name info); simpl; eauto.
    - destruct (info_name info), (info_memory_info info); simpl; eauto.
      destruct (int_truediv _ 1024) as [kb|e1] eqn:E1; simpl.
      + destruct (float_truediv_int kb 1024) as [mb|e2] eqn:E2; simpl; eauto.
        apply float_truediv_int_raises_arith in E2 as [-> | ->]; simpl; eauto.
      + apply int_truediv_raises in E1 as [-> | ->]; simpl; eauto. }
  destruct (top_body os limit) as [l|e'] eqn:Hb.
  - exfalso. revert Hb. unfold top_body.
    intros (_ & _ & Hb)%bind_Ok. apply bind_Ok in Hb as (_ & _ & Hb).
    apply bind_Ok in Hb as (ps & Hps & _).
    destruct (second_pass_fails (cpu_count os) (pass2 os) [] _ _ Hin He).
    congruence.
  - apply top_body_uninterrupted in Hb; [|done]. simpl. by rewrite Hb.
Qed.

(** When [psutil.cpu_count()] returns [None], [get_top_processes]
    returns [] whatever the processes are, unless it is interrupted. *)
Theorem get_top_processes_no_core_count os limit :
  uninterrupted os → cpu_count os = None →
  get_top_processes true os limit = Ok [].
Proof.
  intros Hu Hc. rewrite get_top_processes_unfold.
  destruct (top_body os limit) as [l|e] eqn:Hb.
  - simpl. f_equal. apply top_body_Ok in Hb as ->.
    assert (ranked (cpu_count os) (pass2 os) = []) as ->;
      [|apply py_slice_to_nil].
    apply elem_of_nil_inv. intros p (r & _ & Hp)%elem_of_ranked.
    apply entry_of_Some in Hp as (info & _ & Hp). revert Hp. rewrite Hc.
    unfold process_entry.
    destruct (info_name info), (info_memory_info info); simpl; try done.
    destruct (int_truediv _ _); simpl; [|done].
    destruct (float_truediv_int _ _); simpl; [|done].
    by destruct (info_cpu_percent info).
  - apply top_body_uninterrupted in Hb; [|done]. simpl. by rewrite Hb.
Qed.

End theorems.

Section ranking.
Context `{PyFloatBasic F} `{EqDecision F}.
Implicit Types (os : process_source F) (limit : Z) (l : list (ProcessInfo F))
  (p q : ProcessInfo F).

(** The order of the process table: ascending pids. *)
Definition by_pid p q : Prop := pid p < pid q.

(** C12: ties are broken by the order of the process table: when the
    entries of the second pass come by ascending pid, the processes of any
    one [cpu_percent] are by ascending pid in the result. *)
Theorem get_top_processes_ties_by_pid has_psutil os limit l (k : F) :
  StronglySorted by_pid (ranked (cpu_count os) (pass2 os)) →
  get_top_processes has_psutil os limit = Ok l →
  StronglySorted by_pid (filter (λ p, cpu_percent p = k) l).
Proof.
  intros Hpid [->| ->]%get_top_processes_Ok; [constructor|].
  eapply (StronglySorted_prefix _
            (filter _ (sort_desc cpu_percent (ranked (cpu_count os) (pass2 os))))).
  - destruct (py_slice_to_prefix limit
      (sort_desc cpu_percent (ranked (cpu_count os) (pass2 os)))) as [k' Hk'].
    rewrite Hk' at 2. rewrite filter_app. by eexists.
  - rewrite sort_desc_stable. by apply StronglySorted_filter.
Qed.

(** C13: with a non-negative [limit] and no exception, the result has
    [min(limit, n)] items, [n] the number of entries of the second pass. *)
Theorem get_top_processes_length os limit :
  first_pass (pass1 os) = Ok () → sleep os = Ok () →
  Forall (λ r, is_Ok (entry_of (cpu_count os) r)) (pass2 os) →
  0 ≤ limit →
  ∃ l, get_top_processes true os limit = Ok l ∧
       length l = (Z.to_nat limit `min` length (ranked (cpu_count os) (pass2 os)))%nat.
Proof.
  intros H1 Hs H2 Hl. eexists.
  split; [by rewrite get_top_processes_unfold, top_body_clean|].
  rewrite py_slice_to_length, sort_desc_length.
  by destruct (Z.leb_spec 0 limit); [|lia].
Qed.

(** C14: a negative [limit] is not refused: the slice drops the last
    [-limit] items of the sorted list, the busiest processes included when
    the list is that short. *)
Theorem get_top_processes_negative_limit os limit :
  first_pass (pass1 os) = Ok () → sleep os = Ok () →
  Forall (λ r, is_Ok (entry_of (cpu_count os) r)) (pass2 os) →
  limit < 0 →
  get_top_processes true os limit
  = Ok (take (length (ranked (cpu_count os) (pass2 os)) - Z.to_nat (- limit))
          (sort_desc cpu_percent (ranked (cpu_count os) (pass2 os)))).
Proof.
  intros H1 Hs H2 Hl. rewrite get_top_processes_unfold, top_body_clean by done.
  simpl. by rewrite py_slice_to_neg, sort_desc_length.
Qed.

End ranking.

(** A trailing ".exe" is removed from the name, whatever precedes
    it. *)
Theorem normalize_name_strips_exe (stem : string) :
  normalize_name (stem +:+ ".exe") = stem.
Proof.
  unfold normalize_name.
  assert (py_endswith (stem +:+ ".exe") ".exe" = true) as ->
    by (apply py_endswith_spec; by exists stem).
  apply (py_drop_last_app stem ".exe").
Qed.

Lemma normalize_name_other (n : string) :
  py_endswith n ".exe" = false → normalize_name n = n.
Proof. unfold normalize_name. by intros ->. Qed.

Section values.
Context `{PyFloatLaws F}.

(** C39: the [memory_mb] of an entry prints as the resident set size over
    2^20, rounded half-even to one decimal, for sizes up to 2^53 bytes. *)
Theorem process_entry_memory_mb c (info : proc_info F) (p : ProcessInfo F) rss :
  process_entry c info = Ok (Some p) →
  info_memory_info info = Some rss →
  0 ≤ rss ≤ exact_bound →
  float_fmt1 (memory_mb p) = fmt_tenths (tenths_of rss (2 ^ 20)).
Proof.
  intros Hp Hrss Hb. revert Hp. unfold process_entry. rewrite Hrss.
  destruct (info_name info) as [n|]; simpl; [|done].
  destruct (int_truediv_exact rss 10) as (kb & Hkb & Rkb); [lia..|].
  change (2 ^ 10) with 1024 in Hkb. rewrite Hkb. simpl.
  destruct (float_truediv_int_exact kb rss 10 10) as (mb & Hmb & Rmb);
    [done|lia..|].
  change (2 ^ 10) with 1024 in Hmb. rewrite Hmb. simpl.
  intros (percent & _ & Hp)%bind_Ok. apply bind_Ok in Hp as (cores & _ & Hp).
  apply bind_Ok in Hp as (x & _ & Hp). case_bool_decide; [done|].
  injection Hp as <-. simpl.
  assert (0 ≤ tenths_of rss (2 ^ 20) ≤ tenth_bound) as Ht.
  { unfold tenths_of, tenth_bound, exact_bound in *. split.
    - apply round_half_even_nonneg; lia.
    - etrans; [apply (round_half_even_le _ _ (2 ^ 37)); lia|lia]. }
  apply tenth_fmt1; [done|]. apply float_round1_exact; [done|lia..].
Qed.

End values.

(** ** Witnesses and runs *)

(** A host whose core count [psutil] could not determine. *)
Definition coreless_host : process_source float64 := {|
  pass1 := pass1 example_host;
  sleep := Ok ();
  pass2 := pass2 example_host;
  cpu_count := None;
|}.

(** Eleven processes, each at 1.0 percent of one of two cores. *)
Definition crowded_host : process_source float64 := {|
  pass1 := [];
  sleep := Ok ();
  pass2 := (λ i, reading i "worker" 10 1048576) <$> seqZ 1 11;
  cpu_count := Some 2;
|}.

(** A reading in exact arithmetic: 300 MiB resident. *)
Definition exact_info : proc_info Qc := {|
  info_pid := 10; info_name := Some "chrome.exe";
  info_cpu_percent := Some (Q2Qc (100 # 1));
  info_memory_info := Some 314572800;
|}.

(** Its entry. *)
Definition exact_entry : ProcessInfo Qc :=
  match process_entry (Some 2) exact_info with
  | Ok (Some p) => p
  | _ => {| name := ""; cpu_percent := Q2Qc 0; memory_mb := Q2Qc 0; pid := 0 |}
  end.

Lemma example_host_runs :
  get_top_processes true example_host 10 = Ok example_top.
Proof. by vm_compute. Qed.

Lemma get_top_processes_computes_witness :
  get_top_processes true example_host 10
  = Ok (py_slice_to 10 (sort_desc cpu_percent
          (ranked (cpu_count example_host) (pass2 example_host)))).
Proof. apply get_top_processes_computes; decide_by_compute. Defined.

Lemma get_top_processes_sorted_witness : Sorted (desc cpu_percent) example_top.
Proof.
  apply (get_top_processes_sorted true example_host 10). decide_by_compute.
Defined.

Lemma get_top_processes_denylist_witness :
  py_lower "init.EXE" ∉ denylist.
Proof.
  apply (get_top_processes_denylist true example_host 10 example_top
           {| name := "init.EXE"; cpu_percent := b64_of_tenths 602;
              memory_mb := b64_of_tenths 0; pid := 12 |});
    decide_by_compute.
Defined.

Lemma get_top_processes_contains_exceptions_witness :
  KeyboardInterrupt = KeyboardInterrupt.
Proof.
  apply (get_top_processes_contains_exceptions true interrupted_host 10).
  decide_by_compute.
Defined.

Lemma get_top_processes_interrupted_witness :
  get_top_processes true interrupted_host 10 = Raise KeyboardInterrupt.
Proof. apply get_top_processes_interrupted; decide_by_compute. Defined.

Lemma get_top_processes_unreadable_attribute_witness :
  get_top_processes true denied_host 10 = Ok [].
Proof.
  apply (get_top_processes_unreadable_attribute denied_host 10
           {| info_pid := 11; info_name := None;
              info_cpu_percent := Some (b64_of_tenths 1000);
              info_memory_info := Some 5000000 |});
    [unfold uninterrupted; split_and!|..]; decide_by_compute.
Defined.

Lemma get_top_processes_no_core_count_witness :
  get_top_processes true coreless_host 10 = Ok [].
Proof.
  apply get_top_processes_no_core_count;
    [unfold uninterrupted; split_and!|]; decide_by_compute.
Defined.

Lemma get_top_processes_ties_by_pid_witness :
  StronglySorted by_pid
    (filter (λ p, cpu_percent p = b64_of_tenths 500) example_top).
Proof.
  apply (get_top_processes_ties_by_pid true example_host 10);
    [|decide_by_compute].
  vm_compute. repeat constructor.
Defined.

Lemma get_top_processes_length_witness :
  ∃ l, get_top_processes true example_host 2 = Ok l ∧
       length l = (Z.to_nat 2 `min`
         length (ranked (cpu_count example_host) (pass2 example_host)))%nat.
Proof. apply get_top_processes_length; decide_by_compute. Defined.

Lemma get_top_processes_negative_limit_witness :
  get_top_processes true example_host (-1)
  = Ok (take (length (ranked (cpu_count example_host) (pass2 example_host))
              - Z.to_nat (- -1))
          (sort_desc cpu_percent
             (ranked (cpu_count example_host) (pass2 example_host)))).
Proof. apply get_top_processes_negative_limit; decide_by_compute. Defined.

Lemma process_entry_memory_mb_witness :
  float_fmt1 (memory_mb exact_entry) = fmt_tenths (tenths_of 314572800 (2 ^ 20)).
Proof.
  apply (process_entry_memory_mb (Some 2) exact_info exact_entry 314572800);
    by vm_compute.
Defined.

(** The scenario of the specification on binary64: on a host with two
    cores a process that kept one core busy is listed at 50.0 percent, the
    idle pseudo-process and the process that vanished are not listed, and
    the list is by descending share. *)
Theorem get_top_processes_scenario :
  ∃ l, get_top_processes true example_host 10 = Ok l ∧
       name <$> l = ["init.EXE"; "chrome"; "python"] ∧
       float_fmt1 ∘ cpu_percent <$> l = ["60.2"; "50.0"; "50.0"] ∧
       float_fmt1 ∘ memory_mb <$> l = ["0.0"; "300.0"; "4.8"].
Proof. exists example_top. by vm_compute. Qed.
