(* ===== verification/ResourceProbe.v ===== *)
(** * ResourceProbe: [get_cpu_info], [get_memory_info], [get_disk_info]

    The three probes read the operating system through [psutil] (and
    [wmi], [shutil], [os]) and return dictionaries of display values.
    Every call into those libraries is a field of a source record
    ([cpu_source], [memory_source], [disk_source]) holding what the call
    returns or raises; the probes are functions of the sources, of
    [HAS_PSUTIL] and of [self.system].

    A dictionary is a [gmap] from keys to [value]s.  The bare [except:]
    clauses of the probes are [try_bare]: whatever the body raises, the
    handler's value is the result, so the probes are total functions and
    their types say that they never raise.

    The theorems give the keys of every dictionary a probe can return,
    the values of the successful branch against [format_bytes_spec], the
    mounts [get_disk_info] keeps and drops, and when the fallbacks run. *)

From Stdlib Require Import ZArith Lia QArith Qcanon SpecFloat.
From stdpp Require Import base tactics option list strings numbers pretty gmap.
From S2P Require Import Prelude Decimal PyFloat Binary64 ByteFormatter.

#[local] Open Scope Z_scope.

(** ** Values and dictionaries *)

(** The values the probes store: [None], a [str], an [int], a [float]. *)
Inductive value (F : Type) : Type :=
  | VNone
  | VStr (s : string)
  | VInt (n : Z)
  | VFloat (x : F).
Arguments VNone {F}.
Arguments VStr {F} s.
Arguments VInt {F} n.
Arguments VFloat {F} x.

#[export] Instance value_eq_dec `{EqDecision F} : EqDecision (value F).
Proof. solve_decision. Defined.

Abbreviation dict F := (gmap string (value F)).

(** [d[k]]. *)
Definition getitem {F} (d : dict F) (k : string) : result (value F) :=
  match d !! k with Some v => Ok v | None => Raise KeyError end.

(** An [int] that may be [None], as a value. *)
Definition value_of_count {F} (c : option Z) : value F :=
  match c with Some n => VInt n | None => VNone end.

(** [a or b] on counts: [None] and [0] are false. *)
Definition count_or (a b : option Z) : option Z :=
  match a with
  | Some n => if bool_decide (n = 0) then b else a
  | None => b
  end.

(** [str(c)] for a count. *)
Definition str_of_count (c : option Z) : string :=
  match c with Some n => pretty n | None => "None" end.

(** ** What the operating system answers *)

(** [w.Win32_Processor()[0]]: the two clock speeds, in MHz. *)
Record wmi_processor : Type := {
  CurrentClockSpeed : option Z;
  MaxClockSpeed : option Z;
}.

Record cpu_source (F : Type) : Type := {
  (** [psutil.cpu_percent(interval=0.1, percpu=True)], result dropped. *)
  psutil_cpu_percent_percpu : result unit;
  (** [psutil.cpu_percent(interval=0.1)]. *)
  psutil_cpu_percent : result F;
  (** [psutil.cpu_count()]. *)
  psutil_cpu_count : result (option Z);
  (** [psutil.cpu_count(logical=False)]. *)
  psutil_cpu_count_physical : result (option Z);
  (** [import wmi; wmi.WMI().Win32_Processor()[0]]. *)
  wmi_Win32_Processor : result wmi_processor;
  (** [psutil.cpu_freq()]: [None] or a tuple, of which [current] is read. *)
  psutil_cpu_freq : result (option F);
  (** [psutil.sensors_temperatures()]: for each sensor, the [current]
      fields of its readings. *)
  psutil_sensors_temperatures : result (list (list F));
  (** [os.cpu_count()]. *)
  os_cpu_count : option Z;
}.
Arguments psutil_cpu_percent_percpu {F} _.
Arguments psutil_cpu_percent {F} _.
Arguments psutil_cpu_count {F} _.
Arguments psutil_cpu_count_physical {F} _.
Arguments wmi_Win32_Processor {F} _.
Arguments psutil_cpu_freq {F} _.
Arguments psutil_sensors_temperatures {F} _.
Arguments os_cpu_count {F} _.

(** [psutil.virtual_memory()] and [psutil.swap_memory()], the fields read. *)
Record svmem (F : Type) : Type := {
  vm_total : Z;
  vm_available : Z;
  vm_used : Z;
  vm_percent : F;
}.
Arguments vm_total {F} _.
Arguments vm_available {F} _.
Arguments vm_used {F} _.
Arguments vm_percent {F} _.

Record sswap (F : Type) : Type := {
  sw_total : Z;
  sw_used : Z;
  sw_percent : F;
}.
Arguments sw_total {F} _.
Arguments sw_used {F} _.
Arguments sw_percent {F} _.

Record memory_source (F : Type) : Type := {
  psutil_virtual_memory : result (svmem F);
  psutil_swap_memory : result (sswap F);
}.
Arguments psutil_virtual_memory {F} _.
Arguments psutil_swap_memory {F} _.

(** An element of [psutil.disk_partitions()]. *)
Record sdiskpart : Type := {
  device : string;
  mountpoint : string;
}.

(** [psutil.disk_usage(path)] and [shutil.disk_usage(path)]. *)
Record sdiskusage : Type := {
  du_total : Z;
  du_used : Z;
  du_free : Z;
}.

Record disk_source : Type := {
  psutil_disk_partitions : result (list sdiskpart);
  psutil_disk_usage : string → result sdiskusage;
  (** [os.path.abspath('.')]. *)
  os_path_abspath : result string;
  (** [import shutil; shutil.disk_usage(path)]. *)
  shutil_disk_usage : string → result sdiskusage;
}.

Section probes.
Context `{PyFloatOps F}.

(** ** [get_cpu_info] *)

(** Lines 40-52: the frequency text. *)
Definition freq_str (system : string) (os : cpu_source F) : string :=
  try_bare
    (if bool_decide (system = "Windows") then
       cpu_info ← wmi_Win32_Processor os;
       current_freq ← operand_of (CurrentClockSpeed cpu_info);
       current ← int_fmt0 current_freq;
       Ok (current +:+ " MHz (Max: " +:+
           str_of_count (MaxClockSpeed cpu_info) +:+ " MHz)")
     else
       cpu_freq ← psutil_cpu_freq os;
       Ok (match cpu_freq with
           | Some current => float_fmt0 current +:+ " MHz"
           | None => "Unknown"
           end))
    "Unknown".

(** Lines 62-69: the dictionary after the temperature block. *)
Definition add_temperature (system : string) (os : cpu_source F)
    (info : dict F) : dict F :=
  try_bare
    (if bool_decide (system = "Windows") then
       temps ← psutil_sensors_temperatures os;
       match temps with
       | [] => Ok info
       | [] :: _ => Raise IndexError
       | (temp :: _) :: _ =>
           Ok (<["temperature" := VStr (float_fmt0 temp +:+ "°C")]> info)
       end
     else Ok info)
    info.

Definition cpu_fallback (os : cpu_source F) : dict F :=
  {[ "usage" := VStr "Unknown";
     "cores" := value_of_count (os_cpu_count os);
     "frequency" := VStr "Unknown" ]}.

Definition get_cpu_info (has_psutil : bool) (system : string)
    (os : cpu_source F) : dict F :=
  if has_psutil then
    try_bare
      (_ ← psutil_cpu_percent_percpu os;
       cpu_percent ← psutil_cpu_percent os;
       logical_cores ← psutil_cpu_count os;
       physical ← psutil_cpu_count_physical os;
       let physical_cores := count_or physical logical_cores in
       let info : dict F :=
         {[ "usage" := VFloat cpu_percent;
            "logical_cores" := value_of_count logical_cores;
            "physical_cores" := value_of_count physical_cores;
            "frequency" := VStr (freq_str system os) ]} in
       Ok (add_temperature system os info))
      (cpu_fallback os)
  else cpu_fallback os.

(** ** [get_memory_info] *)

Definition memory_fallback : dict F :=
  {[ "total" := VStr "Unknown";
     "available" := VStr "Unknown";
     "used" := VStr "Unknown";
     "percent" := VStr "Unknown";
     "swap_total" := VStr "Unknown";
     "swap_used" := VStr "Unknown";
     "swap_percent" := VStr "Unknown" ]}.

Definition get_memory_info (has_psutil : bool) (os : memory_source F) :
    dict F :=
  if has_psutil then
    try_bare
      (memory ← psutil_virtual_memory os;
       swap ← psutil_swap_memory os;
       total ← format_bytes (vm_total memory);
       available ← format_bytes (vm_available memory);
       used ← format_bytes (vm_used memory);
       swap_total ← format_bytes (sw_total swap);
       swap_used ← format_bytes (sw_used swap);
       Ok ({[ "total" := VStr total;
              "available" := VStr available;
              "used" := VStr used;
              "percent" := VFloat (vm_percent memory);
              "swap_total" := VStr swap_total;
              "swap_used" := VStr swap_used;
              "swap_percent" := VFloat (sw_percent swap) ]} : dict F))
      memory_fallback
  else memory_fallback.

(** ** [get_disk_info] *)

(** The dictionary of lines 124-131 and 144-151. *)
Definition disk_entry (device mountpoint : string) (usage : sdiskusage) :
    result (dict F) :=
  total ← format_bytes (du_total usage);
  used ← format_bytes (du_used usage);
  free ← format_bytes (du_free usage);
  ratio ← int_truediv (du_used usage) (du_total usage);
  percent ← float_mul_int ratio 100;
  Ok ({[ "device" := VStr device;
         "mountpoint" := VStr mountpoint;
         "total" := VStr total;
         "used" := VStr used;
         "free" := VStr free;
         "percent" := VFloat percent ]} : dict F).

(** One iteration of the loop of lines 121-133. *)
Definition partition_entry (os : disk_source) (partition : sdiskpart) :
    result (dict F) :=
  usage ← psutil_disk_usage os (mountpoint partition);
  disk_entry (device partition) (mountpoint partition) usage.

(** The loop: what it appends to [disk_info]. *)
Fixpoint partitions_loop (os : disk_source) (partitions : list sdiskpart)
    (disk_info : list (dict F)) : list (dict F) :=
  match partitions with
  | [] => disk_info
  | partition :: rest =>
      partitions_loop os rest
        (match partition_entry os partition with
         | Ok entry => disk_info ++ [entry]
         | Raise _ => disk_info
         end)
  end.

(** Lines 138-153: the fallback, when [disk_info] is empty. *)
Definition disk_fallback (system : string) (os : disk_source)
    (disk_info : list (dict F)) : list (dict F) :=
  try_bare
    (current ← os_path_abspath os;
     if bool_decide (system = "Windows") then
       usage ← shutil_disk_usage os current;
       entry ← disk_entry "C:" current usage;
       Ok (disk_info ++ [entry])
     else Ok disk_info)
    disk_info.

Definition get_disk_info (has_psutil : bool) (system : string)
    (os : disk_source) : list (dict F) :=
  let disk_info :=
    if has_psutil then
      try_bare
        (partitions ← psutil_disk_partitions os;
         Ok (partitions_loop os partitions []))
        []
    else [] in
  match disk_info with
  | [] => disk_fallback system os disk_info
  | _ => disk_info
  end.

End probes.

(** ** Dictionaries *)

Section dict_lemmas.
Context {F : Type}.
Implicit Types (d : dict F) (k : string) (v : value F).

Lemma getitem_Ok d k v : getitem d k = Ok v ↔ d !! k = Some v.
Proof. unfold getitem. destruct (d !! k); split; congruence. Qed.

Lemma getitem_KeyError d k : getitem d k = Raise KeyError ↔ k ∉ dom d.
Proof.
  unfold getitem. rewrite not_elem_of_dom.
  destruct (d !! k); split; congruence.
Qed.

Lemma getitem_raises d k e : getitem d k = Raise e → e = KeyError.
Proof. unfold getitem. destruct (d !! k); congruence. Qed.

End dict_lemmas.

(** ** [get_memory_info]: the theorems *)

(** The keys of a memory dictionary. *)
Definition memory_keys : gset string :=
  {[ "total"; "available"; "used"; "percent";
     "swap_total"; "swap_used"; "swap_percent" ]}.

(** The byte counts of the two readings convert to floats exactly. *)
Definition memory_in_range {F} (memory : svmem F) (swap : sswap F) : Prop :=
  Forall (λ n, 0 ≤ n ≤ exact_bound)
    [vm_total memory; vm_available memory; vm_used memory;
     sw_total swap; sw_used swap].

Section memory.
Context `{PyFloatOps F}.
Implicit Types (os : memory_source F).

Lemma dom_memory_fallback : dom (memory_fallback (F:=F)) = memory_keys.
Proof.
  unfold memory_fallback, memory_keys.
  rewrite !dom_insert_L, dom_singleton_L. set_solver.
Qed.

(** C26: [get_memory_info] returns a dictionary with the seven keys
    "total", "available", "used", "percent", "swap_total", "swap_used"
    and "swap_percent", whatever [psutil] does. *)
Theorem get_memory_info_keys has_psutil os :
  dom (get_memory_info has_psutil os) = memory_keys.
Proof.
  unfold get_memory_info. destruct has_psutil; [|apply dom_memory_fallback].
  case_bind; try apply dom_memory_fallback.
Qed.

(** C28: without [psutil], or when one of the two calls raises, every value
    of the dictionary is "Unknown": a failure of [swap_memory] alone also
    blanks the figures of the main memory. *)
Theorem get_memory_info_unknown has_psutil os :
  has_psutil = false ∨ ¬ is_Ok (psutil_virtual_memory os)
    ∨ ¬ is_Ok (psutil_swap_memory os) →
  get_memory_info has_psutil os = memory_fallback.
Proof.
  unfold get_memory_info. intros [->|Hraise]; [done|].
  destruct has_psutil; [|done]. apply try_bare_Raise.
  intros (memory & Hm & (swap & Hs & _)%is_Ok_bind)%is_Ok_bind.
  destruct Hraise as [[]|[]]; by eexists.
Qed.

(** The two dictionaries [get_memory_info] can return. *)
Lemma get_memory_info_cases has_psutil os :
  get_memory_info has_psutil os = memory_fallback ∨
  ∃ memory swap total available used swap_total swap_used,
    format_bytes (vm_total memory) = Ok total ∧
    format_bytes (vm_available memory) = Ok available ∧
    format_bytes (vm_used memory) = Ok used ∧
    format_bytes (sw_total swap) = Ok swap_total ∧
    format_bytes (sw_used swap) = Ok swap_used ∧
    get_memory_info has_psutil os =
      {[ "total" := VStr total; "available" := VStr available;
         "used" := VStr used; "percent" := VFloat (vm_percent memory);
         "swap_total" := VStr swap_total; "swap_used" := VStr swap_used;
         "swap_percent" := VFloat (sw_percent swap) ]}.
Proof.
  unfold get_memory_info. destruct has_psutil; [|by left].
  destruct (psutil_virtual_memory os) as [memory|]; [|by left].
  destruct (psutil_swap_memory os) as [swap|]; [|by left]. simpl.
  destruct (format_bytes (vm_total memory)) as [total|] eqn:?; [|by left].
  destruct (format_bytes (vm_available memory)) as [available|] eqn:?;
    [|by left].
  destruct (format_bytes (vm_used memory)) as [used|] eqn:?; [|by left].
  destruct (format_bytes (sw_total swap)) as [swap_total|] eqn:?; [|by left].
  destruct (format_bytes (sw_used swap)) as [swap_used|] eqn:?; [|by left].
  right. by exists memory, swap, total, available, used, swap_total, swap_used.
Qed.

End memory.

Section memory_values.
Context `{PyFloatLaws F}.
Implicit Types (os : memory_source F).

(** C27: when both calls return and the byte counts are in range, the
    dictionary holds the texts [format_bytes_spec] gives for the five
    counts and the two percentages as [psutil] reported them. *)
Theorem get_memory_info_values os memory swap :
  psutil_virtual_memory os = Ok memory →
  psutil_swap_memory os = Ok swap →
  memory_in_range memory swap →
  get_memory_info true os =
    {[ "total" := VStr (format_bytes_spec (vm_total memory));
       "available" := VStr (format_bytes_spec (vm_available memory));
       "used" := VStr (format_bytes_spec (vm_used memory));
       "percent" := VFloat (vm_percent memory);
       "swap_total" := VStr (format_bytes_spec (sw_total swap));
       "swap_used" := VStr (format_bytes_spec (sw_used swap));
       "swap_percent" := VFloat (sw_percent swap) ]}.
Proof.
  intros Hm Hs Hr. unfold get_memory_info. rewrite Hm, Hs. simpl.
  unfold memory_in_range in Hr. rewrite !Forall_cons in Hr.
  destruct Hr as (? & ? & ? & ? & ? & _).
  by rewrite !format_bytes_in_range by done.
Qed.

End memory_values.

(** ** [get_disk_info]: the theorems *)

(** The three byte counts of a usage convert to floats exactly. *)
Definition usage_in_range (usage : sdiskusage) : Prop :=
  Forall (λ n, 0 ≤ n ≤ exact_bound)
    [du_total usage; du_used usage; du_free usage].

Section disk.
Context `{PyFloatBasic F}.
Implicit Types (os : disk_source) (ps : list sdiskpart) (p : sdiskpart)
  (usage : sdiskusage) (d : dict F) (system : string).

(** The entries of the partitions of which the usage can be read and
    shown, in the order of the partitions. *)
Definition readable_mounts os ps : list (dict F) :=
  omap (λ p, ok_of (partition_entry os p)) ps.

(** What the first half of [get_disk_info] leaves in [disk_info]. *)
Definition psutil_mounts (has_psutil : bool) os : list (dict F) :=
  if has_psutil then
    match psutil_disk_partitions os with
    | Ok ps => readable_mounts os ps
    | Raise _ => []
    end
  else [].

Lemma partitions_loop_spec os ps (disk_info : list (dict F)) :
  partitions_loop os ps disk_info = disk_info ++ readable_mounts os ps.
Proof.
  revert disk_info.
  induction ps as [|p ps IH]; intros disk_info; cbn [partitions_loop].
  - by rewrite app_nil_r.
  - rewrite IH. unfold readable_mounts. rewrite omap_cons.
    destruct (partition_entry os p); simpl; [|done].
    by rewrite <- app_assoc.
Qed.

Lemma get_disk_info_unfold has_psutil system os :
  get_disk_info (F:=F) has_psutil system os =
    match psutil_mounts has_psutil os with
    | [] => disk_fallback system os []
    | disk_info => disk_info
    end.
Proof.
  unfold get_disk_info, psutil_mounts. destruct has_psutil; [|done].
  destruct (psutil_disk_partitions os) as [ps|e]; simpl; [|done].
  rewrite partitions_loop_spec. simpl. by destruct (readable_mounts os ps).
Qed.

Lemma disk_fallback_posix system os :
  system ≠ "Windows" → disk_fallback (F:=F) system os [] = [].
Proof.
  intros Hs. unfold disk_fallback. rewrite bool_decide_eq_false_2 by done.
  by destruct (os_path_abspath os).
Qed.



Lemma readable_mounts_mountpoint os ps d :
  d ∈ readable_mounts os ps →
  ∃ p usage, p ∈ ps ∧ psutil_disk_usage os (mountpoint p) = Ok usage ∧
    disk_entry (device p) (mountpoint p) usage = Ok d.
Proof.
  unfold readable_mounts. rewrite list_elem_of_omap.
  intros (p & Hp & Hd%ok_of_Some). exists p. revert Hd.
  unfold partition_entry. intros (usage & Hu & Hd)%bind_Ok. by exists usage.
Qed.

(** Every dictionary of the result was made by [disk_entry]. *)
Lemma get_disk_info_entries has_psutil system os d :
  d ∈ get_disk_info has_psutil system os →
  ∃ dev mnt usage, disk_entry dev mnt usage = Ok d.
Proof.
  rewrite get_disk_info_unfold.
  destruct (psutil_mounts has_psutil os) as [|d' l] eqn:Hm.
  - unfold disk_fallback. destruct (os_path_abspath os) as [current|];
      [|by intros ?%elem_of_nil]. simpl.
    case_bool_decide; [|by intros ?%elem_of_nil].
    destruct (shutil_disk_usage os current) as [usage|];
      [|by intros ?%elem_of_nil]. simpl.
    destruct (disk_entry "C:" current usage) as [entry|] eqn:He;
      [|by intros ?%elem_of_nil]. simpl.
    intros ->%list_elem_of_singleton. eauto.
  - rewrite <- Hm. unfold psutil_mounts. destruct has_psutil;
      [|by intros ?%elem_of_nil].
    destruct (psutil_disk_partitions os) as [ps|]; [|by intros ?%elem_of_nil].
    intros (p & usage & _ & _ & Hd)%readable_mounts_mountpoint. eauto.
Qed.

(** The six values of an entry. *)
Lemma disk_entry_inv dev mnt usage d :
  disk_entry dev mnt usage = Ok d →
  ∃ total used free percent,
    d = {[ "device" := VStr dev; "mountpoint" := VStr mnt;
           "total" := VStr total; "used" := VStr used;
           "free" := VStr free; "percent" := VFloat percent ]}.
Proof.
  unfold disk_entry. intros (total & _ & Hd)%bind_Ok.
  apply bind_Ok in Hd as (used & _ & Hd).
  apply bind_Ok in Hd as (free & _ & Hd).
  apply bind_Ok in Hd as (ratio & _ & Hd).
  apply bind_Ok in Hd as (percent & _ & [= <-]).
  by exists total, used, free, percent.
Qed.

(** On the path through [psutil], [get_disk_info] returns the entries
    of the readable partitions, in the order of [disk_partitions()], when
    there is at least one. *)
Theorem get_disk_info_mounts system os ps :
  psutil_disk_partitions os = Ok ps →
  readable_mounts os ps ≠ [] →
  get_disk_info true system os = readable_mounts os ps.
Proof.
  intros Hps Hne. rewrite get_disk_info_unfold. unfold psutil_mounts.
  rewrite Hps. by destruct (readable_mounts os ps).
Qed.

(** C29: on a system other than Windows there is no fallback: without
    [psutil], or when no partition can be read, [get_disk_info] returns
    the empty list. *)
Theorem get_disk_info_posix has_psutil system os :
  system ≠ "Windows" →
  get_disk_info (F:=F) has_psutil system os = psutil_mounts has_psutil os.
Proof.
  intros Hs. rewrite get_disk_info_unfold.
  destruct (psutil_mounts has_psutil os); [|done].
  by apply disk_fallback_posix.
Qed.


End disk.

Section disk_values.
Context `{PyFloatLaws F}.
Implicit Types (os : disk_source) (ps : list sdiskpart) (p : sdiskpart)
  (usage : sdiskusage) (d : dict F) (system : string).

(** The entry of a volume with counts in range and a size other than
    zero: the three texts of [format_bytes_spec], and as percentage the
    quotient [used / total], rounded, times 100, rounded. *)
Lemma disk_entry_in_range dev mnt usage :
  usage_in_range usage → du_total usage ≠ 0 →
  ∃ ratio hundred,
    int_truediv (du_used usage) (du_total usage) = Ok ratio ∧
    float_of_int 100 = Ok hundred ∧
    disk_entry dev mnt usage =
      Ok {[ "device" := VStr dev;
            "mountpoint" := VStr mnt;
            "total" := VStr (format_bytes_spec (du_total usage));
            "used" := VStr (format_bytes_spec (du_used usage));
            "free" := VStr (format_bytes_spec (du_free usage));
            "percent" := VFloat (float_mul ratio hundred) ]}.
Proof.
  unfold usage_in_range. rewrite !Forall_cons.
  intros (Ht & Hu & Hf & _) Hz.
  destruct (int_truediv_defined (du_used usage) (du_total usage))
    as [ratio Hr]; [done|lia|].
  destruct (float_of_int_exact 100) as (hundred & Hh & _); [by vm_compute|].
  exists ratio, hundred. split_and!; try done.
  unfold disk_entry, float_mul_int.
  rewrite !format_bytes_in_range by done. simpl. rewrite Hr. simpl.
  by rewrite Hh.
Qed.

(** C9: a failure on one mount excludes that mount only: a partition of
    which the usage is read, in range and of a size other than zero has
    its entry in the result, whatever happens on the other partitions. *)
Theorem get_disk_info_reports system os ps p usage :
  psutil_disk_partitions os = Ok ps → p ∈ ps →
  psutil_disk_usage os (mountpoint p) = Ok usage →
  usage_in_range usage → du_total usage ≠ 0 →
  ∃ d, d ∈ get_disk_info true system os ∧
    disk_entry (device p) (mountpoint p) usage = Ok d ∧
    d !! "total" = Some (VStr (format_bytes_spec (du_total usage))).
Proof.
  intros Hps Hp Hu Hr Hz.
  destruct (disk_entry_in_range (device p) (mountpoint p) usage Hr Hz)
    as (ratio & hundred & _ & _ & Hd).
  eexists. split_and!; [|exact Hd|done].
  assert (Ok _ = partition_entry os p) as Hpe
    by (unfold partition_entry; rewrite Hu; simpl; by rewrite Hd).
  rewrite get_disk_info_unfold. unfold psutil_mounts. rewrite Hps.
  match goal with |- ?d ∈ _ =>
    assert (d ∈ readable_mounts os ps) as Hin
      by (apply list_elem_of_omap; exists p; by rewrite <- Hpe)
  end.
  by destruct (readable_mounts os ps); [apply elem_of_nil in Hin|].
Qed.

(** C31: on Windows, when the path through [psutil] gave nothing, the
    result is one entry for the volume of the working directory, under
    the device name "C:" whatever the volume is. *)
Theorem get_disk_info_windows_fallback has_psutil os current usage :
  psutil_mounts (F:=F) has_psutil os = [] →
  os_path_abspath os = Ok current →
  shutil_disk_usage os current = Ok usage →
  usage_in_range usage → du_total usage ≠ 0 →
  ∃ d, get_disk_info has_psutil "Windows" os = [d] ∧
    disk_entry "C:" current usage = Ok d ∧
    d !! "device" = Some (VStr "C:").
Proof.
  intros Hm Hc Hu Hr Hz.
  destruct (disk_entry_in_range "C:" current usage Hr Hz)
    as (ratio & hundred & _ & _ & Hd).
  eexists. split_and!; [|exact Hd|done].
  rewrite get_disk_info_unfold, Hm. unfold disk_fallback.
  rewrite Hc. simpl. rewrite Hu. simpl. by rewrite Hd.
Qed.

End disk_values.

(** ** [get_cpu_info]: the theorems *)

(** The keys of the dictionary made from [psutil]'s answers, and of the
    fallback. *)
Definition cpu_keys : gset string :=
  {[ "usage"; "logical_cores"; "physical_cores"; "frequency" ]}.

Definition cpu_fallback_keys : gset string :=
  {[ "usage"; "cores"; "frequency" ]}.

Section cpu.
Context `{PyFloatOps F}.
Implicit Types (os : cpu_source F) (system : string) (info : dict F).

(** The four calls of lines 32-37 return. *)
Definition cpu_readable os : Prop :=
  is_Ok (psutil_cpu_percent_percpu os) ∧ is_Ok (psutil_cpu_percent os) ∧
  is_Ok (psutil_cpu_count os) ∧ is_Ok (psutil_cpu_count_physical os).

#[export] Instance cpu_readable_dec os : Decision (cpu_readable os).
Proof. unfold cpu_readable. apply _. Defined.

(** The dictionary of lines 54-59. *)
Definition cpu_dict os system (cpu_percent : F)
    (logical_cores physical : option Z) : dict F :=
  {[ "usage" := VFloat cpu_percent;
     "logical_cores" := value_of_count logical_cores;
     "physical_cores" := value_of_count (count_or physical logical_cores);
     "frequency" := VStr (freq_str system os) ]}.

Lemma add_temperature_cases system os info :
  add_temperature system os info = info ∨
  system = "Windows" ∧
  ∃ t, add_temperature system os info = <["temperature" := VStr t]> info.
Proof.
  unfold add_temperature. case_bool_decide; [|by left].
  destruct (psutil_sensors_temperatures os) as [[|[|temp ?] ?]|e]; simpl;
    eauto.
Qed.

Lemma add_temperature_lookup system os info k :
  k ≠ "temperature" → add_temperature system os info !! k = info !! k.
Proof.
  intros Hk.
  destruct (add_temperature_cases system os info) as [->|(_ & t & ->)];
    [done|].
  by rewrite lookup_insert_ne.
Qed.

Lemma get_cpu_info_unfold system os cpu_percent logical_cores physical :
  psutil_cpu_percent_percpu os = Ok () →
  psutil_cpu_percent os = Ok cpu_percent →
  psutil_cpu_count os = Ok logical_cores →
  psutil_cpu_count_physical os = Ok physical →
  get_cpu_info true system os =
    add_temperature system os
      (cpu_dict os system cpu_percent logical_cores physical).
Proof. intros H1 H2 H3 H4. unfold get_cpu_info. by rewrite H1, H2, H3, H4. Qed.

Lemma cpu_readable_inv os :
  cpu_readable os →
  ∃ cpu_percent logical_cores physical,
    psutil_cpu_percent_percpu os = Ok () ∧
    psutil_cpu_percent os = Ok cpu_percent ∧
    psutil_cpu_count os = Ok logical_cores ∧
    psutil_cpu_count_physical os = Ok physical.
Proof.
  intros ([[] H1] & [x H2] & [l H3] & [p H4]). by exists x, l, p.
Qed.

(** The fallback whenever [psutil] is missing or one of the four calls
    raises. *)
Lemma get_cpu_info_not_readable has_psutil system os :
  has_psutil = false ∨ ¬ cpu_readable os →
  get_cpu_info has_psutil system os = cpu_fallback os.
Proof.
  unfold get_cpu_info. intros [->|Hn]; [done|].
  destruct has_psutil; [|done]. apply try_bare_Raise. intros Hok.
  apply is_Ok_bind in Hok as (u & H1 & Hok).
  apply is_Ok_bind in Hok as (x & H2 & Hok).
  apply is_Ok_bind in Hok as (l & H3 & Hok).
  apply is_Ok_bind in Hok as (p & H4 & _).
  destruct Hn. unfold cpu_readable. split_and!; by eexists.
Qed.

Lemma dom_cpu_dict os system x l p : dom (cpu_dict os system x l p) = cpu_keys.
Proof.
  unfold cpu_dict, cpu_keys. rewrite !dom_insert_L, dom_singleton_L.
  set_solver.
Qed.

Lemma dom_cpu_fallback os : dom (cpu_fallback os) = cpu_fallback_keys.
Proof.
  unfold cpu_fallback, cpu_fallback_keys.
  rewrite !dom_insert_L, dom_singleton_L. set_solver.
Qed.

Lemma get_cpu_info_cases has_psutil system os :
  get_cpu_info has_psutil system os = cpu_fallback os ∨
  ∃ x l p, get_cpu_info has_psutil system os
           = add_temperature system os (cpu_dict os system x l p).
Proof.
  destruct (decide (has_psutil = true ∧ cpu_readable os)) as [[-> Hr]|Hn].
  - apply cpu_readable_inv in Hr as (x & l & p & H1 & H2 & H3 & H4).
    right. exists x, l, p. by apply get_cpu_info_unfold.
  - left. apply get_cpu_info_not_readable.
    destruct has_psutil; [right|by left]. intros Hr. by destruct Hn.
Qed.

(** C32: [get_cpu_info] returns one of three shapes of dictionary: the
    fallback with the keys "usage", "cores" and "frequency"; the four keys
    "usage", "logical_cores", "physical_cores" and "frequency"; or, on
    Windows only, those four and "temperature". *)
Theorem get_cpu_info_keys has_psutil system os :
  let d := get_cpu_info has_psutil system os in
  dom d = cpu_fallback_keys ∨ dom d = cpu_keys
  ∨ system = "Windows" ∧ dom d = cpu_keys ∪ {[ "temperature" ]}.
Proof.
  intros d. subst d.
  destruct (get_cpu_info_cases has_psutil system os)
    as [->|(x & l & p & ->)]; [left; apply dom_cpu_fallback|right].
  destruct (add_temperature_cases system os (cpu_dict os system x l p))
    as [->|(Hs & t & ->)]; [left; apply dom_cpu_dict|right].
  split; [done|]. rewrite dom_insert_L, dom_cpu_dict. set_solver.
Qed.

(** Without [psutil], or when one of the calls for the usage and the
    core counts raises, the dictionary is the fallback, which has neither
    "physical_cores" nor "logical_cores": reading them raises [KeyError]. *)
Theorem get_cpu_info_fallback has_psutil system os :
  has_psutil = false ∨ ¬ cpu_readable os →
  get_cpu_info has_psutil system os = cpu_fallback os ∧
  getitem (get_cpu_info has_psutil system os) "physical_cores" = Raise KeyError ∧
  getitem (get_cpu_info has_psutil system os) "logical_cores" = Raise KeyError.
Proof.
  intros Hn. by rewrite get_cpu_info_not_readable.
Qed.

(** C33: when the four calls return, a failure of the frequency or of the
    temperature does not touch the other values: "usage" is
    [psutil]'s percentage, "logical_cores" its count, "physical_cores" the
    physical count or, when that is [None] or [0], the logical one, and
    "frequency" the text of [freq_str]. *)
Theorem get_cpu_info_values system os cpu_percent logical_cores physical :
  psutil_cpu_percent_percpu os = Ok () →
  psutil_cpu_percent os = Ok cpu_percent →
  psutil_cpu_count os = Ok logical_cores →
  psutil_cpu_count_physical os = Ok physical →
  let d := get_cpu_info true system os in
  d !! "usage" = Some (VFloat cpu_percent) ∧
  d !! "logical_cores" = Some (value_of_count logical_cores) ∧
  d !! "physical_cores"
    = Some (value_of_count (count_or physical logical_cores)) ∧
  d !! "frequency" = Some (VStr (freq_str system os)).
Proof.
  intros H1 H2 H3 H4 d. subst d.
  rewrite (get_cpu_info_unfold system os cpu_percent logical_cores physical)
    by done.
  by rewrite !add_temperature_lookup by done.
Qed.

(** On a system other than Windows the dictionary never has a
    temperature, whatever the sensors report. *)
Theorem get_cpu_info_no_temperature has_psutil system os :
  system ≠ "Windows" →
  "temperature" ∉ dom (get_cpu_info has_psutil system os).
Proof.
  intros Hs.
  destruct (get_cpu_info_cases has_psutil system os)
    as [->|(x & l & p & ->)]; [by rewrite dom_cpu_fallback|].
  destruct (add_temperature_cases system os (cpu_dict os system x l p))
    as [->|(Hs' & _)]; [by rewrite dom_cpu_dict|done].
Qed.

End cpu.

(** ** Example hosts and witnesses *)

(** A host with 16 GiB of memory and no swap. *)
Definition example_memory : memory_source float64 := {|
  psutil_virtual_memory := Ok {|
    vm_total := 16 * 2 ^ 30; vm_available := 5 * 2 ^ 30;
    vm_used := 11 * 2 ^ 30; vm_percent := b64_of_tenths 688 |};
  psutil_swap_memory := Ok {|
    sw_total := 0; sw_used := 0; sw_percent := b64_of_tenths 0 |};
|}.

(** The same host when [swap_memory] fails. *)
Definition swapless_memory : memory_source float64 := {|
  psutil_virtual_memory := psutil_virtual_memory example_memory;
  psutil_swap_memory := Raise OSError;
|}.

(** The same readings in exact arithmetic. *)
Definition exact_vmem : svmem Qc := {|
  vm_total := 16 * 2 ^ 30; vm_available := 5 * 2 ^ 30;
  vm_used := 11 * 2 ^ 30; vm_percent := Q2Qc (688 # 10) |}.

Definition exact_swap : sswap Qc := {|
  sw_total := 0; sw_used := 0; sw_percent := Q2Qc 0 |}.

Definition exact_memory : memory_source Qc := {|
  psutil_virtual_memory := Ok exact_vmem;
  psutil_swap_memory := Ok exact_swap;
|}.

(** Three partitions: a disk, a mount that refuses the query, and a
    pseudo file system of size zero. *)
Definition root_usage : sdiskusage :=
  {| du_total := 500 * 10 ^ 9; du_used := 200 * 10 ^ 9;
     du_free := 300 * 10 ^ 9 |}.

Definition root_part : sdiskpart := {| device := "/dev/sda1"; mountpoint := "/" |}.

Definition example_parts : list sdiskpart :=
  [ root_part;
    {| device := "/dev/sdb1"; mountpoint := "/mnt" |};
    {| device := "proc"; mountpoint := "/proc" |} ].

Definition example_disks : disk_source := {|
  psutil_disk_partitions := Ok example_parts;
  psutil_disk_usage mnt :=
    if bool_decide (mnt = "/") then Ok root_usage
    else if bool_decide (mnt = "/mnt") then Raise OSError
    else Ok {| du_total := 0; du_used := 0; du_free := 0 |};
  os_path_abspath := Ok "/home/user";
  shutil_disk_usage _ := Ok root_usage;
|}.

(** Eight logical cores at 12.5 percent, no physical count, a clock at
    2399.5 MHz and one sensor at 45.5 degrees. *)
Definition example_cpu : cpu_source float64 := {|
  psutil_cpu_percent_percpu := Ok ();
  psutil_cpu_percent := Ok (b64_of_tenths 125);
  psutil_cpu_count := Ok (Some 8);
  psutil_cpu_count_physical := Ok None;
  wmi_Win32_Processor := Raise ImportError;
  psutil_cpu_freq := Ok (Some (b64_of_tenths 23995));
  psutil_sensors_temperatures := Ok [[b64_of_tenths 455]];
  os_cpu_count := Some 8;
|}.

(** The same host when Ctrl-C arrives during the sampling. *)
Definition interrupted_cpu : cpu_source float64 := {|
  psutil_cpu_percent_percpu := Ok ();
  psutil_cpu_percent := Raise KeyboardInterrupt;
  psutil_cpu_count := psutil_cpu_count example_cpu;
  psutil_cpu_count_physical := psutil_cpu_count_physical example_cpu;
  wmi_Win32_Processor := wmi_Win32_Processor example_cpu;
  psutil_cpu_freq := psutil_cpu_freq example_cpu;
  psutil_sensors_temperatures := psutil_sensors_temperatures example_cpu;
  os_cpu_count := os_cpu_count example_cpu;
|}.

Lemma get_memory_info_unknown_witness :
  get_memory_info true swapless_memory = memory_fallback.
Proof. apply get_memory_info_unknown. right. right. by intros [? ?]. Defined.

Lemma get_memory_info_values_witness :
  get_memory_info true exact_memory =
    {[ "total" := VStr (format_bytes_spec (16 * 2 ^ 30));
       "available" := VStr (format_bytes_spec (5 * 2 ^ 30));
       "used" := VStr (format_bytes_spec (11 * 2 ^ 30));
       "percent" := VFloat (Q2Qc (688 # 10));
       "swap_total" := VStr (format_bytes_spec 0);
       "swap_used" := VStr (format_bytes_spec 0);
       "swap_percent" := VFloat (Q2Qc 0) ]}.
Proof.
  apply (get_memory_info_values exact_memory exact_vmem exact_swap);
    [done|done|].
  repeat (constructor; [by vm_compute|]). constructor.
Defined.

Lemma get_disk_info_mounts_witness :
  get_disk_info (F:=float64) true "Linux" example_disks
  = readable_mounts example_disks example_parts.
Proof. apply get_disk_info_mounts; [done|]. by vm_compute. Defined.

Lemma get_disk_info_posix_witness :
  get_disk_info (F:=float64) false "Linux" example_disks
  = psutil_mounts false example_disks.
Proof. by apply get_disk_info_posix. Defined.



Lemma get_disk_info_reports_witness :
  ∃ d, d ∈ get_disk_info (F:=Qc) true "Linux" example_disks ∧
    disk_entry "/dev/sda1" "/" root_usage = Ok d ∧
    d !! "total" = Some (VStr (format_bytes_spec (500 * 10 ^ 9))).
Proof.
  apply (get_disk_info_reports "Linux" example_disks example_parts
           root_part root_usage);
    [done|by left|done| |done].
  repeat (constructor; [by vm_compute|]). constructor.
Defined.

Lemma get_disk_info_windows_fallback_witness :
  ∃ d, get_disk_info (F:=Qc) false "Windows" example_disks = [d] ∧
    disk_entry "C:" "/home/user" root_usage = Ok d ∧
    d !! "device" = Some (VStr "C:").
Proof.
  apply (get_disk_info_windows_fallback false example_disks);
    [done|done|done| |done].
  repeat (constructor; [by vm_compute|]). constructor.
Defined.

Lemma get_cpu_info_fallback_witness :
  get_cpu_info true "Linux" interrupted_cpu = cpu_fallback interrupted_cpu ∧
  getitem (get_cpu_info true "Linux" interrupted_cpu) "physical_cores"
    = Raise KeyError ∧
  getitem (get_cpu_info true "Linux" interrupted_cpu) "logical_cores"
    = Raise KeyError.
Proof.
  apply get_cpu_info_fallback. right. intros (_ & [x Hx] & _). done.
Defined.

Lemma get_cpu_info_values_witness :
  let d := get_cpu_info true "Linux" example_cpu in
  d !! "usage" = Some (VFloat (b64_of_tenths 125)) ∧
  d !! "logical_cores" = Some (VInt 8) ∧
  d !! "physical_cores" = Some (VInt 8) ∧
  d !! "frequency" = Some (VStr (freq_str "Linux" example_cpu)).
Proof.
  by apply (get_cpu_info_values "Linux" example_cpu _ (Some 8) None).
Defined.

Lemma get_cpu_info_no_temperature_witness :
  "temperature" ∉ dom (get_cpu_info true "Linux" example_cpu).
Proof. by apply get_cpu_info_no_temperature. Defined.

(** The probes on binary64. *)
Example probes_run :
  get_cpu_info true "Linux" example_cpu
    = {[ "usage" := VFloat (b64_of_tenths 125); "logical_cores" := VInt 8;
         "physical_cores" := VInt 8; "frequency" := VStr "2400 MHz" ]} ∧
  get_cpu_info true "Windows" example_cpu !! "temperature"
    = Some (VStr "46°C") ∧
  get_memory_info true example_memory !! "swap_total" = Some (VStr "0.0 B") ∧
  (map_to_list <$> get_disk_info (F:=float64) true "Linux" example_disks)
    = [ map_to_list ({[ "device" := VStr "/dev/sda1";
           "mountpoint" := VStr "/"; "total" := VStr "465.7 GB";
           "used" := VStr "186.3 GB"; "free" := VStr "279.4 GB";
           "percent" := VFloat (S754_finite false 5629499534213120 (-47)) ]}
           : dict float64) ].
Proof. split_and!; by vm_compute. Qed.
