(* ===== verification/TextFormat.v ===== *)
(** * TextFormat: the pieces of Python's string formatting the displays use

    [len], slicing and padding of [str] count code points.  The model's
    strings are the UTF-8 encodings, so [py_len] counts the bytes that
    start a code point, [py_str_take] cuts between code points, and the
    paddings [py_ljust] and [py_rjust] (the format specifications [<w] and
    [>w]) are computed from [py_len]. *)

From Stdlib Require Import ZArith Lia Ascii.
From stdpp Require Import base tactics option list strings numbers.
From S2P Require Import Prelude.

(** The newline character. *)
Definition nl : string := String (ascii_of_nat 10) EmptyString.

(** [s * n]. *)
Fixpoint py_repeat (s : string) (n : nat) : string :=
  match n with
  | O => EmptyString
  | S n' => s +:+ py_repeat s n'
  end.

(** A byte [10xxxxxx] continues the code point begun before it. *)
Definition is_continuation (c : ascii) : bool :=
  let n := N_of_ascii c in ((128 <=? n) && (n <? 192))%N.

(** [len(s)]. *)
Fixpoint py_len (s : string) : nat :=
  match s with
  | EmptyString => 0
  | String c s' => (if is_continuation c then 0 else 1) + py_len s'
  end.

(** [s[:n]] for [n >= 0]. *)
Fixpoint py_str_take (n : nat) (s : string) : string :=
  match s with
  | EmptyString => EmptyString
  | String c s' =>
      if is_continuation c then String c (py_str_take n s')
      else match n with
           | O => EmptyString
           | S n' => String c (py_str_take n' s')
           end
  end.

(** [format(s, "<w")]. *)
Definition py_ljust (w : nat) (s : string) : string :=
  s +:+ py_repeat " " (w - py_len s).

(** [format(s, ">w")]. *)
Definition py_rjust (w : nat) (s : string) : string :=
  py_repeat " " (w - py_len s) +:+ s.

(** ** Lemmas *)

Lemma py_repeat_length s n :
  String.length (py_repeat s n) = (n * String.length s)%nat.
Proof.
  induction n as [|n IH]; [done|]. cbn [py_repeat].
  rewrite string_app_length, IH. lia.
Qed.

Lemma py_len_app s t : py_len (s +:+ t) = (py_len s + py_len t)%nat.
Proof.
  induction s as [|c s IH]; [done|]. rewrite string_app_cons.
  cbn [py_len]. rewrite IH. lia.
Qed.

Lemma py_len_spaces n : py_len (py_repeat " " n) = n.
Proof.
  induction n as [|n IH]; [done|]. cbn [py_repeat].
  by rewrite py_len_app, IH.
Qed.

Lemma py_len_le s : (py_len s ≤ String.length s)%nat.
Proof.
  induction s as [|c s IH]; [done|]. cbn [py_len String.length].
  destruct (is_continuation c); lia.
Qed.

(** The paddings fill to the width and never cut. *)
Lemma py_ljust_len w s : py_len (py_ljust w s) = (w `max` py_len s)%nat.
Proof. unfold py_ljust. rewrite py_len_app, py_len_spaces. lia. Qed.

Lemma py_rjust_len w s : py_len (py_rjust w s) = (w `max` py_len s)%nat.
Proof. unfold py_rjust. rewrite py_len_app, py_len_spaces. lia. Qed.

Lemma string_app_nil_r s : s +:+ "" = s.
Proof.
  induction s as [|c s IH]; [done|]. rewrite string_app_cons. by f_equal.
Qed.

Lemma py_ljust_wide w s : (w ≤ py_len s)%nat → py_ljust w s = s.
Proof.
  intros Hw. unfold py_ljust. replace (w - py_len s)%nat with 0%nat by lia.
  apply string_app_nil_r.
Qed.

(** A slice has the code points asked for, or all there are. *)
Lemma py_str_take_len n s : py_len (py_str_take n s) = (n `min` py_len s)%nat.
Proof.
  revert n. induction s as [|c s IH]; intros n; [by destruct n|].
  cbn [py_str_take py_len].
  destruct (is_continuation c) eqn:Hc.
  - cbn [py_len]. rewrite Hc, IH. lia.
  - destruct n as [|n]; [done|]. cbn [py_len]. rewrite Hc, IH. lia.
Qed.

Lemma py_str_take_all n s : (py_len s ≤ n)%nat → py_str_take n s = s.
Proof.
  revert n. induction s as [|c s IH]; intros n Hn; [done|].
  cbn [py_str_take py_len] in *. destruct (is_continuation c).
  - f_equal. apply IH. lia.
  - destruct n as [|n]; [lia|]. f_equal. apply IH. lia.
Qed.

Lemma py_str_take_prefix n s : ∃ t, s = py_str_take n s +:+ t.
Proof.
  revert n. induction s as [|c s IH]; intros n; [by exists ""|].
  cbn [py_str_take]. destruct (is_continuation c).
  - destruct (IH n) as [t Ht]. exists t. rewrite string_app_cons. by f_equal.
  - destruct n as [|n]; [by eexists|].
    destruct (IH n) as [t Ht]. exists t. rewrite string_app_cons. by f_equal.
Qed.
