(* ===== verification/Display.v ===== *)
(** * Display: [get_system_info], [display_header], [display_cpu_info],
      [display_memory_info], [display_disk_info]

    The display methods print f-strings made of the values of the
    dictionaries the probes returned.  A printed line is a list of
    [piece]s: literal text, and floats that Python prints with [str]
    (their shortest decimal that reads back as the same float, which the
    model keeps as the float itself).  A display is a [printed] value: the
    lines printed so far and how the method ended, by returning or by
    raising, so that what was printed before an exception is part of the
    result.

    The theorems say which dictionaries of the probes the displays accept:
    [display_memory_info] and [display_disk_info] accept all of them,
    [display_cpu_info] raises [KeyError] on the fallback dictionary of
    [get_cpu_info]; and that the swap line of [display_memory_info] is
    printed whatever the swap total is. *)

From Stdlib Require Import ZArith Lia Ascii.
From stdpp Require Import base tactics option list strings numbers pretty gmap.
From S2P Require Import Prelude Decimal PyFloat Binary64 ByteFormatter.
From S2P Require Import ResourceProbe TextFormat.

#[local] Open Scope Z_scope.

(** ** Printed output *)

(** A part of a printed line. *)
Inductive piece (F : Type) : Type :=
  | Text (s : string)
  | Repr (x : F).
Arguments Text {F} s.
Arguments Repr {F} x.

Abbreviation line F := (list (piece F)).

(** What a method printed and how it ended. *)
Definition printed (F A : Type) : Type := (list (line F) * result A)%type.

Definition printed_ret {F A} (a : A) : printed F A := ([], Ok a).

Definition printed_bind {F A B} (k : A → printed F B) (m : printed F A) :
    printed F B :=
  match m.2 with
  | Ok a => (m.1 ++ (k a).1, (k a).2)
  | Raise e => (m.1, Raise e)
  end.

#[export] Instance printed_mret {F} : MRet (printed F) := @printed_ret F.
#[export] Instance printed_mbind {F} : MBind (printed F) := @printed_bind F.

(** [try: body] followed by [except <caught>: handler]: what the body
    printed before it raised stays printed. *)
Definition printed_try_except {F A} (body : printed F A) (caught : exn → bool)
    (handler : exn → printed F A) : printed F A :=
  match body.2 with
  | Ok _ => body
  | Raise e =>
      if caught e then (body.1 ++ (handler e).1, (handler e).2) else body
  end.

(** [print(l)]. *)
Definition print {F} (l : line F) : printed F unit := ([l], Ok ()).

(** A computation that prints nothing. *)
Definition quiet {F A} (r : result A) : printed F A := ([], r).

(** [str(v)] inside an f-string. *)
Definition str {F} (v : value F) : line F :=
  match v with
  | VNone => [Text "None"]
  | VStr s => [Text s]
  | VInt n => [Text (pretty n)]
  | VFloat x => [Repr x]
  end.

(** [v != s] for a string literal [s]. *)
Definition value_ne_str {F} (v : value F) (s : string) : bool :=
  match v with
  | VStr t => negb (bool_decide (t = s))
  | _ => true
  end.

(** ** The host description *)

(** The calls of [get_system_info]; [self.system] is [platform.system()],
    read once by the constructor. *)
Record platform_source : Type := {
  platform_platform : result string;
  platform_python_version : result string;
  (** [platform.architecture()[0]]. *)
  platform_architecture : result string;
}.

Section display.
Context `{PyFloatOps F}.

(** [format(v, ".1f")] for a value of a dictionary. *)
Definition value_fmt1 (v : value F) : result string :=
  match v with
  | VNone => Raise TypeError
  | VStr _ => Raise ValueError
  | VInt n => int_fmt1 n
  | VFloat x => Ok (float_fmt1 x)
  end.

Definition get_system_info (system : string) (os : platform_source) :
    result (dict F) :=
  platform ← platform_platform os;
  python_version ← platform_python_version os;
  architecture ← platform_architecture os;
  Ok ({[ "platform" := VStr platform;
         "system" := VStr system;
         "python_version" := VStr python_version;
         "architecture" := VStr architecture ]} : dict F).

Definition display_header (system : string) (os : platform_source) :
    printed F unit :=
  info ← quiet (get_system_info system os);
  _ ← print [Text (nl +:+ py_repeat "=" 60)];
  _ ← print [Text "🖥️  SYSTEM RESOURCE MONITOR"];
  _ ← print [Text (py_repeat "=" 60)];
  platform ← quiet (getitem info "platform");
  _ ← print (Text "💻 Platform: " :: str platform);
  python_version ← quiet (getitem info "python_version");
  _ ← print (Text "🐍 Python: " :: str python_version);
  architecture ← quiet (getitem info "architecture");
  _ ← print (Text "🏗️  Architecture: " :: str architecture);
  print [Text (py_repeat "=" 60)].

Definition display_cpu_info (cpu_info : dict F) : printed F unit :=
  usage ← quiet (getitem cpu_info "usage");
  physical_cores ← quiet (getitem cpu_info "physical_cores");
  logical_cores ← quiet (getitem cpu_info "logical_cores");
  _ ← print ([Text (nl +:+ "💻 CPU Usage: ")] ++ str usage ++ [Text "% ("]
             ++ str physical_cores ++ [Text " physical, "]
             ++ str logical_cores ++ [Text " logical cores)"]);
  _ ← (if bool_decide ("temperature" ∈ dom cpu_info) then
         temperature ← quiet (getitem cpu_info "temperature");
         print (Text "🌡️  Temperature: " :: str temperature)
       else mret ());
  frequency ← quiet (getitem cpu_info "frequency");
  print (Text "⚡ Frequency: " :: str frequency).

Definition display_memory_info (memory_info : dict F) : printed F unit :=
  used ← quiet (getitem memory_info "used");
  total ← quiet (getitem memory_info "total");
  percent ← quiet (getitem memory_info "percent");
  _ ← print ([Text (nl +:+ "🧠 Memory: ")] ++ str used ++ [Text " / "]
             ++ str total ++ [Text " ("] ++ str percent ++ [Text "%)"]);
  available ← quiet (getitem memory_info "available");
  _ ← print (Text "💾 Available: " :: str available);
  swap_total ← quiet (getitem memory_info "swap_total");
  if value_ne_str swap_total "0 B" then
    swap_used ← quiet (getitem memory_info "swap_used");
    swap_total ← quiet (getitem memory_info "swap_total");
    swap_percent ← quiet (getitem memory_info "swap_percent");
    print ([Text "🔄 Swap: "] ++ str swap_used ++ [Text " / "]
           ++ str swap_total ++ [Text " ("] ++ str swap_percent
           ++ [Text "%)"])
  else mret ().

(** The two lines of one disk. *)
Definition display_disk (disk : dict F) : printed F unit :=
  device ← quiet (getitem disk "device");
  mountpoint ← quiet (getitem disk "mountpoint");
  _ ← print ([Text "   "] ++ str device ++ [Text " ("] ++ str mountpoint
             ++ [Text ")"]);
  used ← quiet (getitem disk "used");
  total ← quiet (getitem disk "total");
  percent ← quiet (v ← getitem disk "percent"; value_fmt1 v);
  print ([Text "   "] ++ str used ++ [Text " / "] ++ str total
         ++ [Text " ("; Text percent; Text "%)"]).

Fixpoint display_disks (disk_info : list (dict F)) : printed F unit :=
  match disk_info with
  | [] => mret ()
  | disk :: rest => _ ← display_disk disk; display_disks rest
  end.

Definition display_disk_info (disk_info : list (dict F)) : printed F unit :=
  _ ← print [Text (nl +:+ "💾 Disk Usage:")];
  display_disks disk_info.

End display.

(** ** Lemmas on [printed] *)

Section printed_lemmas.
Context {F A B : Type}.
Implicit Types (m : printed F A) (k : A → printed F B) (r : result A).

Lemma quiet_bind_Ok a k : quiet (Ok a) ≫= k = k a.
Proof.
  unfold mbind, printed_mbind, printed_bind. simpl. by destruct (k a).
Qed.

Lemma quiet_bind_Raise e k : quiet (Raise e) ≫= k = ([], Raise e).
Proof. done. Qed.

Lemma printed_bind_Ok m k a :
  m.2 = Ok a → m ≫= k = (m.1 ++ (k a).1, (k a).2).
Proof.
  intros Hm. unfold mbind, printed_mbind, printed_bind. by rewrite Hm.
Qed.

Lemma printed_bind_Raise m k e : m.2 = Raise e → m ≫= k = (m.1, Raise e).
Proof.
  intros Hm. unfold mbind, printed_mbind, printed_bind. by rewrite Hm.
Qed.

(** How a sequence ends: as the sequence of the endings. *)
Lemma printed_bind_snd m k : (m ≫= k).2 = m.2 ≫= (λ a, (k a).2).
Proof.
  unfold mbind at 1, printed_mbind, printed_bind. by destruct m.2.
Qed.

(** What a sequence printed starts with what its first part printed. *)
Lemma printed_bind_prefix m k : m.1 `prefix_of` (m ≫= k).1.
Proof.
  unfold mbind, printed_mbind, printed_bind.
  destruct m.2; simpl; [by eexists|done].
Qed.

End printed_lemmas.

Section try_except_lemmas.
Context {F A : Type}.
Implicit Types (m : printed F A) (handler : exn → printed F A).

Lemma printed_try_except_Ok m caught handler a :
  m.2 = Ok a → printed_try_except m caught handler = m.
Proof. intros Hm. unfold printed_try_except. by rewrite Hm. Qed.

Lemma printed_try_except_caught m caught handler e :
  m.2 = Raise e → caught e = true →
  printed_try_except m caught handler
  = (m.1 ++ (handler e).1, (handler e).2).
Proof. intros Hm He. unfold printed_try_except. by rewrite Hm, He. Qed.

Lemma printed_try_except_through m caught handler e :
  m.2 = Raise e → caught e = false →
  printed_try_except m caught handler = m.
Proof. intros Hm He. unfold printed_try_except. by rewrite Hm, He. Qed.

End try_except_lemmas.

Lemma print_bind {F B} (l : line F) (k : unit → printed F B) :
  print l ≫= k = (l :: (k ()).1, (k ()).2).
Proof. done. Qed.

(** Runs a display to its next test, reading the dictionary by the
    lookups among the hypotheses. *)
Ltac run_display :=
  repeat first
    [ rewrite print_bind; cbv beta
    | rewrite quiet_bind_Ok; cbv beta
    | match goal with
      | Hl : ?d !! ?k = Some ?v |- context [getitem ?d ?k] =>
          rewrite (proj2 (getitem_Ok d k v) Hl)
      end ].

(** ** The theorems *)

Section cpu.
Context `{PyFloatOps F}.
Implicit Types (os : cpu_source F) (system : string).

(** What [display_cpu_info] prints for a dictionary with the four keys. *)
Lemma display_cpu_dict os system x l p :
  display_cpu_info (cpu_dict os system x l p) =
    ([ [Text (nl +:+ "💻 CPU Usage: "); Repr x; Text "% ("]
         ++ str (value_of_count (count_or p l)) ++ [Text " physical, "]
         ++ str (value_of_count l) ++ [Text " logical cores)"];
       [Text "⚡ Frequency: "; Text (freq_str system os)] ], Ok ()).
Proof. done. Qed.

(** C18: [display_cpu_info] cannot show the fallback of [get_cpu_info]:
    without [psutil], or when one of the calls for the usage and the core
    counts raises, it prints nothing and raises [KeyError], for the
    fallback has the key "cores" where the display reads
    "physical_cores". *)
Theorem display_cpu_info_fallback has_psutil system os :
  has_psutil = false ∨ ¬ cpu_readable os →
  display_cpu_info (get_cpu_info has_psutil system os) = ([], Raise KeyError).
Proof. intros Hn. by rewrite get_cpu_info_not_readable. Qed.

(** When the four calls return, [display_cpu_info] shows the dictionary
    of [get_cpu_info] in two lines, or three with the temperature, and
    returns. *)
Lemma display_cpu_info_readable system os :
  cpu_readable os →
  ∃ out, display_cpu_info (get_cpu_info true system os) = (out, Ok ()) ∧
    (length out = 2 ∨ system = "Windows" ∧ length out = 3)%nat.
Proof.
  intros (x & l & p & H1 & H2 & H3 & H4)%cpu_readable_inv.
  rewrite (get_cpu_info_unfold system os x l p) by done.
  destruct (add_temperature_cases system os (cpu_dict os system x l p))
    as [->|(Hs & t & ->)].
  - rewrite display_cpu_dict. eexists. split; [done|by left].
  - eexists. split; [done|by right].
Qed.

End cpu.

Section memory.
Context `{PyFloatOps F}.
Implicit Types (os : memory_source F) (v : value F) (d : dict F).

(** The lines of [display_memory_info] for a dictionary with the seven
    keys: the swap line is the third when the test of line 258 passes. *)
Definition memory_lines (used total percent available
    swap_total swap_used swap_percent : value F) : list (line F) :=
  [ [Text (nl +:+ "🧠 Memory: ")] ++ str used ++ [Text " / "]
      ++ str total ++ [Text " ("] ++ str percent ++ [Text "%)"];
    Text "💾 Available: " :: str available ]
  ++ if value_ne_str swap_total "0 B" then
       [ [Text "🔄 Swap: "] ++ str swap_used ++ [Text " / "]
           ++ str swap_total ++ [Text " ("] ++ str swap_percent
           ++ [Text "%)"] ]
     else [].

Lemma display_memory_info_lookup d
    (used total percent available swap_total swap_used swap_percent : value F) :
  d !! "used" = Some used → d !! "total" = Some total →
  d !! "percent" = Some percent → d !! "available" = Some available →
  d !! "swap_total" = Some swap_total → d !! "swap_used" = Some swap_used →
  d !! "swap_percent" = Some swap_percent →
  display_memory_info d
  = (memory_lines used total percent available
       swap_total swap_used swap_percent, Ok ()).
Proof.
  intros. unfold memory_lines, display_memory_info. run_display.
  destruct (value_ne_str swap_total "0 B"); [|done]. by run_display.
Qed.

End memory.

Section memory_theorems.
Context `{PyFloatBasic F}.
Implicit Types (os : memory_source F).

(** The test of line 258 passes on every dictionary of
    [get_memory_info]. *)
Lemma get_memory_info_swap_test has_psutil os v :
  get_memory_info has_psutil os !! "swap_total" = Some v →
  value_ne_str v "0 B" = true.
Proof.
  destruct (get_memory_info_cases has_psutil os)
    as [->|(memory & swap & total & available & used & swap_total & swap_used
            & _ & _ & _ & Hs & _ & ->)].
  - by intros [= <-].
  - intros [= <-]. simpl. apply negb_true_iff, bool_decide_eq_false.
    intros ->. apply format_bytes_length in Hs. simpl in Hs. lia.
Qed.

(** Every dictionary of [get_memory_info] has the seven values
    [display_memory_info] reads. *)
Lemma get_memory_info_lookups has_psutil os :
  ∃ used total percent available swap_total swap_used swap_percent,
    let d := get_memory_info has_psutil os in
    d !! "used" = Some used ∧ d !! "total" = Some total ∧
    d !! "percent" = Some percent ∧ d !! "available" = Some available ∧
    d !! "swap_total" = Some swap_total ∧ d !! "swap_used" = Some swap_used ∧
    d !! "swap_percent" = Some swap_percent.
Proof.
  destruct (get_memory_info_cases has_psutil os)
    as [->|(memory & swap & total & available & used & swap_total & swap_used
            & _ & _ & _ & _ & _ & ->)]; by eexists _, _, _, _, _, _, _.
Qed.

Lemma display_memory_info_returns has_psutil os :
  (display_memory_info (get_memory_info has_psutil os)).2 = Ok ().
Proof.
  destruct (get_memory_info_lookups has_psutil os)
    as (? & ? & ? & ? & ? & ? & ? & ? & ? & ? & ? & ? & ? & ?).
  by erewrite display_memory_info_lookup.
Qed.

(** C17: [display_memory_info] shows every dictionary of [get_memory_info]
    in three lines and returns: the test of line 258 never fails, so the
    swap line is printed also for a swap total of zero bytes, and with
    "Unknown" three times when the figures are missing. *)
Theorem display_memory_info_swap_always has_psutil os :
  ∃ l1 l2 l3,
    display_memory_info (get_memory_info has_psutil os) = ([l1; l2; l3], Ok ()).
Proof.
  destruct (get_memory_info_lookups has_psutil os)
    as (? & ? & ? & ? & swap_total & ? & ? & ? & ? & ? & ? & Hs & ? & ?).
  erewrite display_memory_info_lookup by done. unfold memory_lines.
  rewrite (get_memory_info_swap_test _ _ _ Hs). by eexists _, _, _.
Qed.

End memory_theorems.

Section disk_theorems.
Context `{PyFloatBasic F}.
Implicit Types (os : disk_source) (d : dict F) (system : string).

(** The two lines of an entry made by [disk_entry]. *)
Lemma display_disk_entry dev mnt usage d :
  disk_entry dev mnt usage = Ok d →
  ∃ l1 l2, display_disk d = ([l1; l2], Ok ()).
Proof.
  intros (total & used & free & percent & ->)%disk_entry_inv.
  by eexists _, _.
Qed.

Lemma display_disks_entries (disk_info : list (dict F)) :
  Forall (λ d, ∃ dev mnt usage, disk_entry dev mnt usage = Ok d) disk_info →
  ∃ out, display_disks disk_info = (out, Ok ()) ∧
    length out = (2 * length disk_info)%nat.
Proof.
  induction 1 as [|d l (dev & mnt & usage & Hd) _ (out & IH & Hlen)].
  - by exists [].
  - destruct (display_disk_entry dev mnt usage d Hd) as (l1 & l2 & Hl).
    exists (l1 :: l2 :: out). cbn [display_disks].
    rewrite (printed_bind_Ok _ _ ()) by (by rewrite Hl).
    rewrite Hl, IH. simpl. split; [done|lia].
Qed.

(** [display_disk_info] shows every list of [get_disk_info] and
    returns: the heading and two lines for each entry, so the heading
    alone when the list is empty. *)
Lemma display_disk_info_lines has_psutil system os :
  ∃ out,
    display_disk_info (get_disk_info has_psutil system os) = (out, Ok ()) ∧
    length out = (1 + 2 * length (get_disk_info (F:=F) has_psutil system os))%nat.
Proof.
  destruct (display_disks_entries (get_disk_info has_psutil system os))
    as (out & Hout & Hlen).
  { apply Forall_forall. intros d. apply get_disk_info_entries. }
  eexists. unfold display_disk_info. rewrite print_bind, Hout.
  split; [done|]. simpl. lia.
Qed.

Lemma display_disk_info_returns has_psutil system os :
  (display_disk_info (get_disk_info (F:=F) has_psutil system os)).2 = Ok ().
Proof.
  by destruct (display_disk_info_lines has_psutil system os) as (out & -> & _).
Qed.

End disk_theorems.

(** ** Witnesses and runs *)

Lemma display_cpu_info_fallback_witness :
  display_cpu_info (get_cpu_info true "Linux" interrupted_cpu)
  = ([], Raise KeyError).
Proof.
  apply display_cpu_info_fallback. right. intros (_ & [x Hx] & _). done.
Defined.

(** The memory display of a host without swap, on binary64. *)
Example display_memory_info_run :
  display_memory_info (get_memory_info true example_memory) =
    ([ [Text (nl +:+ "🧠 Memory: "); Text "11.0 GB"; Text " / ";
        Text "16.0 GB"; Text " ("; Repr (b64_of_tenths 688); Text "%)"];
       [Text "💾 Available: "; Text "5.0 GB"];
       [Text "🔄 Swap: "; Text "0.0 B"; Text " / "; Text "0.0 B"; Text " (";
        Repr (b64_of_tenths 0); Text "%)"] ], Ok ()).
Proof. by vm_compute. Qed.

Lemma display_memory_info_swap_always_witness :
  ∃ l1 l2 l3,
    display_memory_info (get_memory_info true example_memory)
    = ([l1; l2; l3], Ok ()).
Proof. exact (display_memory_info_swap_always true example_memory). Defined.
