(* ===== verification/ProcessTable.v ===== *)
(** * ProcessTable: [display_processes]

    [display_processes] (src/tools/system_monitor.py, lines 271-295) sorts
    the list it is given once more, cuts it to ten, and prints a heading,
    one row for each process and the totals; or one message when there is
    no process.  Rows and totals are texts, made with the paddings of
    TextFormat.v and [format(x, ".1f")].

    [table] is the reference: the same lines for a list taken as it is.
    The theorems relate [display_processes] after [get_top_processes] to
    it, bound the name column, and run both on binary64. *)

From Stdlib Require Import ZArith Lia Ascii.
From stdpp Require Import base tactics option list strings numbers pretty
  sorting.
From S2P Require Import Prelude Decimal PyFloat Binary64 ProcessRanker.
From S2P Require Import ResourceProbe TextFormat Display.

#[local] Open Scope Z_scope.

Section code.
Context `{PyFloatOps F}.

(** Line 288: the name as the row shows it. *)
Definition shown_name (name : string) : string :=
  if bool_decide (py_len name ≤ 22)%nat then name
  else py_str_take 19 name +:+ "...".

(** Line 289: the row of the [i]-th process. *)
Definition process_row (i : nat) (proc : ProcessInfo F) : line F :=
  [Text (py_rjust 2 (pretty (Z.of_nat i)) +:+ ". "
         +:+ py_ljust 25 (shown_name (name proc))
         +:+ py_rjust 7 (float_fmt1 (cpu_percent proc)) +:+ "%"
         +:+ py_rjust 10 (float_fmt1 (memory_mb proc))
         +:+ py_rjust 10 (pretty (pid proc)))].

(** Lines 286-289: the rows, numbered from [i]. *)
Fixpoint process_rows (i : nat) (top_processes : list (ProcessInfo F)) :
    printed F unit :=
  match top_processes with
  | [] => mret ()
  | proc :: rest => _ ← print (process_row i proc); process_rows (S i) rest
  end.

(** Line 283. *)
Definition table_heading : line F :=
  [Text (nl +:+ py_ljust 4 "" +:+ py_ljust 25 "Process"
         +:+ py_rjust 8 "CPU %" +:+ py_rjust 12 "Memory (MB)"
         +:+ py_rjust 10 "PID")].

(** Lines 283-295, for the list [top_processes] to show and the list
    [processes] to total. *)
Definition print_table (top_processes processes : list (ProcessInfo F)) :
    printed F unit :=
  _ ← print table_heading;
  _ ← print [Text (py_repeat "-" 60)];
  _ ← process_rows 1 top_processes;
  total_cpu ← quiet (float_sum (cpu_percent <$> processes));
  total_mem ← quiet (float_sum (memory_mb <$> processes));
  _ ← print [Text (py_repeat "-" 60)];
  cpu ← quiet (number_fmt1 total_cpu);
  mem ← quiet (number_fmt1 total_mem);
  print [Text (py_rjust 29 "Total:" +:+ py_rjust 7 cpu +:+ "%"
               +:+ py_rjust 10 mem +:+ " MB")].

Definition display_processes (processes : list (ProcessInfo F)) :
    printed F unit :=
  let processes := sort_desc cpu_percent processes in
  let top_processes := py_slice_to 10 processes in
  match top_processes with
  | [] => print [Text (nl +:+ "No active processes found!")]
  | _ => print_table top_processes processes
  end.

(** The reference: the table of a list shown and totalled as it is. *)
Definition table (l : list (ProcessInfo F)) : printed F unit :=
  match l with
  | [] => print [Text (nl +:+ "No active processes found!")]
  | _ => print_table l l
  end.

End code.

(** ** The name column *)

Lemma shown_name_len name : (py_len (shown_name name) ≤ 22)%nat.
Proof.
  unfold shown_name. case_bool_decide; [done|].
  rewrite py_len_app, py_str_take_len. change (py_len "...") with 3%nat. lia.
Qed.

Lemma shown_name_short name :
  (py_len name ≤ 22)%nat → shown_name name = name.
Proof. intros Hn. unfold shown_name. by rewrite bool_decide_eq_true_2. Qed.

(** C40: the name column holds 22 characters at most: a longer name is cut
    to its first 19 characters followed by three dots, a shorter one is
    shown whole, and the padded column is 25 characters wide. *)
Theorem shown_name_column name :
  py_len (py_ljust 25 (shown_name name)) = 25%nat ∧
  ∃ rest, name = py_str_take 19 name +:+ rest ∧
    shown_name name = if bool_decide (py_len name ≤ 22)%nat then name
                      else py_str_take 19 name +:+ "...".
Proof.
  split; [|destruct (py_str_take_prefix 19 name) as [rest Hr]; by exists rest].
  rewrite py_ljust_len. pose proof (shown_name_len name). lia.
Qed.

(** ** After [get_top_processes] *)

Section ranking.
Context `{PyFloatBasic F}.
Implicit Types (os : process_source F) (l : list (ProcessInfo F)).

Lemma process_rows_returns i l : (process_rows i l).2 = Ok ().
Proof.
  revert i. induction l as [|p l IH]; intros i; [done|].
  cbn [process_rows]. rewrite print_bind. apply IH.
Qed.

Lemma print_table_returns l l' : (print_table l l').2 = Ok ().
Proof.
  unfold print_table. rewrite !print_bind. cbn [snd].
  rewrite printed_bind_snd, process_rows_returns. cbn [mbind result_bind].
  destruct (float_sum_Ok (cpu_percent <$> l')) as [total_cpu Hc].
  destruct (float_sum_Ok (memory_mb <$> l')) as [total_mem Hm].
  rewrite Hc, quiet_bind_Ok, Hm, quiet_bind_Ok, print_bind. cbn [snd].
  destruct (number_fmt1_sum _ _ Hc) as [cpu ->].
  destruct (number_fmt1_sum _ _ Hm) as [mem ->].
  by rewrite !quiet_bind_Ok.
Qed.

(** [display_processes] returns on every list. *)
Lemma display_processes_returns l : (display_processes l).2 = Ok ().
Proof.
  unfold display_processes. case_match; [done|apply print_table_returns].
Qed.

(** C15: [display_processes] applied to what [get_top_processes(limit=10)]
    returned sorts and slices to no effect: it prints the table of that
    list, with the totals of the processes shown, ten at most. *)
Theorem display_processes_after_top has_psutil os l :
  get_top_processes has_psutil os 10 = Ok l →
  display_processes l = table l.
Proof.
  intros Hl. unfold display_processes, table.
  apply get_top_processes_Ok in Hl as [->| ->]; [done|].
  rewrite sort_desc_sorted_id by apply py_slice_sort_Sorted.
  rewrite py_slice_to_all; [done|]. by apply py_slice_to_length_le.
Qed.

End ranking.

Lemma display_processes_after_top_witness :
  display_processes example_top = table example_top.
Proof.
  apply (display_processes_after_top true example_host example_top).
  decide_by_compute.
Defined.




(** The table of the scenario of the specification, on binary64. *)
Theorem display_processes_scenario :
  display_processes example_top =
    ([ [Text (nl +:+ "    Process                     CPU % Memory (MB)       PID")];
       [Text (py_repeat "-" 60)];
       [Text " 1. init.EXE                    60.2%       0.0        12"];
       [Text " 2. chrome                      50.0%     300.0        10"];
       [Text " 3. python                      50.0%       4.8        11"];
       [Text (py_repeat "-" 60)];
       [Text "                       Total:  160.2%     304.8 MB"] ], Ok ()).
Proof. by vm_compute. Qed.
