(* ===== verification/PyInt.v ===== *)
(** * PyInt: [int(s)] on a command-line argument

    [main] (src/tools/system_monitor.py, line 338) converts [sys.argv[2]]
    with [int] and falls back to two seconds on [ValueError].  [py_int]
    is the conversion of a [str] in base ten as CPython does it: blanks
    around the number are dropped, a sign may precede it, the digits may
    be grouped by single underscores, and a text of more than
    [int_max_str_digits] digits is refused.  The digits are the ASCII
    ones.

    The theorems: [py_int] raises nothing but [ValueError], and it reads
    back what [str] prints of an int (the text of the refresh message). *)

From Stdlib Require Import ZArith Lia Ascii.
From stdpp Require Import base tactics option list strings numbers pretty.
From S2P Require Import Prelude.

#[local] Open Scope Z_scope.

(** The default of [sys.get_int_max_str_digits()]. *)
Definition int_max_str_digits : nat := 4300.

(** The blanks [int] skips: tab to carriage return, the four separators,
    the space. *)
Definition is_space (c : ascii) : bool :=
  let n := N_of_ascii c in
  (((9 <=? n) && (n <=? 13)) || ((28 <=? n) && (n <=? 32)))%N.

Definition digit_of (c : ascii) : option Z :=
  let n := N_of_ascii c in
  if ((48 <=? n) && (n <=? 57))%N then Some (Z.of_N (n - 48)) else None.

(** [s.strip()] on the characters of [s]. *)
Fixpoint drop_spaces (l : list ascii) : list ascii :=
  match l with
  | c :: l' => if is_space c then drop_spaces l' else l
  | [] => []
  end.

Definition py_strip (l : list ascii) : list ascii :=
  reverse (drop_spaces (reverse (drop_spaces l))).

(** The scan of the digits: the value read, the number of digits, and
    whether the last character was a digit (an underscore must follow
    one and be followed by one). *)
Definition int_step (st : Z * nat * bool) (c : ascii) : option (Z * nat * bool) :=
  let '(acc, count, after_digit) := st in
  match digit_of c with
  | Some d => Some (10 * acc + d, S count, true)
  | None =>
      if bool_decide (c = "_"%char) && after_digit
      then Some (acc, count, false) else None
  end.

Fixpoint int_scan (l : list ascii) (st : Z * nat * bool) :
    option (Z * nat * bool) :=
  match l with
  | [] => Some st
  | c :: l' => st' ← int_step st c; int_scan l' st'
  end.

(** The digits of a number without its sign. *)
Definition int_digits (l : list ascii) : result Z :=
  match int_scan l (0, 0%nat, false) with
  | Some (n, count, true) =>
      if bool_decide (count ≤ int_max_str_digits)%nat then Ok n
      else Raise ValueError
  | _ => Raise ValueError
  end.

(** A number with its sign. *)
Definition int_signed (l : list ascii) : result Z :=
  match l with
  | "-"%char :: l' => Z.opp <$> int_digits l'
  | "+"%char :: l' => int_digits l'
  | _ => int_digits l
  end.

(** [int(s)]. *)
Definition py_int (s : string) : result Z :=
  int_signed (py_strip (String.list_ascii_of_string s)).

(** ** Lemmas *)

Lemma int_digits_raises l e : int_digits l = Raise e → e = ValueError.
Proof.
  unfold int_digits.
  destruct (int_scan _ _) as [[[n count] []]|]; try case_bool_decide;
    congruence.
Qed.

Lemma py_int_raises_ValueError s e : py_int s = Raise e → e = ValueError.
Proof.
  unfold py_int, int_signed.
  destruct (py_strip _) as [|c l]; [apply int_digits_raises|].
  destruct (decide (c = "-"%char)) as [->|]; [|
    destruct (decide (c = "+"%char)) as [->|]].
  - destruct (int_digits l) eqn:E; [done|]. simpl. intros [= <-].
    by eapply int_digits_raises.
  - apply int_digits_raises.
  - intros He. assert (int_digits (c :: l) = Raise e) as Hd.
    { revert He. by repeat case_match. }
    by eapply int_digits_raises.
Qed.

Lemma drop_spaces_id c l : is_space c = false → drop_spaces (c :: l) = c :: l.
Proof. intros Hc. simpl. by rewrite Hc. Qed.

(** The characters of a number in base ten. *)
Lemma digit_of_pretty_N_char x :
  (x < 10)%N → digit_of (pretty_N_char x) = Some (Z.of_N x).
Proof.
  intros Hx. destruct x as [|p]; [done|].
  do 4 (try destruct p as [p|p|]); try done; lia.
Qed.

Lemma is_space_pretty_N_char x : is_space (pretty_N_char x) = false.
Proof. unfold pretty_N_char. by repeat case_match. Qed.

(** Nothing is stripped from a text without blanks. *)
Lemma py_strip_no_space l :
  Forall (λ c, is_space c = false) l → py_strip l = l.
Proof.
  intros Hl. unfold py_strip. destruct l as [|c l]; [done|].
  rewrite drop_spaces_id by (by inversion Hl).
  destruct (reverse (c :: l)) as [|d r] eqn:Hr.
  { apply (f_equal length) in Hr. by rewrite length_reverse in Hr. }
  rewrite drop_spaces_id, <- Hr; [apply reverse_involutive|].
  apply (Forall_forall (λ c, is_space c = false) (c :: l)); [done|].
  apply elem_of_reverse. rewrite Hr. by left.
Qed.

Lemma int_scan_app l1 l2 st :
  int_scan (l1 ++ l2) st = int_scan l1 st ≫= int_scan l2.
Proof.
  revert st. induction l1 as [|c l1 IH]; intros st; [done|]. simpl.
  destruct (int_step st c); [apply IH|done].
Qed.

(** A character that is a digit is neither a blank nor a sign. *)
Lemma digit_not_space c : is_Some (digit_of c) → is_space c = false.
Proof.
  intros [d Hd]. revert Hd.
  by destruct c as [[] [] [] [] [] [] [] []]; vm_compute.
Qed.

Lemma digit_not_sign c :
  is_Some (digit_of c) → c ≠ "-"%char ∧ c ≠ "+"%char.
Proof. intros [d Hd]. split; intros ->; by vm_compute in Hd. Qed.

(** The digits [pretty] writes for a positive number, and what the scan
    reads from them. *)
Lemma pretty_N_go_digits (x : N) :
  (0 < x)%N →
  ∃ ds, ds ≠ [] ∧ Forall (λ c, is_Some (digit_of c)) ds ∧
    (∀ s, String.list_ascii_of_string (pretty_N_go x s)
          = ds ++ String.list_ascii_of_string s) ∧
    (∀ acc count b, int_scan ds (acc, count, b)
       = Some (acc * 10 ^ Z.of_nat (length ds) + Z.of_N x,
               (count + length ds)%nat, true)).
Proof.
  induction (N.lt_wf_0 x) as [x _ IH]. intros Hx.
  assert (x `mod` 10 < 10)%N as Hm by (by apply N.mod_lt).
  pose proof (digit_of_pretty_N_char _ Hm) as Hd.
  destruct (decide (x `div` 10 = 0)%N) as [Hz|Hnz].
  - exists [pretty_N_char (x `mod` 10)]. split_and!; [done| |..].
    + constructor; [by eexists|constructor].
    + intros s. by rewrite pretty_N_go_step, Hz, pretty_N_go_0.
    + intros acc count b. cbn [int_scan int_step mbind option_bind length].
      rewrite Hd. cbn [mbind option_bind].
      rewrite N.mod_small by (apply N.div_small_iff; lia).
      change (10 ^ Z.of_nat 1) with 10.
      replace (count + 1)%nat with (S count) by lia.
      replace (acc * 10) with (10 * acc) by lia. done.
  - destruct (IH (x `div` 10)%N) as (ds & Hne & Hds & Hchars & Hscan);
      [apply N.div_lt; lia|by apply N.neq_0_lt_0|].
    exists (ds ++ [pretty_N_char (x `mod` 10)]). split_and!.
    + by destruct ds.
    + apply Forall_app. split; [done|]. constructor; [by eexists|constructor].
    + intros s. rewrite pretty_N_go_step, Hchars, <- app_assoc by done. done.
    + intros acc count b. rewrite int_scan_app, Hscan.
      cbn [int_scan int_step mbind option_bind]. rewrite Hd.
      cbn [mbind option_bind]. rewrite length_app. cbn [length].
      rewrite Nat2Z.inj_add, Z.pow_add_r by lia.
      change (10 ^ Z.of_nat 1) with 10.
      rewrite N2Z.inj_mod, N2Z.inj_div. change (Z.of_N 10) with 10.
      pose proof (Z.div_mod (Z.of_N x) 10).
      replace (count + (length ds + 1))%nat with (S (count + length ds)) by lia.
      replace (acc * (10 ^ Z.of_nat (length ds) * 10) + Z.of_N x)
        with (10 * (acc * 10 ^ Z.of_nat (length ds) + Z.of_N x `div` 10)
              + Z.of_N x `mod` 10) by lia.
      done.
Qed.

(** [int] of the digits of a positive number. *)
Lemma int_digits_pretty (p : positive) :
  ∃ ds, String.list_ascii_of_string (pretty p) = ds ∧
    Forall (λ c, is_Some (digit_of c)) ds ∧ ds ≠ [] ∧
    ((length ds ≤ int_max_str_digits)%nat → int_digits ds = Ok (Z.pos p)).
Proof.
  destruct (pretty_N_go_digits (N.pos p)) as (ds & Hne & Hds & Hchars & Hscan);
    [lia|].
  exists ds. split_and!; try done.
  - unfold pretty, pretty_positive, pretty, pretty_N.
    rewrite decide_False by done. rewrite Hchars. apply app_nil_r.
  - intros Hlen. unfold int_digits. rewrite Hscan.
    by rewrite bool_decide_eq_true_2.
Qed.

Lemma int_signed_unsigned c l :
  c ≠ "-"%char → c ≠ "+"%char → int_signed (c :: l) = int_digits (c :: l).
Proof.
  intros Hm Hp. by destruct c as [[] [] [] [] [] [] [] []].
Qed.

Lemma Forall_digit_no_space ds :
  Forall (λ c, is_Some (digit_of c)) ds → Forall (λ c, is_space c = false) ds.
Proof. intros Hds. eapply Forall_impl; [done|]. apply digit_not_space. Qed.

(** ** Theorems *)

(** [int(str(n))] is [n], for the other components. *)
Lemma py_int_roundtrip (n : Z) :
  (String.length (pretty n) ≤ int_max_str_digits)%nat →
  py_int (pretty n) = Ok n.
Proof.
  destruct n as [|p|p]; [done|..]; intros Hlen;
    destruct (int_digits_pretty p) as (ds & Hchars & Hds & Hne & Hint);
    unfold py_int.
  - change (pretty (Z.pos p)) with (pretty p) in *.
    rewrite <- list_ascii_of_string_length, Hchars in Hlen. rewrite Hchars.
    rewrite py_strip_no_space by (by apply Forall_digit_no_space).
    destruct ds as [|c l]; [done|].
    destruct (digit_not_sign c) as [? ?]; [by inversion Hds|].
    rewrite int_signed_unsigned by done. by apply Hint.
  - change (pretty (Z.neg p)) with ("-" +:+ pretty p) in *.
    rewrite <- list_ascii_of_string_length in Hlen.
    rewrite list_ascii_of_string_app, Hchars in *.
    rewrite py_strip_no_space
      by (constructor; [done|by apply Forall_digit_no_space]).
    simpl in *. rewrite Hint by lia. done.
Qed.

(** The texts [int] accepts and refuses, as CPython does: blanks
    around the number, a sign and underscores between digits are
    accepted; an empty text, a decimal point, a doubled or trailing
    underscore and a sign alone are refused with [ValueError]. *)
Theorem py_int_examples :
  py_int " 5 " = Ok 5 ∧ py_int "+07" = Ok 7 ∧ py_int "-1_000" = Ok (-1000) ∧
  py_int "" = Raise ValueError ∧ py_int "2.5" = Raise ValueError ∧
  py_int "1__0" = Raise ValueError ∧ py_int "10_" = Raise ValueError ∧
  py_int "-" = Raise ValueError ∧ py_int "five" = Raise ValueError.
Proof. by vm_compute. Qed.
