(* ===== verification/Monitor.v ===== *)
(** * Monitor: [monitor_once], [monitor_continuous], [main]

    [monitor_once] (src/tools/system_monitor.py, lines 299-316) runs the
    probes and the displays in turn.  What the operating system answers
    during one run is a [host]: the sources of the four probes and of the
    heading.  [HAS_PSUTIL] and [self.system] are fixed for the run of the
    program.

    [monitor_continuous] (lines 320-328) repeats [monitor_once] until a
    keyboard interrupt.  The loop is run on a schedule, the list of the
    iterations the operating system lets happen: each holds the answers
    of that round and whether the screen clearing and the sleep return.
    A schedule that ends before the interrupt leaves the loop
    [StillRunning]; [loop_step] is the same loop as a transition
    relation.

    [main] (lines 331-347) chooses between the two from [sys.argv]. *)

From Stdlib Require Import ZArith Lia Ascii.
From stdpp Require Import base tactics option list strings numbers pretty
  relations gmap.
From S2P Require Import Prelude Decimal PyFloat Binary64 ByteFormatter.
From S2P Require Import ProcessRanker ResourceProbe TextFormat Display ProcessTable PyInt.

#[local] Open Scope Z_scope.

(** What the operating system answers during one [monitor_once]. *)
Record host (F : Type) : Type := {
  host_platform : platform_source;
  host_cpu : cpu_source F;
  host_memory : memory_source F;
  host_disk : disk_source;
  host_processes : process_source F;
}.
Arguments host_platform {F} _.
Arguments host_cpu {F} _.
Arguments host_memory {F} _.
Arguments host_disk {F} _.
Arguments host_processes {F} _.

(** One round of the refresh loop. *)
Record iteration (F : Type) : Type := {
  (** [os.system('cls' or 'clear')], its status dropped. *)
  os_system : result unit;
  iter_host : host F;
  (** What interrupts [time.sleep(interval)], if anything. *)
  time_sleep : result unit;
}.
Arguments os_system {F} _.
Arguments iter_host {F} _.
Arguments time_sleep {F} _.

(** How a method that loops ended on a schedule. *)
Inductive outcome : Type :=
  | Returned
  | StillRunning.

#[export] Instance outcome_eq_dec : EqDecision outcome.
Proof. solve_decision. Defined.

(** [time.sleep(interval)] for an int: a negative length is refused. *)
Definition py_sleep (interval : Z) (answer : result unit) : result unit :=
  if bool_decide (interval < 0) then Raise ValueError else answer.

Section code.
Context `{PyFloatOps F}.
Variables (has_psutil : bool) (system : string).

Definition monitor_once (os : host F) : printed F unit :=
  _ ← display_header system (host_platform os);
  let cpu_info := get_cpu_info has_psutil system (host_cpu os) in
  _ ← display_cpu_info cpu_info;
  let memory_info := get_memory_info has_psutil (host_memory os) in
  _ ← display_memory_info memory_info;
  let disk_info := get_disk_info has_psutil system (host_disk os) in
  _ ← display_disk_info disk_info;
  processes ← quiet (get_top_processes has_psutil (host_processes os) 10);
  _ ← display_processes processes;
  print [Text (py_repeat "=" 60)].

(** Lines 323-326: the body of the loop. *)
Definition refresh (interval : Z) (it : iteration F) : printed F unit :=
  _ ← quiet (os_system it);
  _ ← monitor_once (iter_host it);
  _ ← print [Text (nl +:+ "⏱️  Refreshing every " +:+ pretty interval
                   +:+ " seconds... Press Ctrl+C to stop")];
  quiet (py_sleep interval (time_sleep it)).

(** Line 322: [while True], on the rounds of the schedule. *)
Fixpoint refresh_loop (interval : Z) (schedule : list (iteration F)) :
    printed F outcome :=
  match schedule with
  | [] => mret StillRunning
  | it :: rest => _ ← refresh interval it; refresh_loop interval rest
  end.

Definition goodbye : line F :=
  [Text (nl +:+ nl +:+ "👋 Monitoring stopped. Goodbye!")].

Definition monitor_continuous (interval : Z) (schedule : list (iteration F)) :
    printed F outcome :=
  printed_try_except (refresh_loop interval schedule) is_KeyboardInterrupt
    (λ _, _ ← print goodbye; mret Returned).

(** Lines 335-340: the interval from the third argument. *)
Definition parse_interval (argv : list string) : printed F Z :=
  if bool_decide (2 < length argv)%nat then
    printed_try_except
      (quiet (arg ← from_option Ok (Raise IndexError) (argv !! 2%nat);
              py_int arg))
      is_ValueError
      (λ _, _ ← print [Text "⚠️  Invalid interval. Using default of 2 seconds."];
            mret 2)
  else mret 2.

Definition main (argv : list string) (os : host F)
    (schedule : list (iteration F)) : printed F outcome :=
  if bool_decide (1 < length argv)%nat
     && bool_decide (argv !! 1%nat = Some "--continuous") then
    interval ← parse_interval argv;
    monitor_continuous interval schedule
  else
    _ ← monitor_once os;
    _ ← print [Text (nl +:+ "💡 For continuous monitoring, run:")];
    _ ← print [Text "   python system_monitor.py --continuous [interval_seconds]"];
    mret Returned.

(** ** The loop as a transition relation *)

(** A state of [monitor_continuous]: looping with the lines printed so
    far and the rounds to come, or ended. *)
Inductive loop_state : Type :=
  | Looping (out : list (line F)) (schedule : list (iteration F))
  | Ended (out : list (line F)) (r : result outcome).

Inductive loop_step (interval : Z) : loop_state → loop_state → Prop :=
  | step_round out it rest :
      (refresh interval it).2 = Ok () →
      loop_step interval (Looping out (it :: rest))
        (Looping (out ++ (refresh interval it).1) rest)
  | step_interrupt out it rest :
      (refresh interval it).2 = Raise KeyboardInterrupt →
      loop_step interval (Looping out (it :: rest))
        (Ended (out ++ (refresh interval it).1 ++ [goodbye]) (Ok Returned))
  | step_raise out it rest e :
      (refresh interval it).2 = Raise e → e ≠ KeyboardInterrupt →
      loop_step interval (Looping out (it :: rest))
        (Ended (out ++ (refresh interval it).1) (Raise e))
  | step_exhausted out :
      loop_step interval (Looping out []) (Ended out (Ok StillRunning)).

End code.

(** ** How the methods end *)

Section endings.
Context `{PyFloatBasic F}.
Variables (has_psutil : bool) (system : string).
Implicit Types (os : host F) (it : iteration F)
  (schedule : list (iteration F)) (interval : Z) (e : exn).


(** [monitor_once] ends as the heading, the CPU display and the process
    sampling end: the other steps always return. *)
Lemma monitor_once_snd os :
  (monitor_once has_psutil system os).2 =
    (_ ← (display_header (F:=F) system (host_platform os)).2;
     _ ← (display_cpu_info
            (get_cpu_info has_psutil system (host_cpu os))).2;
     _ ← get_top_processes has_psutil (host_processes os) 10;
     Ok ()).
Proof.
  unfold monitor_once. cbv zeta. rewrite printed_bind_snd.
  destruct (display_header _ _).2 as [[]|]; [|done]. rewrite !result_bind_Ok.
  rewrite printed_bind_snd.
  destruct (display_cpu_info _).2 as [[]|]; [|done]. rewrite !result_bind_Ok.
  rewrite printed_bind_snd, display_memory_info_returns, result_bind_Ok.
  rewrite printed_bind_snd, display_disk_info_returns, result_bind_Ok.
  rewrite printed_bind_snd. cbn [quiet snd].
  destruct (get_top_processes _ _ _) as [l|]; [|done]. rewrite !result_bind_Ok.
  by rewrite printed_bind_snd, display_processes_returns.
Qed.

Lemma refresh_snd interval it :
  (refresh has_psutil system interval it).2 =
    (_ ← os_system it;
     _ ← (monitor_once has_psutil system (iter_host it)).2;
     py_sleep interval (time_sleep it)).
Proof.
  unfold refresh. rewrite printed_bind_snd. cbn [quiet snd].
  destruct (os_system it) as [[]|]; [|done]. rewrite !result_bind_Ok.
  rewrite printed_bind_snd.
  destruct (monitor_once _ _ _).2 as [[]|]; [|done].
  rewrite !result_bind_Ok. by rewrite print_bind.
Qed.

(** The loop on a schedule whose first round returns, or raises. *)
Lemma refresh_loop_cons_Ok interval it schedule :
  (refresh has_psutil system interval it).2 = Ok () →
  refresh_loop has_psutil system interval (it :: schedule)
  = ((refresh has_psutil system interval it).1 ++ (refresh_loop has_psutil system interval schedule).1,
     (refresh_loop has_psutil system interval schedule).2).
Proof.
  intros Hit. cbn [refresh_loop].
  by rewrite (printed_bind_Ok _ _ ()) by done.
Qed.

Lemma refresh_loop_cons_Raise interval it schedule e :
  (refresh has_psutil system interval it).2 = Raise e →
  refresh_loop has_psutil system interval (it :: schedule) = ((refresh has_psutil system interval it).1, Raise e).
Proof.
  intros Hit. cbn [refresh_loop].
  by rewrite (printed_bind_Raise _ _ e) by done.
Qed.

(** The lines of the rounds of a schedule. *)
Definition rounds_output interval schedule : list (line F) :=
  schedule ≫= λ it, (refresh has_psutil system interval it).1.

Lemma refresh_loop_app interval pre schedule :
  Forall (λ it, (refresh has_psutil system interval it).2 = Ok ()) pre →
  refresh_loop has_psutil system interval (pre ++ schedule)
  = (rounds_output interval pre ++ (refresh_loop has_psutil system interval schedule).1,
     (refresh_loop has_psutil system interval schedule).2).
Proof.
  induction 1 as [|it pre Hit _ IH]; [by destruct (refresh_loop _ _)|].
  rewrite <- app_comm_cons, refresh_loop_cons_Ok, IH by done.
  unfold rounds_output. by rewrite bind_cons, <- app_assoc.
Qed.

Lemma monitor_continuous_cons_Ok interval it schedule :
  (refresh has_psutil system interval it).2 = Ok () →
  monitor_continuous has_psutil system interval (it :: schedule)
  = ((refresh has_psutil system interval it).1 ++ (monitor_continuous has_psutil system interval schedule).1,
     (monitor_continuous has_psutil system interval schedule).2).
Proof.
  intros Hit. unfold monitor_continuous, printed_try_except.
  rewrite refresh_loop_cons_Ok by done. cbn [fst snd].
  destruct (refresh_loop _ _ _ schedule) as [out [o|e]]; [done|].
  cbn [fst snd]. destruct (is_KeyboardInterrupt e); [|done].
  by rewrite <- app_assoc.
Qed.

Lemma monitor_continuous_cons_Raise interval it schedule e :
  (refresh has_psutil system interval it).2 = Raise e →
  monitor_continuous has_psutil system interval (it :: schedule)
  = if is_KeyboardInterrupt e
    then ((refresh has_psutil system interval it).1 ++ [goodbye], Ok Returned)
    else ((refresh has_psutil system interval it).1, Raise e).
Proof.
  intros Hit. unfold monitor_continuous, printed_try_except.
  rewrite (refresh_loop_cons_Raise _ _ _ e) by done. cbn [fst snd].
  by destruct (is_KeyboardInterrupt e).
Qed.

End endings.

(** ** Theorems *)

Section theorems.
Context `{PyFloatBasic F}.
Variables (has_psutil : bool) (system : string).
Implicit Types (os : host F) (it : iteration F)
  (schedule pre post : list (iteration F)) (interval : Z) (e : exn)
  (st : loop_state (F:=F)).

(** What a state of the loop leads to. *)
Definition loop_result interval st : list (line F) * result outcome :=
  match st with
  | Looping out schedule =>
      (out ++ (monitor_continuous has_psutil system interval schedule).1,
       (monitor_continuous has_psutil system interval schedule).2)
  | Ended out r => (out, r)
  end.

(** A transition keeps what the state leads to. *)
Lemma loop_step_result interval st st' :
  loop_step has_psutil system interval st st' →
  loop_result interval st = loop_result interval st'.
Proof.
  destruct 1 as [out it rest Hit|out it rest Hit|out it rest e Hit He|out];
    cbn [loop_result].
  - rewrite monitor_continuous_cons_Ok by done. cbn [fst snd].
    by rewrite app_assoc.
  - by rewrite (monitor_continuous_cons_Raise _ _ _ _ _ _ Hit).
  - rewrite (monitor_continuous_cons_Raise _ _ _ _ _ _ Hit).
    unfold is_KeyboardInterrupt. by rewrite bool_decide_eq_false_2.
  - cbn. by rewrite app_nil_r.
Qed.

(** Every state of the loop runs to its end, in one transition for each
    round and one more at most. *)
Lemma loop_run interval schedule out :
  ∃ n, (n ≤ S (length schedule))%nat ∧
    nsteps (loop_step has_psutil system interval) n (Looping out schedule)
      (Ended (loop_result interval (Looping out schedule)).1
             (loop_result interval (Looping out schedule)).2).
Proof.
  revert out. induction schedule as [|it rest IH]; intros out.
  { exists 1%nat. split; [done|]. apply nsteps_once. cbn.
    rewrite app_nil_r. constructor. }
  destruct (refresh has_psutil system interval it).2 as [[]|e] eqn:Hit.
  - rewrite (loop_step_result _ _ _ (step_round _ _ _ out it rest Hit)).
    destruct (IH (out ++ (refresh has_psutil system interval it).1))
      as (n & Hn & Hrun).
    exists (S n). split; [cbn [length]; lia|].
    eapply nsteps_l; [by apply step_round|done].
  - exists 1%nat. split; [cbn [length]; lia|]. apply nsteps_once.
    destruct (decide (e = KeyboardInterrupt)) as [->|He].
    + rewrite (loop_step_result _ _ _ (step_interrupt _ _ _ out it rest Hit)).
      by constructor.
    + rewrite (loop_step_result _ _ _ (step_raise _ _ _ out it rest e Hit He)).
      by constructor.
Qed.


(** C7: [monitor_continuous] computes the run of the refresh loop: the
    transitions from the start of a schedule end in a state with lines
    [out] and ending [r] exactly when [monitor_continuous] prints [out]
    and ends as [r]. *)
Theorem monitor_continuous_steps interval schedule out r :
  rtc (loop_step has_psutil system interval) (Looping [] schedule) (Ended out r)
  ↔ monitor_continuous has_psutil system interval schedule = (out, r).
Proof.
  split.
  - intros Hrun.
    assert (loop_result interval (Looping [] schedule)
            = loop_result interval (Ended out r)) as Hr.
    { induction Hrun as [|st st' st'' Hstep _ IH]; [done|].
      by rewrite (loop_step_result _ _ _ Hstep). }
    cbn in Hr. by destruct (monitor_continuous _ _ _ _).
  - intros Hmc. destruct (loop_run interval schedule []) as (n & _ & Hrun).
    cbn in Hrun. rewrite Hmc in Hrun. by eapply rtc_nsteps_2.
Qed.


(** C10: an interrupt ends the loop with the farewell: when the rounds
    before it return and a round raises [KeyboardInterrupt] (during the
    sleep, the process sampling or the screen clearing),
    [monitor_continuous] prints the lines of those rounds, then
    "Monitoring stopped. Goodbye!", and returns, whatever the schedule
    holds after that round. *)
Theorem monitor_continuous_interrupted interval pre it post :
  Forall (λ it, (refresh has_psutil system interval it).2 = Ok ()) pre →
  (refresh has_psutil system interval it).2 = Raise KeyboardInterrupt →
  monitor_continuous has_psutil system interval (pre ++ it :: post)
  = (rounds_output has_psutil system interval pre
       ++ (refresh has_psutil system interval it).1 ++ [goodbye],
     Ok Returned).
Proof.
  intros Hpre Hit. unfold monitor_continuous.
  rewrite refresh_loop_app by done.
  rewrite (refresh_loop_cons_Raise _ _ _ _ _ KeyboardInterrupt) by done.
  rewrite (printed_try_except_caught _ _ _ KeyboardInterrupt) by done.
  cbn. by rewrite <- app_assoc.
Qed.

(** C21: [monitor_continuous] lets no [KeyboardInterrupt] out, and returns
    only after one: on a schedule whose rounds all return it is still
    running at the end of the schedule. *)
Theorem monitor_continuous_safe interval schedule :
  (monitor_continuous has_psutil system interval schedule).2
    ≠ Raise KeyboardInterrupt ∧
  (Forall (λ it, (refresh has_psutil system interval it).2 = Ok ()) schedule →
   monitor_continuous has_psutil system interval schedule
   = (rounds_output has_psutil system interval schedule, Ok StillRunning)).
Proof.
  split.
  - unfold monitor_continuous, printed_try_except.
    destruct (refresh_loop _ _ _ _) as [out [o|e]]; [done|]. cbn [fst snd].
    unfold is_KeyboardInterrupt. case_bool_decide; [done|]. cbn. congruence.
  - intros Hall. unfold monitor_continuous.
    rewrite <- (app_nil_r schedule), refresh_loop_app by done.
    cbn. by rewrite !app_nil_r.
Qed.

End theorems.

Section errors.
Context `{PyFloatBasic F}.
Variable (system : string).
Implicit Types (has_psutil : bool) (os : host F) (it : iteration F)
  (schedule : list (iteration F)) (interval : Z) (e : exn).

(** What [monitor_once] prints and how it ends when the CPU figures are
    missing: the heading, then [KeyError]. *)
Lemma monitor_once_no_cpu has_psutil os :
  has_psutil = false ∨ ¬ cpu_readable (host_cpu os) →
  (display_header (F:=F) system (host_platform os)).2 = Ok () →
  monitor_once has_psutil system os
  = ((display_header system (host_platform os)).1, Raise KeyError).
Proof.
  intros Hcpu Hh. unfold monitor_once. cbv zeta.
  rewrite (printed_bind_Ok _ _ ()) by done.
  rewrite get_cpu_info_not_readable by done. cbn. by rewrite app_nil_r.
Qed.

(** C8: without [psutil], [monitor_once] never completes: it raises
    [KeyError] after the heading (or what the heading raised), for
    [display_cpu_info] cannot show the fallback of [get_cpu_info]. *)
Theorem monitor_once_without_psutil os :
  ∃ e, (monitor_once false system os).2 = Raise e ∧
    ((display_header (F:=F) system (host_platform os)).2 = Ok () →
     monitor_once false system os
     = ((display_header system (host_platform os)).1, Raise KeyError)).
Proof.
  destruct (display_header (F:=F) system (host_platform os)).2
    as [[]|e] eqn:Hh.
  - exists KeyError. rewrite monitor_once_no_cpu by auto. by split.
  - exists e. split; [|done]. by rewrite monitor_once_snd, Hh.
Qed.

(** C20: [monitor_once] lets out only what the calls of the heading
    raised, the [KeyError] of the CPU display, and a [KeyboardInterrupt]
    during the process sampling; otherwise it returns. *)
Theorem monitor_once_raises has_psutil os e :
  (monitor_once has_psutil system os).2 = Raise e →
  (display_header (F:=F) system (host_platform os)).2 = Raise e
  ∨ e = KeyError ∧ (has_psutil = false ∨ ¬ cpu_readable (host_cpu os))
  ∨ e = KeyboardInterrupt.
Proof.
  rewrite monitor_once_snd.
  destruct (display_header _ _).2 as [[]|]; [|by left].
  rewrite result_bind_Ok. intros He. right.
  destruct (decide (has_psutil = true ∧ cpu_readable (host_cpu os)))
    as [[-> Hr]|Hn].
  - destruct (display_cpu_info_readable system _ Hr) as (out & Hout & _).
    rewrite Hout in He. cbn [snd] in He. rewrite result_bind_Ok in He. right.
    destruct (get_top_processes _ _ _) as [l|e'] eqn:Hl; [done|].
    cbn in He. injection He as <-. revert Hl.
    rewrite get_top_processes_unfold. apply try_except_Exception_escape.
  - assert (has_psutil = false ∨ ¬ cpu_readable (host_cpu os)) as Hcpu.
    { destruct has_psutil; [right|by left]. intros Hr. by destruct Hn. }
    rewrite get_cpu_info_not_readable in He by done. cbn in He.
    injection He as <-. by left.
Qed.

(** C19: a keyboard interrupt during the CPU sampling of [get_cpu_info]
    is swallowed by its bare [except]; the fallback dictionary then makes
    the round raise [KeyError], which [monitor_continuous] does not
    catch: the program ends with a traceback and no farewell. *)
Theorem monitor_continuous_interrupt_swallowed has_psutil interval it schedule :
  os_system it = Ok () →
  (display_header (F:=F) system (host_platform (iter_host it))).2 = Ok () →
  psutil_cpu_percent (host_cpu (iter_host it)) = Raise KeyboardInterrupt →
  monitor_continuous has_psutil system interval (it :: schedule)
  = ((display_header system (host_platform (iter_host it))).1,
     Raise KeyError).
Proof.
  intros Hc Hh Hi.
  assert (¬ cpu_readable (host_cpu (iter_host it))) as Hn.
  { intros (_ & [x Hx] & _). congruence. }
  assert (refresh has_psutil system interval it
          = ((display_header system (host_platform (iter_host it))).1,
             Raise KeyError)) as Hr.
  { unfold refresh. rewrite Hc, quiet_bind_Ok.
    by rewrite monitor_once_no_cpu by auto. }
  rewrite (monitor_continuous_cons_Raise _ _ _ _ _ KeyError)
    by (by rewrite Hr).
  by rewrite Hr.
Qed.

(** C25: a negative interval is refused by [time.sleep] only: the first
    round clears the screen, shows everything and the refresh message,
    and then raises [ValueError], which [monitor_continuous] lets out. *)
Theorem monitor_continuous_negative_interval has_psutil interval it schedule :
  interval < 0 →
  os_system it = Ok () →
  (monitor_once has_psutil system (iter_host it)).2 = Ok () →
  ∃ out,
    monitor_continuous has_psutil system interval (it :: schedule)
    = (out, Raise ValueError) ∧
    (monitor_once has_psutil system (iter_host it)).1 `prefix_of` out.
Proof.
  intros Hneg Hc Hm.
  assert ((refresh has_psutil system interval it).2 = Raise ValueError) as Hr.
  { rewrite refresh_snd, Hc, Hm. cbn. unfold py_sleep.
    by rewrite bool_decide_eq_true_2. }
  eexists. split.
  { by rewrite (monitor_continuous_cons_Raise _ _ _ _ _ ValueError). }
  unfold refresh. rewrite Hc, quiet_bind_Ok. apply printed_bind_prefix.
Qed.

End errors.

Section main_theorems.
Context `{PyFloatOps F}.
Variables (has_psutil : bool) (system : string).
Implicit Types (os : host F) (schedule : list (iteration F))
  (argv : list string) (prog a : string) (n : Z).

Definition invalid_interval : line F :=
  [Text "⚠️  Invalid interval. Using default of 2 seconds."].

(** The interval [main] passes on: the third argument when [int] reads
    it, two seconds otherwise, after a warning when there was a third
    argument. *)
Lemma parse_interval_spec argv :
  parse_interval (F:=F) argv =
    match argv !! 2%nat with
    | None => ([], Ok 2)
    | Some a =>
        match py_int a with
        | Ok n => ([], Ok n)
        | Raise _ => ([invalid_interval], Ok 2)
        end
    end.
Proof.
  unfold parse_interval. case_bool_decide as Hlen.
  - destruct (lookup_lt_is_Some_2 argv 2 Hlen) as [a Ha]. rewrite Ha.
    cbn [from_option]. rewrite result_bind_Ok.
    destruct (py_int a) as [n|e] eqn:Hn; [done|].
    apply py_int_raises_ValueError in Hn as ->. done.
  - by rewrite lookup_ge_None_2 by lia.
Qed.

(** C23: the interval of the command line reaches the loop: for an int [n]
    written in full, [main] with the arguments "--continuous" and
    [str(n)] is [monitor_continuous(n)], whose refresh message shows the
    same text. *)
Theorem main_continuous_interval prog n os schedule :
  (String.length (pretty n) ≤ int_max_str_digits)%nat →
  main has_psutil system [prog; "--continuous"; pretty n] os schedule
  = monitor_continuous has_psutil system n schedule.
Proof.
  intros Hn. unfold main. cbn [length lookup list_lookup].
  rewrite !bool_decide_eq_true_2 by (done || lia). cbn [andb].
  rewrite parse_interval_spec. cbn [lookup list_lookup].
  rewrite (py_int_roundtrip n Hn).
  exact (quiet_bind_Ok n
           (λ interval, monitor_continuous has_psutil system interval schedule)).
Qed.

(** C24: a third argument [int] refuses does not stop [main]: it prints
    the warning and runs the loop with two seconds. *)
Theorem main_invalid_interval prog a os schedule :
  ¬ is_Ok (py_int a) →
  main has_psutil system [prog; "--continuous"; a] os schedule
  = (invalid_interval
       :: (monitor_continuous has_psutil system 2 schedule).1,
     (monitor_continuous has_psutil system 2 schedule).2).
Proof.
  intros Ha. unfold main. cbn [length lookup list_lookup].
  rewrite !bool_decide_eq_true_2 by (done || lia). cbn [andb].
  rewrite parse_interval_spec. cbn [lookup list_lookup].
  destruct (py_int a) as [n|e]; [by destruct Ha; eexists|].
  by rewrite (printed_bind_Ok _ _ 2).
Qed.

(** Without "--continuous" as first argument [main] shows the
    resources once and, when that returns, the two lines of advice. *)
Theorem main_once argv os schedule :
  argv !! 1%nat ≠ Some "--continuous" →
  main has_psutil system argv os schedule =
    _ ← monitor_once has_psutil system os;
    _ ← print [Text (nl +:+ "💡 For continuous monitoring, run:")];
    _ ← print [Text "   python system_monitor.py --continuous [interval_seconds]"];
    mret Returned.
Proof.
  intros Ha. unfold main. rewrite (bool_decide_eq_false_2 (_ = _)) by done.
  by rewrite andb_false_r.
Qed.

End main_theorems.

(** ** Example hosts, witnesses and runs *)

Definition example_platform : platform_source := {|
  platform_platform := Ok "Linux-6.1.0-x86_64-with-glibc2.36";
  platform_python_version := Ok "3.12.1";
  platform_architecture := Ok "64bit";
|}.

Definition example_machine : host float64 := {|
  host_platform := example_platform;
  host_cpu := example_cpu;
  host_memory := example_memory;
  host_disk := example_disks;
  host_processes := example_host;
|}.

(** A round that returns, one interrupted during the sleep, one
    interrupted during the CPU sampling. *)
Definition quiet_round : iteration float64 :=
  {| os_system := Ok (); iter_host := example_machine; time_sleep := Ok () |}.

Definition interrupted_round : iteration float64 :=
  {| os_system := Ok (); iter_host := example_machine;
     time_sleep := Raise KeyboardInterrupt |}.

Definition sampling_interrupted_round : iteration float64 := {|
  os_system := Ok ();
  iter_host := {|
    host_platform := example_platform; host_cpu := interrupted_cpu;
    host_memory := example_memory; host_disk := example_disks;
    host_processes := example_host |};
  time_sleep := Ok ();
|}.

(** The machine when Ctrl-C arrives between the two process passes. *)
Definition interrupted_machine : host float64 := {|
  host_platform := example_platform;
  host_cpu := example_cpu;
  host_memory := example_memory;
  host_disk := example_disks;
  host_processes := interrupted_host;
|}.

Lemma monitor_continuous_interrupted_witness :
  monitor_continuous true "Linux" 2
    ([quiet_round] ++ interrupted_round :: [quiet_round])
  = (rounds_output true "Linux" 2 [quiet_round]
       ++ (refresh true "Linux" 2 interrupted_round).1 ++ [goodbye],
     Ok Returned).
Proof.
  apply monitor_continuous_interrupted; [|by vm_compute].
  constructor; [by vm_compute|constructor].
Defined.

Lemma monitor_once_raises_witness :
  (display_header (F:=float64) "Linux"
     (host_platform interrupted_machine)).2 = Raise KeyboardInterrupt
  ∨ KeyboardInterrupt = KeyError
    ∧ (true = false ∨ ¬ cpu_readable (host_cpu interrupted_machine))
  ∨ KeyboardInterrupt = KeyboardInterrupt.
Proof.
  apply (monitor_once_raises "Linux" true interrupted_machine).
  by vm_compute.
Defined.

Lemma monitor_continuous_interrupt_swallowed_witness :
  monitor_continuous true "Linux" 2 [sampling_interrupted_round]
  = ((display_header "Linux"
        (host_platform (iter_host sampling_interrupted_round))).1,
     Raise KeyError).
Proof. by apply monitor_continuous_interrupt_swallowed. Defined.

Lemma monitor_continuous_negative_interval_witness :
  ∃ out,
    monitor_continuous true "Linux" (-5) [quiet_round]
    = (out, Raise ValueError) ∧
    (monitor_once true "Linux" (iter_host quiet_round)).1 `prefix_of` out.
Proof.
  apply monitor_continuous_negative_interval; [done|done|by vm_compute].
Defined.

Lemma main_continuous_interval_witness :
  main true "Linux" ["system_monitor.py"; "--continuous"; pretty 30]
    example_machine [quiet_round]
  = monitor_continuous true "Linux" 30 [quiet_round].
Proof. apply main_continuous_interval. vm_compute. lia. Defined.

Lemma main_invalid_interval_witness :
  main true "Linux" ["system_monitor.py"; "--continuous"; "fast"]
    example_machine [quiet_round]
  = (invalid_interval :: (monitor_continuous true "Linux" 2 [quiet_round]).1,
     (monitor_continuous true "Linux" 2 [quiet_round]).2).
Proof. apply main_invalid_interval. intros [n Hn]. by vm_compute in Hn. Defined.

(** The screen [monitor_once] prints for the example machine has 23
    lines and ends with the rule; the table of processes is the one of
    [display_processes_scenario]. *)
Example monitor_once_run :
  (monitor_once true "Linux" example_machine).2 = Ok () ∧
  length (monitor_once true "Linux" example_machine).1 = 23%nat ∧
  last (monitor_once true "Linux" example_machine).1
    = Some [Text (py_repeat "=" 60)] ∧
  (monitor_once true "Linux" example_machine).1 !! 7%nat
    = Some [Text (nl +:+ "💻 CPU Usage: "); Repr (b64_of_tenths 125);
            Text "% ("; Text "8"; Text " physical, "; Text "8";
            Text " logical cores)"].
Proof. split_and!; by vm_compute. Qed.

Lemma monitor_once_without_psutil_witness :
  ∃ e, (monitor_once false "Linux" example_machine).2 = Raise e ∧
    ((display_header (F:=float64) "Linux"
        (host_platform example_machine)).2 = Ok () →
     monitor_once false "Linux" example_machine
     = ((display_header "Linux" (host_platform example_machine)).1,
        Raise KeyError)).
Proof. exact (monitor_once_without_psutil "Linux" example_machine). Defined.

Lemma monitor_continuous_safe_witness :
  (monitor_continuous true "Linux" 2 [quiet_round; quiet_round]).2
    ≠ Raise KeyboardInterrupt ∧
  (Forall (λ it, (refresh true "Linux" 2 it).2 = Ok ())
     [quiet_round; quiet_round] →
   monitor_continuous true "Linux" 2 [quiet_round; quiet_round]
   = (rounds_output true "Linux" 2 [quiet_round; quiet_round],
      Ok StillRunning)).
Proof.
  exact (monitor_continuous_safe true "Linux" 2 [quiet_round; quiet_round]).
Defined.


Lemma monitor_continuous_steps_witness :
  rtc (loop_step true "Linux" 2) (Looping [] [interrupted_round])
    (Ended ((refresh true "Linux" 2 interrupted_round).1 ++ [goodbye])
           (Ok Returned))
  ↔ monitor_continuous true "Linux" 2 [interrupted_round]
    = ((refresh true "Linux" 2 interrupted_round).1 ++ [goodbye], Ok Returned).
Proof.
  exact (monitor_continuous_steps true "Linux" 2 [interrupted_round] _ _).
Defined.
